(** * Ubuntu Image Fetcher: a shallow embedding of [ubuntu_image_fetcher.py]

    The fetcher downloads each URL it is given, checks that the response is
    an image, streams it to disk under a size cap while hashing it, and keeps
    a JSON manifest of what it has stored.  This development embeds the
    program as functions over an explicit state (the file system, the
    in-memory manifest, the console) and proves properties of them.

    Conventions.
    - A Python [str] is a [string]: its characters are the code points
      U+0000..U+00FF.  A [bytes] value is a [string] as well.
    - A Python [int] is a [Z].
    - The file system is a finite map from path strings to nodes.  The
      directory tree is left implicit: distinct path strings name distinct
      nodes, and a path can be opened for writing unless it names a
      directory.  That is what the file system of the machine does with
      [Fetched_Images], with the manifest path and with every path
      [Fetched_Images/<name>] whose [<name>] is one plain component
      ([plain_target]); it is not what it does with a name that has a
      slash in it, or that is [.] or [..].  What a download leaves on the
      disk is therefore stated for plain targets; where a statement names
      another path, it names the string the program hands to [open].
    - The limits of the machine (space, permissions, a file that another
      process holds) are not modelled: a call fails for the reasons given
      with its definition and for no other.
    - [print] always succeeds.
    - The standard-library and [requests] functions whose result the program
      only passes along ([hashlib.sha256], [urlparse], [unquote],
      [json.dump], [json.load]) are the fields of the class [PyLib]; what the
      network answers and what the clock shows are inputs of an attempt. *)

From Stdlib Require Import ZArith Ascii String List Lia.
From stdpp Require Import base decidable option list numbers strings pretty
  gmap fin_maps fin_map_dom.

Local Open Scope Z_scope.

(** ** Python strings *)

Module PyStr.

Definition code (c : ascii) : N := N_of_ascii c.

Definition in_range (lo hi : N) (c : ascii) : bool :=
  (N.leb lo (code c) && N.leb (code c) hi)%bool.

(** [str.isspace] on one character. *)
Definition isspace (c : ascii) : bool :=
  (in_range 9 13 c || in_range 28 32 c
   || N.eqb (code c) 133 || N.eqb (code c) 160)%bool.

Definition isdigit_ascii (c : ascii) : bool := in_range 48 57 c.

(** [str.isalnum] on one character: letters, decimal digits, and the
    other characters of numeric type (superscripts, vulgar fractions). *)
Definition isalnum (c : ascii) : bool :=
  (in_range 48 57 c || in_range 65 90 c || in_range 97 122 c
   || N.eqb (code c) 170 || in_range 178 179 c || N.eqb (code c) 181
   || in_range 185 186 c || in_range 188 190 c
   || in_range 192 214 c || in_range 216 246 c || in_range 248 255 c)%bool.

Fixpoint lstrip (p : ascii -> bool) (s : string) : string :=
  match s with
  | EmptyString => EmptyString
  | String c r => if p c then lstrip p r else s
  end.

Fixpoint rstrip (p : ascii -> bool) (s : string) : string :=
  match s with
  | EmptyString => EmptyString
  | String c r =>
      match rstrip p r with
      | EmptyString => if p c then EmptyString else String c EmptyString
      | r' => String c r'
      end
  end.

Definition strip_by (p : ascii -> bool) (s : string) : string :=
  rstrip p (lstrip p s).

(** [s.strip()] *)
Definition strip (s : string) : string := strip_by isspace s.

(** [s.strip(chars)] for a one-character [chars] *)
Definition strip_char (c : ascii) (s : string) : string :=
  strip_by (Ascii.eqb c) s.

(** [s.startswith(p)] *)
Definition startswith (p s : string) : bool := String.prefix p s.

Fixpoint drop (n : nat) (s : string) : string :=
  match n, s with
  | O, _ => s
  | S n', String _ r => drop n' r
  | S _, EmptyString => EmptyString
  end.

(** [sub in s] *)
Fixpoint contains (sub s : string) : bool :=
  if String.prefix sub s then true
  else match s with
       | EmptyString => false
       | String _ r => contains sub r
       end.

(** [s.split(sep, 1)[-1]]: what follows the first occurrence of [sep], or
    all of [s] when [sep] does not occur. *)
Fixpoint after_first_aux (sep s whole : string) : string :=
  if String.prefix sep s then drop (String.length sep) s
  else match s with
       | EmptyString => whole
       | String _ r => after_first_aux sep r whole
       end.

Definition after_first (sep s : string) : string := after_first_aux sep s s.

(** [[c for c in s if p(c)]] joined back into a string *)
Fixpoint filter (p : ascii -> bool) (s : string) : string :=
  match s with
  | EmptyString => EmptyString
  | String c r => if p c then String c (filter p r) else filter p r
  end.

Fixpoint mem (c : ascii) (s : string) : bool :=
  match s with
  | EmptyString => false
  | String d r => (Ascii.eqb c d || mem c r)%bool
  end.

Definition is_empty (s : string) : bool :=
  match s with EmptyString => true | _ => false end.

(** [len(s)] *)
Definition len (s : string) : Z := Z.of_nat (String.length s).

(** [s[:n]] *)
Fixpoint take (n : nat) (s : string) : string :=
  match n, s with
  | S n', String c r => String c (take n' r)
  | _, _ => EmptyString
  end.

(** [s.split(sep)] for a one-character separator: empty fields are kept. *)
Fixpoint split_char_go (sep : ascii) (cur : string) (s : string) : list string :=
  match s with
  | EmptyString => [String.rev cur]
  | String c r =>
      if Ascii.eqb c sep then String.rev cur :: split_char_go sep EmptyString r
      else split_char_go sep (String c cur) r
  end.

Definition split_char (sep : ascii) (s : string) : list string :=
  split_char_go sep EmptyString s.

(** [s.split()]: fields between runs of whitespace, none of them empty. *)
Fixpoint split_ws_go (cur : option string) (s : string) : list string :=
  match s with
  | EmptyString => option_list (String.rev <$> cur)
  | String c r =>
      if isspace c then option_list (String.rev <$> cur) ++ split_ws_go None r
      else split_ws_go (Some (String c (default EmptyString cur))) r
  end.

Definition split_ws (s : string) : list string := split_ws_go None s.

Definition is_int_space (c : ascii) : bool :=
  (in_range 9 13 c || N.eqb (code c) 32
   || N.eqb (code c) 133 || N.eqb (code c) 160)%bool.

Definition digit_val (c : ascii) : Z := Z.of_N (code c) - 48.

(** The digits of an integer literal: single underscores may separate
    digits.  [prev] tells whether the previous character was a digit. *)
Fixpoint int_digits (s : string) (prev : bool) (acc : Z) : option Z :=
  match s with
  | EmptyString => if prev then Some acc else None
  | String c r =>
      if isdigit_ascii c then int_digits r true (10 * acc + digit_val c)
      else if (Ascii.eqb c "_" && prev)%bool then int_digits r false acc
      else None
  end.

Fixpoint count_digits (s : string) : Z :=
  match s with
  | EmptyString => 0
  | String c r => (if isdigit_ascii c then 1 else 0) + count_digits r
  end.

(** [int(s)]: [None] stands for [ValueError].  The interpreter refuses a
    literal of more than 4300 digits. *)
Definition int (s : string) : option Z :=
  let t := strip_by is_int_space s in
  if 4300 <? count_digits t then None
  else
    match t with
    | String "+" r => int_digits r false 0
    | String "-" r => Z.opp <$> int_digits r false 0
    | r => int_digits r false 0
    end.

(** [n / 1024 / 1024] for an [int] [n]: the first division gives a [float],
    and raises [OverflowError] when the quotient, rounded to the nearest
    [float], is too large for one. *)
Definition true_div_overflows (n : Z) : bool := (2 ^ 54 - 1) * 2 ^ 980 <=? n.

End PyStr.

(** ** POSIX paths ([os.path] on a POSIX system) *)

Module PosixPath.

(** The path split after its last ["/"]: the head keeps the separator. *)
Fixpoint split_last_sep (p : string) : string * string :=
  match p with
  | EmptyString => (EmptyString, EmptyString)
  | String c r =>
      let '(h, t) := split_last_sep r in
      if negb (PyStr.is_empty h) then (String c h, t)
      else if Ascii.eqb c "/" then (String c EmptyString, r)
      else (EmptyString, String c t)
  end.

(** [os.path.basename] *)
Definition basename (p : string) : string := snd (split_last_sep p).

(** A name split before its last ["."], when it has one. *)
Fixpoint rsplit_dot (s : string) : option (string * string) :=
  match s with
  | EmptyString => None
  | String c r =>
      match rsplit_dot r with
      | Some (a, b) => Some (String c a, b)
      | None => if Ascii.eqb c "." then Some (EmptyString, s) else None
      end
  end.

Fixpoint all_dots (s : string) : bool :=
  match s with
  | EmptyString => true
  | String c r => (Ascii.eqb c "." && all_dots r)%bool
  end.

(** [os.path.splitext]: the extension starts at the last dot of the last
    component, and leading dots of that component do not start one. *)
Definition splitext (p : string) : string * string :=
  let '(h, name) := split_last_sep p in
  match rsplit_dot name with
  | Some (a, b) => if all_dots a then (p, EmptyString) else (h +:+ a, b)
  | None => (p, EmptyString)
  end.

Fixpoint ends_with_sep (s : string) : bool :=
  match s with
  | EmptyString => false
  | String c EmptyString => Ascii.eqb c "/"
  | String _ r => ends_with_sep r
  end.

(** [os.path.join(a, b)] *)
Definition join (a b : string) : string :=
  if PyStr.startswith "/" b then b
  else if (PyStr.is_empty a || ends_with_sep a)%bool then a +:+ b
  else a +:+ "/" +:+ b.

End PosixPath.

(** ** JSON values as Python objects

    What [json.load] returns: [None], [bool], [int], [float], [str], [list]
    and [dict].  A [dict] keeps its keys in insertion order, so it is an
    association list; a [float] is kept as its literal. *)

#[warnings="-register-all"]
Inductive json : Type :=
  | JNull
  | JBool (b : bool)
  | JNum (n : Z)
  | JFloat (lit : string)
  | JStr (s : string)
  | JArr (items : list json)
  | JObj (members : list (string * json)).

(** The exception classes the program can meet.  [HTTPError] and the
    connection errors of [requests] are [RequestException]s; [SystemExit] is
    the only one that is not an [Exception]. *)
Inductive exn : Type :=
  | RequestException
  | OSError
  | ValueError
  | OverflowError
  | TypeError
  | KeyError
  | AttributeError
  | SystemExit (code : Z).

Definition is_RequestException (e : exn) : bool :=
  match e with RequestException => true | _ => false end.

Definition is_Exception (e : exn) : bool :=
  match e with SystemExit _ => false | _ => true end.

(** The result of a Python expression: a value or a raised exception. *)
Inductive res (A : Type) : Type :=
  | Val (a : A)
  | Exc (e : exn).
Arguments Val {A} a.
Arguments Exc {A} e.

Module PyObj.

(** [d.get(k)] on the members of a [dict] *)
Fixpoint dict_get (k : string) (d : list (string * json)) : option json :=
  match d with
  | [] => None
  | (k', v) :: r => if String.eqb k k' then Some v else dict_get k r
  end.

(** [d[k] = v] on the members of a [dict]: a key already present keeps its
    place, a new key goes last. *)
Fixpoint dict_set (k : string) (v : json) (d : list (string * json))
  : list (string * json) :=
  match d with
  | [] => [(k, v)]
  | (k', v') :: r =>
      if String.eqb k k' then (k, v) :: r else (k', v') :: dict_set k v r
  end.

Definition is_str (s : string) (j : json) : bool :=
  match j with JStr t => String.eqb s t | _ => false end.

(** [o[k]] for a [str] key *)
Definition getitem (o : json) (k : string) : res json :=
  match o with
  | JObj d => match dict_get k d with Some v => Val v | None => Exc KeyError end
  | _ => Exc TypeError
  end.

(** [k in o] for a [str] [k]: a key of a [dict], an item of a [list], a
    substring of a [str]; the other objects are not iterable. *)
Definition contains (k : string) (o : json) : res bool :=
  match o with
  | JObj d => Val (bool_decide (is_Some (dict_get k d)))
  | JArr l => Val (existsb (is_str k) l)
  | JStr s => Val (PyStr.contains k s)
  | _ => Exc TypeError
  end.

(** [o[k] = v] for a [str] key *)
Definition setitem (o : json) (k : string) (v : json) : res json :=
  match o with
  | JObj d => Val (JObj (dict_set k v d))
  | _ => Exc TypeError
  end.

(** [o.append(v)] *)
Definition append (o : json) (v : json) : res json :=
  match o with
  | JArr l => Val (JArr (l ++ [v]))
  | _ => Exc AttributeError
  end.

End PyObj.

(** ** Library functions the program passes data through *)

Class PyLib : Type := {
  (** [hashlib.sha256(data).hexdigest()] *)
  sha256_hexdigest : string -> string;
  (** [urlparse(url).path] *)
  urlparse_path : string -> string;
  (** [urllib.parse.unquote] *)
  unquote : string -> string;
  (** the chunks [json.dump(m, f, indent=2)] writes to [f], in order *)
  json_iterencode : json -> list string;
  (** [json.load] of a file with these bytes; [None] when decoding or
      parsing raises *)
  json_load : string -> option json;
}.

(** The text [json.dump] leaves in the file once every chunk is written. *)
Definition json_dumps {lib : PyLib} (m : json) : string :=
  fold_right String.append EmptyString (json_iterencode m).

(** ** The file system, the network and the program state *)

Inductive node : Type :=
  | File (data : string)
  | Dir.

Record response : Type := {
  status : Z;
  (** header values under the names the program asks for *)
  headers : gmap string string;
}.

Inductive head_reply : Type :=
  | HeadFails                 (* [requests.head] raises a [RequestException] *)
  | HeadResponse (r : response).

Inductive stream_end : Type :=
  | StreamEnds                (* [iter_content] is exhausted *)
  | StreamFails.              (* [iter_content] raises a [RequestException] *)

Inductive get_reply : Type :=
  | GetFails                  (* [requests.get] raises a [RequestException] *)
  | GetResponse (r : response) (chunks : list string) (e : stream_end).

(** What the world outside answers during one attempt: the replies to the
    two requests, and the readings [int(time.time()*1000)] would give where
    [safe_filename_from_url] asks for them. *)
Record attempt_env : Type := {
  head_of : head_reply;
  get_of : get_reply;
  clock_downloaded : Z;
  clock_image : Z;
}.

(** The lines the program prints, by the [print] statement they come from. *)
Inductive message : Type :=
  | MsgSkippedNotImage (url : string)
  | MsgSkippedTooLarge (clen : Z) (url : string)
  | MsgNotImage (ctype : string) (url : string)
  | MsgAborted (url : string)
  | MsgDuplicate (existing : json) (url : string)
  | MsgFetched (name : string)
  | MsgSaved (path : string)
  | MsgConnectionError (e : exn)
  | MsgError (e : exn)
  | MsgWelcome
  | MsgTagline
  | MsgNoUrl
  | MsgFarewell.

Record state : Type := {
  fs : gmap string node;
  manifest : json;
  console : list message;
}.

Definition set_fs (f : gmap string node -> gmap string node) (s : state) : state :=
  {| fs := f (fs s); manifest := manifest s; console := console s |}.

Definition set_manifest (m : json) (s : state) : state :=
  {| fs := fs s; manifest := m; console := console s |}.

Definition add_console (msg : message) (s : state) : state :=
  {| fs := fs s; manifest := manifest s; console := console s ++ [msg] |}.

(** ** Statements: state, exceptions and early [return] *)

Inductive ctl (A : Type) : Type :=
  | Normal (a : A)
  | Returned                  (* a [return] statement was executed *)
  | Raised (e : exn).
Arguments Normal {A} a.
Arguments Returned {A}.
Arguments Raised {A} e.

Definition M (A : Type) : Type := state -> state * ctl A.

Definition ret {A} (a : A) : M A := fun s => (s, Normal a).

Definition bind {A B} (m : M A) (f : A -> M B) : M B :=
  fun s =>
    match m s with
    | (s', Normal a) => f a s'
    | (s', Returned) => (s', Returned)
    | (s', Raised e) => (s', Raised e)
    end.

Definition raise {A} (e : exn) : M A := fun s => (s, Raised e).

Definition return_ {A} : M A := fun s => (s, Returned).

Definition lift {A} (r : res A) : M A :=
  match r with Val a => ret a | Exc e => raise e end.

(** [try: m except ...: h] *)
Definition try_except {A} (m : M A) (h : exn -> M A) : M A :=
  fun s =>
    match m s with
    | (s', Raised e) => h e s'
    | r => r
    end.

(** The call of a function whose body is [m] and which returns [None]. *)
Definition call (m : M unit) : M unit :=
  fun s =>
    match m s with
    | (s', Returned) => (s', Normal tt)
    | r => r
    end.

Definition get_state : M state := fun s => (s, Normal s).

Definition modify (f : state -> state) : M unit := fun s => (f s, Normal tt).

Declare Scope py_scope.
Delimit Scope py_scope with py.
Notation "x <- m ;; k" := (bind m (fun x => k))
  (at level 100, m at next level, right associativity) : py_scope.
Notation "m ;;; k" := (bind m (fun _ => k))
  (at level 100, right associativity) : py_scope.
Local Open Scope py_scope.

Definition print (msg : message) : M unit := modify (add_console msg).

Fixpoint for_each {A} (l : list A) (f : A -> M unit) : M unit :=
  match l with
  | [] => ret tt
  | x :: r => f x ;;; for_each r f
  end.

(** ** Operating-system calls *)

Module Os.

(** [os.path.exists(p)], for a path that is written in one way only *)
Definition path_exists (p : string) : M bool :=
  s <- get_state ;; ret (bool_decide (is_Some (fs s !! p))).

(** [os.makedirs(p, exist_ok=True)] for a path of one component: an
    existing directory is accepted, an existing file is an error. *)
Definition makedirs (p : string) : M unit :=
  s <- get_state ;;
  match fs s !! p with
  | Some Dir => ret tt
  | Some (File _) => raise OSError
  | None => modify (set_fs (insert p Dir))
  end.

(** [open(p, "w")] and [open(p, "wb")]: the file is created or truncated;
    a directory cannot be opened.  The directory the path lies in is taken
    to be there, as it is for a path in [Fetched_Images] once
    [os.makedirs] has returned. *)
Definition open_write (p : string) : M unit :=
  s <- get_state ;;
  match fs s !! p with
  | Some Dir => raise OSError
  | _ => modify (set_fs (insert p (File EmptyString)))
  end.

Definition append_data (data : string) (n : node) : node :=
  match n with
  | File old => File (old +:+ data)
  | Dir => Dir
  end.

(** [f.write(data)] on the file opened at [p] *)
Definition write (p data : string) : M unit :=
  modify (set_fs (alter (append_data data) p)).

(** [os.remove(p)] *)
Definition remove (p : string) : M unit :=
  s <- get_state ;;
  match fs s !! p with
  | Some (File _) => modify (set_fs (delete p))
  | _ => raise OSError
  end.

(** [open(p, "r")] followed by reading the whole file *)
Definition read_file (p : string) : M string :=
  s <- get_state ;;
  match fs s !! p with
  | Some (File data) => ret data
  | _ => raise OSError
  end.

End Os.

(** ** The program *)

Definition FETCH_DIR : string := "Fetched_Images".
Definition MANIFEST : string := PosixPath.join FETCH_DIR "_manifest.json".
Definition MAX_BYTES : Z := 15 * 1024 * 1024.

Definition default_manifest : json :=
  JObj [("hashes", JObj []); ("files", JArr [])].

Definition get_manifest : M json := s <- get_state ;; ret (manifest s).

Definition put_manifest (m : json) : M unit := modify (set_manifest m).

(** The object [m] after one of its members was mutated in place. *)
Definition update_member (m : json) (k : string) (v : json) : json :=
  match m with
  | JObj d => JObj (PyObj.dict_set k v d)
  | _ => m
  end.

Section Program.
Context {lib : PyLib}.

Definition load_manifest : M json :=
  present <- Os.path_exists MANIFEST ;;
  if present then
    try_except
      (data <- Os.read_file MANIFEST ;;
       match json_load data with
       | Some j => ret j
       | None => raise ValueError
       end)
      (fun e => if is_Exception e then ret default_manifest else raise e)
  else ret default_manifest.

Definition save_manifest (m : json) : M unit :=
  Os.open_write MANIFEST ;;;
  for_each (json_iterencode m) (Os.write MANIFEST).

(** Lines 36-37: the loop over the blocks [f.read(size)] returns.  [rest]
    is what the file still holds and [h] what the hash object has been fed;
    the loop ends at the first empty block.  One test more than the file
    has bytes is enough for that ([read_blocks_whole_file]). *)
Fixpoint read_blocks (size fuel : nat) (rest h : string) : string :=
  match fuel with
  | O => h
  | S fuel' =>
      let chunk := PyStr.take size rest in
      if PyStr.is_empty chunk then h
      else read_blocks size fuel' (PyStr.drop size rest) (h +:+ chunk)
  end.

(** [sha256_file], which the program defines and does not call. *)
Definition sha256_file (path : string) : M string :=
  data <- Os.read_file path ;;
  ret (sha256_hexdigest
         (read_blocks (N.to_nat 8192) (S (String.length data)) data EmptyString)).

(** [c.isalnum() or c in ("-", "_", ".", " ")] *)
Definition keeps (c : ascii) : bool :=
  (PyStr.isalnum c || PyStr.mem c "-_. ")%bool.

Definition safe_filename_from_url (url : string) (env : attempt_env) : string :=
  let name := PosixPath.basename (urlparse_path url) in
  let name := PyStr.strip (unquote name) in
  let name :=
    if (PyStr.is_empty name || negb (PyStr.contains "." name))%bool
    then "downloaded_" +:+ pretty (clock_downloaded env) +:+ ".jpg"
    else name in
  let name := PyStr.filter keeps name in
  if PyStr.is_empty name
  then "image_" +:+ pretty (clock_image env) +:+ ".jpg"
  else name.

(** [resp.headers.get(k, d)] *)
Definition header (r : response) (k d : string) : string :=
  default d (headers r !! k).

Definition dquote : ascii := ascii_of_nat 34.
Definition squote : ascii := ascii_of_nat 39.

Definition filename_from_headers (r : response) : option string :=
  let cd := header r "Content-Disposition" EmptyString in
  if PyStr.contains "filename=" cd then
    let part := PyStr.strip_char ";" (PyStr.strip (PyStr.after_first "filename=" cd)) in
    let part := PyStr.strip_char squote (PyStr.strip_char dquote part) in
    if PyStr.is_empty part then None else Some part
  else None.

Definition path_taken (fs : gmap string node) (p : string) : bool :=
  bool_decide (is_Some (fs !! p)).

(** The [while] loop of [ensure_unique_path], for at most [fuel] tests of
    [os.path.exists]. *)
Fixpoint ensure_unique_loop (fuel : nat) (fs : gmap string node)
    (base ext path : string) (i : Z) : option string :=
  match fuel with
  | O => None
  | S fuel' =>
      if path_taken fs path
      then ensure_unique_loop fuel' fs base ext
             (base +:+ " (" +:+ pretty i +:+ ")" +:+ ext) (i + 1)
      else Some path
  end.

(** One test more than the file system has entries is enough for the loop
    to end ([ensure_unique_loop_total]), so the [default] is never used. *)
Definition ensure_unique_path (fs : gmap string node) (path : string) : string :=
  let '(base, ext) := PosixPath.splitext path in
  default path (ensure_unique_loop (S (size fs)) fs base ext path 1).

Definition is_image_response (r : response) : bool :=
  PyStr.startswith "image/" (header r "Content-Type" EmptyString).

(** [resp.ok]: the status is not a 4xx or 5xx one. *)
Definition ok (r : response) : bool :=
  negb ((400 <=? status r) && (status r <? 600)).

Definition requests_head (env : attempt_env) : M response :=
  match head_of env with
  | HeadFails => raise RequestException
  | HeadResponse r => ret r
  end.

Definition requests_get (env : attempt_env)
  : M (response * list string * stream_end) :=
  match get_of env with
  | GetFails => raise RequestException
  | GetResponse r chunks e => ret (r, chunks, e)
  end.

Definition raise_for_status (r : response) : M unit :=
  if ok r then ret tt else raise RequestException.

Definition py_int (s : string) : M Z :=
  match PyStr.int s with
  | Some n => ret n
  | None => raise ValueError
  end.

(** The size in the notice of line 86, [int(clen)/1024/1024]. *)
Definition py_megabytes (n : Z) : M unit :=
  if PyStr.true_div_overflows n then raise OverflowError else ret tt.

(** Lines 78-90: the [HEAD] probe. *)
Definition probe (url : string) (env : attempt_env) : M unit :=
  try_except
    (head <- requests_head env ;;
     if ok head then
       (if negb (PyStr.startswith "image/" (header head "Content-Type" EmptyString))
        then print (MsgSkippedNotImage url) ;;; return_
        else ret tt) ;;;
       match headers head !! "Content-Length" with
       | None => ret tt
       | Some clen =>
           if PyStr.is_empty clen then ret tt
           else
             n <- py_int clen ;;
             if n >? MAX_BYTES
             then
               py_megabytes n ;;;
               print (MsgSkippedTooLarge n url) ;;;
               return_
             else ret tt
       end
     else ret tt)
    (fun e => if is_RequestException e then ret tt else raise e).

(** Lines 106-116: the loop over [r.iter_content].  [h] is what the hash
    object has been fed so far, [total] the running byte count. *)
Fixpoint stream_chunks (url out_path : string) (chunks : list string)
    (e : stream_end) (h : string) (total : Z) : M (string * Z) :=
  match chunks with
  | [] =>
      match e with
      | StreamEnds => ret (h, total)
      | StreamFails => raise RequestException
      end
  | chunk :: rest =>
      if PyStr.is_empty chunk then stream_chunks url out_path rest e h total
      else
        let total := total + PyStr.len chunk in
        if total >? MAX_BYTES then
          Os.remove out_path ;;;
          print (MsgAborted url) ;;;
          return_
        else
          Os.write out_path chunk ;;;
          stream_chunks url out_path rest e (h +:+ chunk) total
  end.

(** Lines 118-132: the duplicate check and the record step. *)
Definition record_or_skip (url out_path file_hash : string) : M unit :=
  m <- get_manifest ;;
  hashes <- lift (PyObj.getitem m "hashes") ;;
  dup <- lift (PyObj.contains file_hash hashes) ;;
  if dup : bool then
    Os.remove out_path ;;;
    m <- get_manifest ;;
    hashes <- lift (PyObj.getitem m "hashes") ;;
    existing <- lift (PyObj.getitem hashes file_hash) ;;
    print (MsgDuplicate existing url) ;;;
    return_
  else
    let name := PosixPath.basename out_path in
    m <- get_manifest ;;
    hashes <- lift (PyObj.getitem m "hashes") ;;
    hashes' <- lift (PyObj.setitem hashes file_hash (JStr name)) ;;
    put_manifest (update_member m "hashes" hashes') ;;;
    m <- get_manifest ;;
    files <- lift (PyObj.getitem m "files") ;;
    files' <- lift (PyObj.append files (JStr name)) ;;
    put_manifest (update_member m "files" files') ;;;
    m <- get_manifest ;;
    save_manifest m ;;;
    print (MsgFetched name) ;;;
    print (MsgSaved out_path).

(** Line 99: [filename_from_headers(r) or safe_filename_from_url(url)];
    the right operand is evaluated only when the left one is [None] or
    empty. *)
Definition choose_filename (r : response) (url : string) (env : attempt_env) : string :=
  match filename_from_headers r with
  | Some n => if PyStr.is_empty n then safe_filename_from_url url env else n
  | None => safe_filename_from_url url env
  end.

(** Lines 92-132: the [with requests.get(...)] block. *)
Definition fetch_and_store (url : string) (env : attempt_env) : M unit :=
  got <- requests_get env ;;
  let '(r, chunks, e) := got in
  raise_for_status r ;;;
  if negb (is_image_response r) then
    print (MsgNotImage (header r "Content-Type" "?") url) ;;;
    return_
  else
    let fname := choose_filename r url env in
    s <- get_state ;;
    let out_path := ensure_unique_path (fs s) (PosixPath.join FETCH_DIR fname) in
    Os.open_write out_path ;;;
    streamed <- stream_chunks url out_path chunks e EmptyString 0 ;;
    let file_hash := sha256_hexdigest (fst streamed) in
    record_or_skip url out_path file_hash.

Definition respectful_fetch_body (url : string) (env : attempt_env) : M unit :=
  Os.makedirs FETCH_DIR ;;;
  probe url env ;;;
  fetch_and_store url env.

Definition respectful_fetch (url : string) (env : attempt_env) : M unit :=
  call
    (try_except (respectful_fetch_body url env)
       (fun e =>
          if is_RequestException e then print (MsgConnectionError e)
          else if is_Exception e then print (MsgError e)
          else raise e)).

(** [[u.strip() for part in raw.split() for u in part.split(",") if u.strip()]] *)
Definition url_tokens (raw : string) : list string :=
  part ← PyStr.split_ws raw;
  u ← PyStr.split_char "," part;
  if PyStr.is_empty (PyStr.strip u) then [] else [PyStr.strip u].

Fixpoint fetch_all (i : nat) (urls : list string)
    (net : nat -> string -> attempt_env) : M unit :=
  match urls with
  | [] => ret tt
  | url :: rest => respectful_fetch url (net i url) ;;; fetch_all (S i) rest net
  end.

(** [main], given the line [input] returns and, for the [i]-th URL, what
    the world outside answers during its attempt. *)
Definition main (line : string) (net : nat -> string -> attempt_env) : M unit :=
  print MsgWelcome ;;;
  print MsgTagline ;;;
  let raw := PyStr.strip line in
  (if PyStr.is_empty raw then print MsgNoUrl ;;; raise (SystemExit 0) else ret tt) ;;;
  let urls := url_tokens raw in
  m <- load_manifest ;;
  put_manifest m ;;;
  fetch_all 0 urls net ;;;
  print MsgFarewell.

(** The exit status of the process when [main] ends with [r]. *)
Definition exit_status (r : ctl unit) : Z :=
  match r with
  | Raised (SystemExit c) => c
  | Raised _ => 1
  | _ => 0
  end.

End Program.

(** The program starts with an empty console and no manifest object yet. *)
Definition initial_state (disk : gmap string node) : state :=
  {| fs := disk; manifest := JNull; console := [] |}.

(** ** An instance of the library, for running the program on examples

    A digest that spells the data in hexadecimal, a URL splitter for URLs of
    the form [scheme://host/path?query#fragment], a percent-decoder for
    escapes of ASCII characters, and an encoder and a decoder for JSON
    documents in ASCII made of objects, arrays, strings, integers, [true],
    [false] and [null]. *)

Module RefLib.

Definition hex_char (n : N) : ascii :=
  if (n <? 10)%N then ascii_of_N (48 + n) else ascii_of_N (87 + n).

Definition hex_byte (c : ascii) : string :=
  String (hex_char (PyStr.code c / 16)) (String (hex_char (PyStr.code c mod 16)) EmptyString).

Fixpoint hex_digest (data : string) : string :=
  match data with
  | EmptyString => EmptyString
  | String c r => hex_byte c +:+ hex_digest r
  end.

Fixpoint take_until (stop : ascii -> bool) (s : string) : string :=
  match s with
  | EmptyString => EmptyString
  | String c r => if stop c then EmptyString else String c (take_until stop r)
  end.

Definition url_path (url : string) : string :=
  let after_scheme :=
    if PyStr.contains "://" url then PyStr.after_first "://" url else url in
  let from_slash := PyStr.lstrip (fun c => negb (Ascii.eqb c "/")) after_scheme in
  take_until (fun c => PyStr.mem c "?#") from_slash.

Definition hex_val (c : ascii) : option N :=
  if PyStr.in_range 48 57 c then Some (PyStr.code c - 48)%N
  else if PyStr.in_range 97 102 c then Some (PyStr.code c - 87)%N
  else if PyStr.in_range 65 70 c then Some (PyStr.code c - 55)%N
  else None.

Fixpoint percent_decode (s : string) : string :=
  match s with
  | String "%" (String a (String b r) as r1) =>
      match hex_val a, hex_val b with
      | Some x, Some y =>
          if (x <? 8)%N then String (ascii_of_N (16 * x + y)) (percent_decode r)
          else String "%" (percent_decode r1)
      | _, _ => String "%" (percent_decode r1)
      end
  | String c r => String c (percent_decode r)
  | EmptyString => EmptyString
  end.

(** *** The encoder: [json.dumps(m, indent=2)], cut into chunks *)

Definition newline : ascii := ascii_of_nat 10.

Definition u_escape (c : ascii) : string :=
  String "\" (String "u" (String "0" (String "0" (hex_byte c)))).

Definition escape_char (c : ascii) : string :=
  let n := PyStr.code c in
  if Ascii.eqb c dquote then String "\" (String dquote EmptyString)
  else if Ascii.eqb c "\" then "\\"
  else if (n =? 8)%N then "\b"
  else if (n =? 9)%N then "\t"
  else if (n =? 10)%N then "\n"
  else if (n =? 12)%N then "\f"
  else if (n =? 13)%N then "\r"
  else if PyStr.in_range 32 126 c then String c EmptyString
  else u_escape c.

Fixpoint escape (s : string) : string :=
  match s with
  | EmptyString => EmptyString
  | String c r => escape_char c +:+ escape r
  end.

Definition encode_str (s : string) : string :=
  String dquote (escape s +:+ String dquote EmptyString).

Fixpoint spaces (n : nat) : string :=
  match n with
  | O => EmptyString
  | S n' => String " " (spaces n')
  end.

Definition newline_indent (level : nat) : string :=
  String newline (spaces (2 * level)).

Fixpoint iterencode_at (level : nat) (j : json) {struct j} : list string :=
  match j with
  | JNull => ["null"]
  | JBool true => ["true"]
  | JBool false => ["false"]
  | JNum n => [pretty n]
  | JFloat lit => [lit]
  | JStr s => [encode_str s]
  | JArr [] => ["[]"]
  | JArr (x :: xs) =>
      ["["; newline_indent (S level)] ++ iterencode_at (S level) x
      ++ (fix rest (l : list json) : list string :=
            match l with
            | [] => []
            | y :: l' =>
                ["," +:+ newline_indent (S level)]
                ++ iterencode_at (S level) y ++ rest l'
            end) xs
      ++ [newline_indent level; "]"]
  | JObj [] => ["{}"]
  | JObj ((k, x) :: xs) =>
      ["{"; newline_indent (S level); encode_str k; ": "]
      ++ iterencode_at (S level) x
      ++ (fix rest (l : list (string * json)) : list string :=
            match l with
            | [] => []
            | (k', y) :: l' =>
                ["," +:+ newline_indent (S level); encode_str k'; ": "]
                ++ iterencode_at (S level) y ++ rest l'
            end) xs
      ++ [newline_indent level; "}"]
  end.

Definition iterencode (j : json) : list string := iterencode_at 0 j.

(** *** The decoder *)

Definition is_json_space (c : ascii) : bool :=
  let n := PyStr.code c in
  ((n =? 32) || (n =? 9) || (n =? 10) || (n =? 13))%N.

Definition skip_ws (s : string) : string := PyStr.lstrip is_json_space s.

Definition unescape (c : ascii) : option ascii :=
  if Ascii.eqb c dquote then Some dquote
  else if Ascii.eqb c "\" then Some c
  else if Ascii.eqb c "/" then Some c
  else if Ascii.eqb c "b" then Some (ascii_of_nat 8)
  else if Ascii.eqb c "t" then Some (ascii_of_nat 9)
  else if Ascii.eqb c "n" then Some (ascii_of_nat 10)
  else if Ascii.eqb c "f" then Some (ascii_of_nat 12)
  else if Ascii.eqb c "r" then Some (ascii_of_nat 13)
  else None.

(** The characters of a string literal after its opening quote; an escape
    [\u00XX] is read, one of a code point above U+00FF is refused, and so is
    a character outside ASCII. *)
Fixpoint parse_string (s : string) : option (string * string) :=
  match s with
  | EmptyString => None
  | String c r =>
      if Ascii.eqb c dquote then Some (EmptyString, r)
      else if Ascii.eqb c "\" then
        match r with
        | String "u" (String "0" (String "0" (String a (String b r')))) =>
            match hex_val a, hex_val b, parse_string r' with
            | Some x, Some y, Some (t, rest) =>
                Some (String (ascii_of_N (16 * x + y)) t, rest)
            | _, _, _ => None
            end
        | String e r' =>
            match unescape e, parse_string r' with
            | Some d, Some (t, rest) => Some (String d t, rest)
            | _, _ => None
            end
        | EmptyString => None
        end
      else if negb (PyStr.in_range 32 126 c) then None
      else
        match parse_string r with
        | Some (t, rest) => Some (String c t, rest)
        | None => None
        end
  end.

Fixpoint take_digits (s : string) : string * string :=
  match s with
  | String c r =>
      if PyStr.isdigit_ascii c
      then let '(d, rest) := take_digits r in (String c d, rest)
      else (EmptyString, s)
  | EmptyString => (EmptyString, EmptyString)
  end.

(** An integer: an optional minus sign and digits without a leading zero.
    A number with a fraction or an exponent is refused. *)
Definition parse_number (s : string) : option (json * string) :=
  let '(negative, s1) :=
    match s with
    | String "-" r => (true, r)
    | _ => (false, s)
    end in
  let '(digits, rest) := take_digits s1 in
  match digits, rest with
  | EmptyString, _ => None
  | String "0" (String _ _), _ => None
  | _, String "." _ => None
  | _, String "e" _ => None
  | _, String "E" _ => None
  | _, _ =>
      match PyStr.int digits with
      | Some n => Some (JNum (if negative then - n else n), rest)
      | None => None
      end
  end.

Definition expect (word : string) (j : json) (s : string) : option (json * string) :=
  if String.prefix word s then Some (j, PyStr.drop (String.length word) s) else None.

Fixpoint parse_value (fuel : nat) (s : string) : option (json * string) :=
  match fuel with
  | O => None
  | S fuel' =>
      let elements :=
        fix elements (n : nat) (acc : list json) (s : string) : option (json * string) :=
          match n with
          | O => None
          | S n' =>
              match parse_value fuel' s with
              | Some (v, r) =>
                  match skip_ws r with
                  | String "," r' => elements n' (acc ++ [v]) r'
                  | String "]" r' => Some (JArr (acc ++ [v]), r')
                  | _ => None
                  end
              | None => None
              end
          end in
      let members :=
        fix members (n : nat) (acc : list (string * json)) (s : string) : option (json * string) :=
          match n with
          | O => None
          | S n' =>
              match skip_ws s with
              | String q r =>
                  if Ascii.eqb q dquote then
                    match parse_string r with
                    | Some (k, r1) =>
                        match skip_ws r1 with
                        | String ":" r2 =>
                            match parse_value fuel' r2 with
                            | Some (v, r3) =>
                                match skip_ws r3 with
                                | String "," r4 => members n' (PyObj.dict_set k v acc) r4
                                | String "}" r4 => Some (JObj (PyObj.dict_set k v acc), r4)
                                | _ => None
                                end
                            | None => None
                            end
                        | _ => None
                        end
                    | None => None
                    end
                  else None
              | EmptyString => None
              end
          end in
      match skip_ws s with
      | EmptyString => None
      | String c r =>
          if Ascii.eqb c "{" then
            match skip_ws r with
            | String "}" r' => Some (JObj [], r')
            | _ => members fuel' [] r
            end
          else if Ascii.eqb c "[" then
            match skip_ws r with
            | String "]" r' => Some (JArr [], r')
            | _ => elements fuel' [] r
            end
          else if Ascii.eqb c dquote then
            match parse_string r with
            | Some (t, rest) => Some (JStr t, rest)
            | None => None
            end
          else if Ascii.eqb c "t" then expect "true" (JBool true) (String c r)
          else if Ascii.eqb c "f" then expect "false" (JBool false) (String c r)
          else if Ascii.eqb c "n" then expect "null" JNull (String c r)
          else parse_number (String c r)
      end
  end.

Definition loads (text : string) : option json :=
  match parse_value (S (String.length text)) text with
  | Some (j, rest) => if PyStr.is_empty (skip_ws rest) then Some j else None
  | None => None
  end.

#[export] Instance lib : PyLib := {|
  sha256_hexdigest := hex_digest;
  urlparse_path := url_path;
  unquote := percent_decode;
  json_iterencode := iterencode;
  json_load := loads;
|}.

(** A text with every ['] turned into a double quote, to spell JSON
    documents and header values. *)
Fixpoint q (s : string) : string :=
  match s with
  | EmptyString => EmptyString
  | String c r => String (if Ascii.eqb c squote then dquote else c) (q r)
  end.

End RefLib.

(** ** Vocabulary of the statements *)

(** The [i]-th numbered variant of a path with root [base] and extension
    [ext]. *)
Definition numbered (base ext : string) (i : Z) : string :=
  base +:+ " (" +:+ pretty i +:+ ")" +:+ ext.

(** The bytes of a body that arrives in [chunks]. *)
Definition body (chunks : list string) : string :=
  fold_right String.append EmptyString chunks.

Definition is_file (disk : gmap string node) (p : string) : Prop :=
  exists data, disk !! p = Some (File data).

(** The output directory can be created or is there already. *)
Definition dir_ready (disk : gmap string node) : bool :=
  match disk !! FETCH_DIR with
  | Some (File _) => false
  | _ => true
  end.

(** The manifest file can be opened for writing. *)
Definition manifest_writable (disk : gmap string node) : bool :=
  match disk !! MANIFEST with
  | Some Dir => false
  | _ => true
  end.

(** The members of [m["hashes"]] when it is a [dict], and the items of
    [m["files"]] when it is a [list]. *)
Definition hashes_of (m : json) : list (string * json) :=
  match PyObj.getitem m "hashes" with
  | Val (JObj hs) => hs
  | _ => []
  end.

Definition files_of (m : json) : list json :=
  match PyObj.getitem m "files" with
  | Val (JArr fl) => fl
  | _ => []
  end.

(** A manifest of the shape the program writes: an object whose ["hashes"]
    is an object and whose ["files"] is an array. *)
Definition well_shaped (m : json) : bool :=
  match PyObj.getitem m "hashes", PyObj.getitem m "files" with
  | Val (JObj _), Val (JArr _) => true
  | _, _ => false
  end.

(** Every value of the hashes map is an item of the files list. *)
Definition hashes_in_files (m : json) : Prop :=
  forall v, v ∈ (snd <$> hashes_of m) -> v ∈ files_of m.

(** The manifest after the record step for [file_hash] and [name]. *)
Definition recorded (m : json) (file_hash name : string) : json :=
  let m1 :=
    update_member m "hashes"
      (JObj (PyObj.dict_set file_hash (JStr name) (hashes_of m))) in
  update_member m1 "files" (JArr (files_of m1 ++ [JStr name])).

Section Vocabulary.
Context {lib : PyLib}.

(** The probe lets the attempt go on to the [GET]: the request fails, or the
    status is an error status, or the response declares an image and no
    length above the cap. *)
Definition probe_passes (env : attempt_env) : bool :=
  match head_of env with
  | HeadFails => true
  | HeadResponse head =>
      if ok head then
        (PyStr.startswith "image/" (header head "Content-Type" EmptyString)
         && match headers head !! "Content-Length" with
            | None => true
            | Some clen =>
                (PyStr.is_empty clen
                 || match PyStr.int clen with
                    | Some n => n <=? MAX_BYTES
                    | None => false
                    end)
            end)%bool
      else true
  end.

(** The [GET] answers with a success status and an image content type, and
    the body arrives whole, in [chunks]. *)
Definition serves_image (env : attempt_env) (r : response) (chunks : list string) : Prop :=
  get_of env = GetResponse r chunks StreamEnds
  /\ ok r = true /\ is_image_response r = true.

(** The path the attempt writes to. *)
Definition out_path_of (disk : gmap string node) (r : response) (url : string)
    (env : attempt_env) : string :=
  ensure_unique_path (<[FETCH_DIR := Dir]> disk)
    (PosixPath.join FETCH_DIR (choose_filename r url env)).

(** The attempt downloads [chunks] in full and stores them as new content. *)
Definition stores (url : string) (env : attempt_env) (s : state)
    (r : response) (chunks : list string) : Prop :=
  dir_ready (fs s) = true
  /\ probe_passes env = true
  /\ serves_image env r chunks
  /\ PyStr.len (body chunks) <= MAX_BYTES
  /\ well_shaped (manifest s) = true
  /\ PyObj.dict_get (sha256_hexdigest (body chunks)) (hashes_of (manifest s)) = None
  /\ manifest_writable (fs s) = true.

End Vocabulary.

(** Every character of [s] passes [p]. *)
Fixpoint all_chars (p : ascii -> bool) (s : string) : bool :=
  match s with
  | EmptyString => true
  | String c r => (p c && all_chars p r)%bool
  end.

(** The probe stage as the specification words it: the attempt is rejected
    when the probe succeeds and either the declared content type is not an
    image type or the declared length exceeds the cap; in every other case
    the attempt goes on to the [GET]. *)
Definition spec_declares_too_large (head : response) : bool :=
  match headers head !! "Content-Length" with
  | Some clen =>
      match PyStr.int clen with
      | Some n => n >? MAX_BYTES
      | None => false
      end
  | None => false
  end.

(** The declared length is absent, empty, or an integer literal whose value
    in megabytes fits a [float]. *)
Definition length_is_numeric (head : response) : Prop :=
  match headers head !! "Content-Length" with
  | Some clen =>
      clen = EmptyString
      \/ exists n, PyStr.int clen = Some n /\ PyStr.true_div_overflows n = false
  | None => True
  end.

Definition spec_probe_rejects (env : attempt_env) : bool :=
  match head_of env with
  | HeadFails => false
  | HeadResponse head =>
      (ok head
       && (negb (PyStr.startswith "image/" (header head "Content-Type" EmptyString))
           || spec_declares_too_large head))%bool
  end.

(** What a statement may do to the console: end normally after [k] lines,
    return early after one line, or raise an [Exception] without a line. *)
Definition reports {A} (k : nat) (m : M A) : Prop :=
  forall s,
    match m s with
    | (s', Normal _) => exists l, length l = k /\ console s' = console s ++ l
    | (s', Returned) => exists msg, console s' = console s ++ [msg]
    | (s', Raised e) => console s' = console s /\ is_Exception e = true
    end.

(** A statement that leaves the manifest object alone. *)
Definition keeps_manifest {A} (m : M A) : Prop :=
  forall s, manifest (fst (m s)) = manifest s.

(** The two properties a manifest needs for the record step to keep them. *)
Definition sound_manifest (m : json) : Prop :=
  well_shaped m = true /\ hashes_in_files m.

(** A statement under which a sound manifest stays sound. *)
Definition keeps_sound {A} (m : M A) : Prop :=
  forall s, sound_manifest (manifest s) -> sound_manifest (manifest (fst (m s))).

(** All the attempts of a run, one after the other. *)
Fixpoint after_attempts {lib : PyLib} (i : nat) (urls : list string)
    (net : nat -> string -> attempt_env) (s : state) : state :=
  match urls with
  | [] => s
  | url :: rest =>
      after_attempts (S i) rest net (fst (respectful_fetch url (net i url) s))
  end.

(** The states a run goes through after it has loaded the manifest: the
    state right after [main] has called [load_manifest] on some disk, and
    every state a fetch attempt leaves. *)
Inductive reachable {lib : PyLib} : state -> Prop :=
  | reachable_loaded (disk : gmap string node) (s : state) (m : json) :
      load_manifest (initial_state disk) = (s, Normal m) ->
      reachable (set_manifest m s)
  | reachable_fetched (s : state) (url : string) (env : attempt_env) :
      reachable s -> reachable (fst (respectful_fetch url env s)).

(** The states fetch attempts lead to from [s0]. *)
Inductive fetched_from {lib : PyLib} (s0 : state) : state -> Prop :=
  | fetched_start : fetched_from s0 s0
  | fetched_step (s : state) (url : string) (env : attempt_env) :
      fetched_from s0 s -> fetched_from s0 (fst (respectful_fetch url env s)).

(** ** Sample inputs *)

Module Sample.

Definition image_response (extra : list (string * string)) : response :=
  {| status := 200;
     headers := list_to_map (("Content-Type", "image/png") :: extra) |}.

Definition plain : response := image_response [].

(** An attempt whose probe and [GET] both answer with [r], the body arriving
    in [chunks]. *)
Definition serving (r : response) (chunks : list string) : attempt_env :=
  {| head_of := HeadResponse r;
     get_of := GetResponse r chunks StreamEnds;
     clock_downloaded := 1700000000000;
     clock_image := 1700000000001 |}.

(** A run that starts on an empty disk, once the manifest is loaded. *)
Definition fresh : state :=
  {| fs := ∅; manifest := default_manifest; console := [] |}.

(** A server that names the file itself, with a path that leaves the output
    directory. *)
Definition traversal_response : response :=
  image_response
    [("Content-Disposition", RefLib.q "attachment; filename='../evil.png'")].

(** A probe answer whose length is the same value given twice, as [requests]
    reports two [Content-Length] header lines. *)
Definition doubled_length_response : response :=
  image_response [("Content-Length", "1024, 1024")].

Definition doubled_length_env (g : get_reply) : attempt_env :=
  {| head_of := HeadResponse doubled_length_response;
     get_of := g;
     clock_downloaded := 1700000000000;
     clock_image := 1700000000001 |}.

(** A manifest file whose hashes map names a file its files list lacks. *)
Definition stale_manifest_text : string :=
  RefLib.q "{'hashes': {'0a1b': 'ghost.jpg'}, 'files': []}".

Definition stale_disk : gmap string node :=
  {[ FETCH_DIR := Dir; MANIFEST := File stale_manifest_text ]}.

Fixpoint zeros (n : nat) : string :=
  match n with
  | O => EmptyString
  | S n' => String zero (zeros n')
  end.

End Sample.

(** ** More vocabulary: tokens, disks, replies *)

(** A character that separates URLs on the input line. *)
Definition is_separator (c : ascii) : bool :=
  (PyStr.isspace c || Ascii.eqb c ",")%bool.

(** A string that can stand for one URL on the input line: not empty, and
    without whitespace and commas. *)
Definition clean_token (u : string) : bool :=
  (negb (PyStr.is_empty u) && all_chars (fun c => negb (is_separator c)) u)%bool.

(** The URLs one whitespace-free part of the input line gives: the inner
    loop of the comprehension in [main]. *)
Definition part_tokens (part : string) : list string :=
  u ← PyStr.split_char "," part;
  if PyStr.is_empty (PyStr.strip u) then [] else [PyStr.strip u].

(** The last character of [s], or [d] when [s] is empty. *)
Fixpoint last_char (s : string) (d : ascii) : ascii :=
  match s with
  | EmptyString => d
  | String c r => last_char r c
  end.

(** A character none of the [strip] calls of [filename_from_headers] takes
    away: not whitespace, not a semicolon, not a quote. *)
Definition name_end (c : ascii) : bool :=
  negb (PyStr.isspace c || Ascii.eqb c ";" || Ascii.eqb c dquote
        || Ascii.eqb c squote).

(** A name that begins and ends with such a character. *)
Definition plain_name (n : string) : bool :=
  match n with
  | EmptyString => false
  | String c r => (name_end c && name_end (last_char r c))%bool
  end.

(** Every entry of [old] other than the manifest file is in [new] as it was. *)
Definition old_entries_kept (old new : gmap string node) : Prop :=
  forall q n, q <> MANIFEST -> old !! q = Some n -> new !! q = Some n.

(** A path an attempt may write to without touching an entry of [old]. *)
Definition free_in (old : gmap string node) (p : string) : Prop :=
  p = MANIFEST \/ old !! p = None.

(** A statement that keeps the entries of [old]. *)
Definition guards {A} (old : gmap string node) (m : M A) : Prop :=
  forall s, old_entries_kept old (fs s) -> old_entries_kept old (fs (fst (m s))).

(** The attempt [env] with another answer to the probe, or to the [GET]. *)
Definition with_head (h : head_reply) (env : attempt_env) : attempt_env :=
  {| head_of := h; get_of := get_of env;
     clock_downloaded := clock_downloaded env; clock_image := clock_image env |}.

Definition with_get (g : get_reply) (env : attempt_env) : attempt_env :=
  {| head_of := head_of env; get_of := g;
     clock_downloaded := clock_downloaded env; clock_image := clock_image env |}.

(** The state a new run starts in on the disk [disk], once [main] has
    loaded the manifest [m]. *)
Definition run_start (disk : gmap string node) (m : json) : state :=
  set_manifest m (initial_state disk).

(** ** [main.py]: the first public API that answers

    [fetch_any] asks three services in turn and returns the label and the
    JSON document of the first one that answers; the rest of [main.py]
    is a script over [numpy], [pandas] and [matplotlib] and is not
    embedded. *)

(** What one [requests.get] of [fetch_any] leads to: the request raises, or
    it answers with a status, and [r.json()] gives a document or raises. *)
Inductive api_reply : Type :=
  | ApiFails
  | ApiResponse (status : Z) (parsed : option json).

Definition api_urls : list (string * string) :=
  [("GitHub API status", "https://api.github.com");
   ("Cat fact", "https://catfact.ninja/fact");
   ("Coingecko ping", "https://api.coingecko.com/api/v3/ping")].

Definition offline_fallback : string * json :=
  ("Offline fallback",
   JObj [("message", JStr "No internet? Using local data.");
         ("demo_value", JNum 42)]).

(** The body of the [try]: [requests.get], [raise_for_status], [r.json()]. *)
Definition api_attempt (reply : api_reply) : res json :=
  match reply with
  | ApiFails => Exc RequestException
  | ApiResponse st parsed =>
      if ((400 <=? st) && (st <? 600))%bool then Exc RequestException
      else match parsed with
           | Some data => Val data
           | None => Exc ValueError
           end
  end.

(** The [for] loop with its [except Exception]; [None] when the loop ends
    without a [return]. *)
Fixpoint fetch_any_loop (urls : list (string * string))
    (net : string -> api_reply) : res (option (string * json)) :=
  match urls with
  | [] => Val None
  | (name, url) :: rest =>
      match api_attempt (net url) with
      | Val data => Val (Some (name, data))
      | Exc e => if is_Exception e then fetch_any_loop rest net else Exc e
      end
  end.

Definition fetch_any (net : string -> api_reply) : res (string * json) :=
  match fetch_any_loop api_urls net with
  | Val (Some found) => Val found
  | Val None => Val offline_fallback
  | Exc e => Exc e
  end.

(** ** Paths on which the file-system map is exact

    The map takes a path string for the node it names, and lets a path be
    created wherever no directory is in the way.  A file system that tells
    names apart byte by byte does the same for a path
    [Fetched_Images/<name>] whose [<name>] is one plain component, once
    [Fetched_Images] is a directory: no other string the program builds
    names that node, and nothing but a directory at the path itself keeps
    [open] from creating it.  That is not so for
    other names: a name with a slash asks for a directory that may be
    missing, [.] and [..] are directories whatever the map holds, [open]
    refuses a name with a NUL, and the file systems in common use refuse a
    component of more than [NAME_MAX] bytes.  What a download leaves at
    its path is therefore stated for plain targets. *)

Definition NAME_MAX : Z := 255.

(** The number of bytes of [s] in UTF-8. *)
Fixpoint utf8_len (s : string) : Z :=
  match s with
  | EmptyString => 0
  | String c r => (if (PyStr.code c <? 128)%N then 1 else 2) + utf8_len r
  end.

(** One component of a path that names a file of its directory. *)
Definition plain_component (n : string) : bool :=
  (negb (PyStr.is_empty n)
   && all_chars (fun c => negb (Ascii.eqb c "/") && negb (N.eqb (PyStr.code c) 0)) n
   && negb (String.eqb n ".") && negb (String.eqb n "..")
   && (utf8_len n <=? NAME_MAX))%bool.

(** A path [Fetched_Images/<name>] with a plain [<name>]. *)
Definition plain_target (p : string) : bool :=
  (PyStr.startswith (FETCH_DIR +:+ "/") p
   && plain_component (PyStr.drop (String.length (FETCH_DIR +:+ "/")) p))%bool.

(** * Properties *)

(** ** Strings *)

Lemma app_nil_r_str (s : string) : s +:+ EmptyString = s.
Proof. induction s as [|c s IH]; [done|]. unfold String.app in *. simpl. by rewrite IH. Qed.

Lemma app_assoc_str (a b c : string) : (a +:+ b) +:+ c = a +:+ (b +:+ c).
Proof.
  induction a as [|x a IH]; [done|].
  unfold String.app in *. simpl. by rewrite IH.
Qed.

Lemma length_app_str (a b : string) :
  String.length (a +:+ b) = (String.length a + String.length b)%nat.
Proof.
  induction a as [|x a IH]; [done|].
  unfold String.app in *. simpl. by rewrite IH.
Qed.

Lemma len_app (a b : string) : PyStr.len (a +:+ b) = PyStr.len a + PyStr.len b.
Proof. unfold PyStr.len. rewrite length_app_str. lia. Qed.

Lemma len_nonneg (s : string) : 0 <= PyStr.len s.
Proof. unfold PyStr.len. lia. Qed.

Lemma is_empty_true (s : string) : PyStr.is_empty s = true <-> s = EmptyString.
Proof. destruct s; simpl; split; congruence. Qed.

Lemma app_inv_tail_str (a b c : string) : a +:+ c = b +:+ c -> a = b.
Proof.
  revert b. induction a as [|x a IH]; intros [|y b] Heq.
  - done.
  - apply (f_equal String.length) in Heq.
    rewrite !length_app_str in Heq. simpl in Heq. lia.
  - apply (f_equal String.length) in Heq.
    rewrite !length_app_str in Heq. simpl in Heq. lia.
  - unfold String.app in *. simpl in Heq. injection Heq as -> Heq.
    f_equal. by apply IH.
Qed.

(** ** Paths *)

Lemma split_last_sep_app (p : string) :
  fst (PosixPath.split_last_sep p) +:+ snd (PosixPath.split_last_sep p) = p.
Proof.
  induction p as [|c p IH]; [done|]. simpl.
  destruct (PosixPath.split_last_sep p) as [h t]. simpl in IH.
  destruct h as [|d h]; simpl.
  - destruct (Ascii.eqb c "/"); simpl; unfold String.app in *; simpl in *; congruence.
  - unfold String.app in *; simpl in *; congruence.
Qed.

Lemma rsplit_dot_app (s a b : string) :
  PosixPath.rsplit_dot s = Some (a, b) -> a +:+ b = s.
Proof.
  revert a b. induction s as [|c s IH]; intros a b; simpl; [done|].
  destruct (PosixPath.rsplit_dot s) as [[a' b']|].
  - intros [= <- <-]. unfold String.app in *; simpl. f_equal. by apply IH.
  - destruct (Ascii.eqb c "."); [|done]. by intros [= <- <-].
Qed.

(** [os.path.splitext] splits: root and extension give the path back. *)
Lemma splitext_app (p base ext : string) :
  PosixPath.splitext p = (base, ext) -> base +:+ ext = p.
Proof.
  unfold PosixPath.splitext.
  pose proof (split_last_sep_app p) as Hp.
  destruct (PosixPath.split_last_sep p) as [h name]. simpl in Hp.
  destruct (PosixPath.rsplit_dot name) as [[a b]|] eqn:Hdot.
  - destruct (PosixPath.all_dots a).
    + intros [= <- <-]. apply app_nil_r_str.
    + intros [= <- <-]. rewrite app_assoc_str.
      by rewrite (rsplit_dot_app _ _ _ Hdot).
  - intros [= <- <-]. apply app_nil_r_str.
Qed.

(** ** [ensure_unique_path] *)


Lemma numbered_inj (base ext : string) : Inj (=) (=) (numbered base ext).
Proof.
  intros i j Heq. unfold numbered in Heq.
  apply (inj (String.app base)) in Heq.
  apply (inj (String.app " (")) in Heq.
  apply app_inv_tail_str in Heq.
  by apply (inj pretty) in Heq.
Qed.

Lemma numbered_ne_plain (base ext : string) (i : Z) :
  numbered base ext i <> base +:+ ext.
Proof.
  unfold numbered. intros Heq.
  apply (inj (String.app base)) in Heq.
  apply (f_equal String.length) in Heq.
  rewrite !length_app_str in Heq. simpl in Heq. lia.
Qed.

Lemma path_taken_spec (disk : gmap string node) (p : string) :
  path_taken disk p = false <-> disk !! p = None.
Proof.
  unfold path_taken. rewrite bool_decide_eq_false, <- eq_None_not_Some. done.
Qed.

Lemma path_taken_true (disk : gmap string node) (p : string) :
  path_taken disk p = true <-> p ∈ dom disk.
Proof. unfold path_taken. rewrite bool_decide_eq_true, elem_of_dom. done. Qed.

(** What the loop returns is free, and every path it passed over is taken. *)
Lemma ensure_unique_loop_some (fuel : nat) (disk : gmap string node)
    (base ext path p : string) (i : Z) :
  ensure_unique_loop fuel disk base ext path i = Some p ->
  disk !! p = None /\
  (p = path \/
   exists k, i <= k /\ p = numbered base ext k /\ path ∈ dom disk /\
             forall j, i <= j < k -> numbered base ext j ∈ dom disk).
Proof.
  revert path i. induction fuel as [|fuel IH]; intros path i; simpl; [done|].
  destruct (path_taken disk path) eqn:Htaken.
  - intros Hloop. apply IH in Hloop as [Hfree [->|(k & Hk & -> & Hin & Hbelow)]].
    + split; [done|]. right. exists i. split; [lia|]. split; [done|].
      split; [by apply path_taken_true|]. intros j Hj. lia.
    + split; [done|]. right. exists k. split; [lia|]. split; [done|].
      split; [by apply path_taken_true|]. intros j Hj.
      destruct (decide (j = i)) as [->|Hne]; [done|]. apply Hbelow. lia.
  - intros [= <-]. split; [by apply path_taken_spec|]. by left.
Qed.

(** When the loop runs out of fuel, the path and the next [fuel - 1]
    numbered variants are all taken. *)
Lemma ensure_unique_loop_none (fuel : nat) (disk : gmap string node)
    (base ext path : string) (i : Z) :
  ensure_unique_loop (S fuel) disk base ext path i = None ->
  path ∈ dom disk /\
  forall k : nat, (k < fuel)%nat -> numbered base ext (i + Z.of_nat k) ∈ dom disk.
Proof.
  revert path i. induction fuel as [|fuel IH]; intros path i.
  - simpl. destruct (path_taken disk path) eqn:Htaken; [|done].
    intros _. split; [by apply path_taken_true|]. intros k Hk. lia.
  - change (ensure_unique_loop (S (S fuel)) disk base ext path i)
      with (if path_taken disk path
            then ensure_unique_loop (S fuel) disk base ext (numbered base ext i) (i + 1)
            else Some path).
    destruct (path_taken disk path) eqn:Htaken; [|done].
    intros Hloop. apply IH in Hloop as [Hfirst Hrest].
    split; [by apply path_taken_true|]. intros [|k] Hk.
    + by rewrite Z.add_0_r.
    + replace (i + Z.of_nat (S k)) with (i + 1 + Z.of_nat k) by lia.
      apply Hrest. lia.
Qed.

(** The loop ends: with one test more than the disk has entries it returns
    a path. *)
Lemma ensure_unique_loop_total (disk : gmap string node) (base ext : string) (i : Z) :
  is_Some (ensure_unique_loop (S (size disk)) disk base ext (base +:+ ext) i).
Proof.
  destruct (ensure_unique_loop _ _ _ _ _ _) as [p|] eqn:Hloop; [by eexists|].
  exfalso. apply ensure_unique_loop_none in Hloop as [Hplain Hnum].
  set (cands := (base +:+ ext) ::
                ((fun k : nat => numbered base ext (i + Z.of_nat k)) <$> seq 0 (size disk))).
  assert (NoDup cands) as Hnodup.
  { apply NoDup_cons. split.
    - intros Hin. apply list_elem_of_fmap in Hin as (k & Heq & _).
      symmetry in Heq. by apply numbered_ne_plain in Heq.
    - apply NoDup_fmap_2; [|apply NoDup_seq].
      intros a b Hab. apply numbered_inj in Hab. lia. }
  assert (cands ⊆ elements (dom disk)) as Hsub.
  { intros p Hp. apply elem_of_elements.
    apply elem_of_cons in Hp as [->|Hp]; [done|].
    apply list_elem_of_fmap in Hp as (k & -> & Hk).
    apply Hnum. apply elem_of_seq in Hk. lia. }
  apply NoDup_submseteq in Hsub; [|done].
  apply submseteq_length in Hsub.
  assert (length (elements (dom disk)) = size disk) as Hsize.
  { by rewrite <- size_dom. }
  rewrite Hsize in Hsub. unfold cands in Hsub.
  simpl in Hsub. rewrite length_fmap, length_seq in Hsub. lia.
Qed.

(** [ensure_unique_path] returns the path itself when it is free, and
    otherwise the first numbered variant that is free. *)
Lemma ensure_unique_path_spec (disk : gmap string node) (path base ext : string) :
  PosixPath.splitext path = (base, ext) ->
  disk !! ensure_unique_path disk path = None /\
  (ensure_unique_path disk path = path \/
   exists k, 1 <= k /\ ensure_unique_path disk path = numbered base ext k /\
             path ∈ dom disk /\
             forall j, 1 <= j < k -> numbered base ext j ∈ dom disk).
Proof.
  intros Hsplit. unfold ensure_unique_path. rewrite Hsplit.
  pose proof (splitext_app _ _ _ Hsplit) as Hjoin.
  destruct (ensure_unique_loop_total disk base ext 1) as [p Hloop].
  rewrite Hjoin in Hloop. rewrite Hloop. simpl.
  by apply ensure_unique_loop_some in Hloop.
Qed.

Lemma ensure_unique_path_fresh (disk : gmap string node) (path : string) :
  disk !! ensure_unique_path disk path = None.
Proof.
  destruct (PosixPath.splitext path) as [base ext] eqn:Hsplit.
  by destruct (ensure_unique_path_spec disk path base ext Hsplit).
Qed.

(** ** Statements, one at a time *)

Section Stages.
Context `{PyLib}.

Lemma bind_normal {A B} (m : M A) (f : A -> M B) (s s' : state) (a : A) :
  m s = (s', Normal a) -> bind m f s = f a s'.
Proof. intros Hm. unfold bind. by rewrite Hm. Qed.

Lemma bind_returned {A B} (m : M A) (f : A -> M B) (s s' : state) :
  m s = (s', Returned) -> bind m f s = (s', Returned).
Proof. intros Hm. unfold bind. by rewrite Hm. Qed.

Lemma bind_raised {A B} (m : M A) (f : A -> M B) (s s' : state) (e : exn) :
  m s = (s', Raised e) -> bind m f s = (s', Raised e).
Proof. intros Hm. unfold bind. by rewrite Hm. Qed.

Lemma body_app (a b : list string) : body (a ++ b) = body a +:+ body b.
Proof.
  induction a as [|c a IH]; [done|].
  simpl. rewrite IH. by rewrite app_assoc_str.
Qed.

Lemma body_cons (c : string) (l : list string) : body (c :: l) = c +:+ body l.
Proof. done. Qed.

Lemma makedirs_ready (disk : gmap string node) (m : json) (out : list message) :
  dir_ready disk = true ->
  Os.makedirs FETCH_DIR (Build_state disk m out)
  = (Build_state (<[FETCH_DIR := Dir]> disk) m out, Normal tt).
Proof.
  unfold dir_ready, Os.makedirs, bind, get_state. simpl.
  destruct (disk !! FETCH_DIR) as [[d|]|] eqn:Hdir; [done| |done].
  intros _. unfold ret. by rewrite insert_id.
Qed.

Lemma makedirs_blocked (disk : gmap string node) (m : json) (out : list message) :
  dir_ready disk = false ->
  Os.makedirs FETCH_DIR (Build_state disk m out)
  = (Build_state disk m out, Raised OSError).
Proof.
  unfold dir_ready, Os.makedirs, bind, get_state. simpl.
  by destruct (disk !! FETCH_DIR) as [[d|]|] eqn:Hdir.
Qed.

Lemma open_write_fresh (p : string) (disk : gmap string node) (m : json)
    (out : list message) :
  disk !! p <> Some Dir ->
  Os.open_write p (Build_state disk m out)
  = (Build_state (<[p := File EmptyString]> disk) m out, Normal tt).
Proof.
  unfold Os.open_write, bind, get_state. simpl.
  by destruct (disk !! p) as [[d|]|].
Qed.

Lemma write_file (p data old : string) (disk : gmap string node) (m : json)
    (out : list message) :
  disk !! p = Some (File old) ->
  Os.write p data (Build_state disk m out)
  = (Build_state (<[p := File (old +:+ data)]> disk) m out, Normal tt).
Proof.
  intros Hp. unfold Os.write, modify, set_fs. simpl.
  by rewrite (alter_alt_Some _ _ _ _ Hp).
Qed.

Lemma remove_file (p data : string) (disk : gmap string node) (m : json)
    (out : list message) :
  disk !! p = Some (File data) ->
  Os.remove p (Build_state disk m out)
  = (Build_state (delete p disk) m out, Normal tt).
Proof.
  intros Hp. unfold Os.remove, bind, get_state. simpl. by rewrite Hp.
Qed.

Lemma for_each_write (p : string) (chunks : list string) (old : string)
    (disk : gmap string node) (m : json) (out : list message) :
  disk !! p = Some (File old) ->
  for_each chunks (Os.write p) (Build_state disk m out)
  = (Build_state (<[p := File (old +:+ body chunks)]> disk) m out, Normal tt).
Proof.
  revert old disk. induction chunks as [|c chunks IH]; intros old disk Hp.
  - simpl. unfold ret. rewrite app_nil_r_str. by rewrite insert_id.
  - simpl. erewrite bind_normal; [|by apply write_file].
    rewrite (IH (old +:+ c)); [|by rewrite lookup_insert_eq].
    by rewrite insert_insert_eq, app_assoc_str.
Qed.

(** [save_manifest] on its normal path: the manifest file holds the whole
    text, and nothing else changes. *)
Lemma save_manifest_ok (j : json) (disk : gmap string node) (m : json)
    (out : list message) :
  manifest_writable disk = true ->
  save_manifest j (Build_state disk m out)
  = (Build_state (<[MANIFEST := File (json_dumps j)]> disk) m out, Normal tt).
Proof.
  intros Hw. unfold save_manifest.
  erewrite bind_normal; cycle 1.
  { apply open_write_fresh. unfold manifest_writable in Hw.
    by destruct (disk !! MANIFEST) as [[d|]|]. }
  rewrite (for_each_write _ _ EmptyString); [|by rewrite lookup_insert_eq].
  by rewrite insert_insert_eq.
Qed.

Lemma save_manifest_blocked (j : json) (disk : gmap string node) (m : json)
    (out : list message) :
  manifest_writable disk = false ->
  save_manifest j (Build_state disk m out) = (Build_state disk m out, Raised OSError).
Proof.
  intros Hw. unfold save_manifest, manifest_writable in *.
  unfold Os.open_write, bind, get_state. simpl.
  by destruct (disk !! MANIFEST) as [[d|]|].
Qed.

(** *** The probe *)

Lemma probe_passes_spec (url : string) (env : attempt_env) (s : state) :
  probe_passes env = true -> probe url env s = (s, Normal tt).
Proof.
  unfold probe_passes, probe, try_except, bind, requests_head.
  destruct (head_of env) as [|head]; [done|].
  unfold ret at 1. destruct (ok head); [|done].
  intros [Himg Hlen]%andb_prop. rewrite Himg. simpl.
  destruct (headers head !! "Content-Length") as [clen|]; [|done].
  destruct (PyStr.is_empty clen); [done|]. simpl in Hlen.
  unfold py_int. destruct (PyStr.int clen) as [n|]; [|done].
  unfold ret at 1. apply Z.leb_le in Hlen.
  destruct (n >? MAX_BYTES) eqn:Hgt; [|done].
  apply Z.gtb_lt in Hgt. lia.
Qed.

(** *** The streaming loop *)

(** A body within the cap is written whole, and the hash object is fed
    exactly its bytes. *)
Lemma stream_chunks_accepts (url out_path : string) (chunks : list string)
    (h old : string) (total : Z) (disk : gmap string node) (m : json)
    (out : list message) :
  disk !! out_path = Some (File old) ->
  total + PyStr.len (body chunks) <= MAX_BYTES ->
  stream_chunks url out_path chunks StreamEnds h total (Build_state disk m out)
  = (Build_state (<[out_path := File (old +:+ body chunks)]> disk) m out,
     Normal (h +:+ body chunks, total + PyStr.len (body chunks))).
Proof.
  revert h old total disk.
  induction chunks as [|c chunks IH]; intros h old total disk Hp Hcap.
  - simpl. unfold ret. rewrite !app_nil_r_str, insert_id by done.
    unfold PyStr.len. simpl. by rewrite Z.add_0_r.
  - rewrite body_cons, len_app in *. simpl.
    destruct (PyStr.is_empty c) eqn:Hempty.
    + apply is_empty_true in Hempty as ->.
      rewrite (IH h old total disk Hp); [|unfold PyStr.len in *; simpl in *; lia].
      unfold PyStr.len. simpl. by rewrite Z.add_0_l.
    + pose proof (len_nonneg (body chunks)).
      destruct (total + PyStr.len c >? MAX_BYTES) eqn:Hgt.
      { apply Z.gtb_lt in Hgt. lia. }
      erewrite bind_normal; [|by apply write_file].
      rewrite (IH (h +:+ c) (old +:+ c)); [|by rewrite lookup_insert_eq|lia].
      by rewrite insert_insert_eq, !app_assoc_str, Z.add_assoc.
Qed.

(** The first chunk that takes the count over the cap ends the loop: the
    file is removed, whatever follows in the stream is not read. *)
Lemma stream_chunks_aborts (url out_path : string) (pre : list string)
    (c : string) (post : list string) (e : stream_end)
    (h old : string) (total : Z) (disk : gmap string node) (m : json)
    (out : list message) :
  disk !! out_path = Some (File old) ->
  total + PyStr.len (body pre) <= MAX_BYTES ->
  MAX_BYTES < total + PyStr.len (body pre) + PyStr.len c ->
  stream_chunks url out_path (pre ++ c :: post) e h total (Build_state disk m out)
  = (Build_state (delete out_path disk) m (out ++ [MsgAborted url]), Returned).
Proof.
  revert h old total disk.
  induction pre as [|b pre IH]; intros h old total disk Hp Hpre Hover.
  - simpl in *. unfold PyStr.len in Hpre, Hover. simpl in Hpre, Hover.
    destruct (PyStr.is_empty c) eqn:Hempty.
    { apply is_empty_true in Hempty as ->. simpl in Hover. lia. }
    destruct (total + PyStr.len c >? MAX_BYTES) eqn:Hgt.
    2:{ rewrite Z.gtb_ltb in Hgt. unfold PyStr.len in Hgt.
        apply Z.ltb_ge in Hgt. lia. }
    erewrite bind_normal; [|by eapply remove_file]. done.
  - rewrite <- app_comm_cons. rewrite body_cons, len_app in *. simpl.
    destruct (PyStr.is_empty b) eqn:Hempty.
    + apply is_empty_true in Hempty as ->.
      apply (IH h old total disk Hp); unfold PyStr.len in *; simpl in *; lia.
    + pose proof (len_nonneg (body pre)).
      destruct (total + PyStr.len b >? MAX_BYTES) eqn:Hgt.
      { apply Z.gtb_lt in Hgt. lia. }
      erewrite bind_normal; [|by apply write_file].
      rewrite (IH (h +:+ b) (old +:+ b)); [|by rewrite lookup_insert_eq|lia..].
      by rewrite delete_insert_eq.
Qed.

End Stages.

(** ** The manifest as a Python object *)

Lemma dict_get_set_eq (k : string) (v : json) (d : list (string * json)) :
  PyObj.dict_get k (PyObj.dict_set k v d) = Some v.
Proof.
  induction d as [|[k' v'] d IH]; simpl.
  - by rewrite String.eqb_refl.
  - destruct (String.eqb k k') eqn:Hk; simpl.
    + by rewrite String.eqb_refl.
    + by rewrite Hk.
Qed.

Lemma dict_get_set_ne (k k' : string) (v : json) (d : list (string * json)) :
  k <> k' -> PyObj.dict_get k' (PyObj.dict_set k v d) = PyObj.dict_get k' d.
Proof.
  intros Hne. induction d as [|[k0 v0] d IH]; simpl.
  - apply String.eqb_neq in Hne. by rewrite String.eqb_sym, Hne.
  - destruct (String.eqb k k0) eqn:Hk; simpl.
    + apply String.eqb_eq in Hk as <-.
      apply String.eqb_neq in Hne. by rewrite String.eqb_sym, Hne.
    + by rewrite IH.
Qed.

Lemma well_shaped_inv (m : json) :
  well_shaped m = true ->
  exists d hs fl,
    m = JObj d /\ PyObj.dict_get "hashes" d = Some (JObj hs)
    /\ PyObj.dict_get "files" d = Some (JArr fl).
Proof.
  unfold well_shaped, PyObj.getitem. destruct m as [| | | | | |d]; try done.
  destruct (PyObj.dict_get "hashes" d) as [[| | | | | |hs]|] eqn:Hh; try done.
  destruct (PyObj.dict_get "files" d) as [[| | | | |fl|]|] eqn:Hf; try done.
  intros _. by exists d, hs, fl.
Qed.

Lemma recorded_shape (d : list (string * json)) (hs : list (string * json))
    (fl : list json) (file_hash name : string) :
  PyObj.dict_get "hashes" d = Some (JObj hs) ->
  PyObj.dict_get "files" d = Some (JArr fl) ->
  recorded (JObj d) file_hash name
  = JObj (PyObj.dict_set "files" (JArr (fl ++ [JStr name]))
            (PyObj.dict_set "hashes"
               (JObj (PyObj.dict_set file_hash (JStr name) hs)) d)).
Proof.
  intros Hh Hf. unfold recorded, hashes_of, files_of, update_member, PyObj.getitem.
  rewrite Hh. simpl. rewrite dict_get_set_ne by done. by rewrite Hf.
Qed.

Lemma recorded_well_shaped (m : json) (file_hash name : string) :
  well_shaped m = true -> well_shaped (recorded m file_hash name) = true.
Proof.
  intros (d & hs & fl & -> & Hh & Hf)%well_shaped_inv.
  rewrite (recorded_shape _ _ _ _ _ Hh Hf).
  unfold well_shaped, PyObj.getitem.
  rewrite dict_get_set_ne, dict_get_set_eq by done.
  by rewrite dict_get_set_eq.
Qed.

Lemma recorded_hashes (m : json) (file_hash name : string) :
  well_shaped m = true ->
  hashes_of (recorded m file_hash name)
  = PyObj.dict_set file_hash (JStr name) (hashes_of m).
Proof.
  intros (d & hs & fl & -> & Hh & Hf)%well_shaped_inv.
  rewrite (recorded_shape _ _ _ _ _ Hh Hf).
  unfold hashes_of, PyObj.getitem.
  rewrite dict_get_set_ne, dict_get_set_eq by done. by rewrite Hh.
Qed.

Lemma recorded_files (m : json) (file_hash name : string) :
  well_shaped m = true ->
  files_of (recorded m file_hash name) = files_of m ++ [JStr name].
Proof.
  intros (d & hs & fl & -> & Hh & Hf)%well_shaped_inv.
  rewrite (recorded_shape _ _ _ _ _ Hh Hf).
  unfold files_of, PyObj.getitem.
  rewrite dict_get_set_eq. by rewrite Hf.
Qed.

(** One statement that ends normally, run on a known state. *)
Ltac mstep :=
  erewrite bind_normal by reflexivity;
  cbn [manifest fs console set_manifest set_fs add_console update_member
       PyObj.getitem PyObj.contains PyObj.setitem PyObj.append].

Section Record.
Context `{PyLib}.

(** The record step on new content. *)
Lemma record_fresh (url out_path file_hash : string) (disk : gmap string node)
    (m : json) (out : list message) :
  well_shaped m = true ->
  PyObj.dict_get file_hash (hashes_of m) = None ->
  manifest_writable disk = true ->
  let name := PosixPath.basename out_path in
  let m' := recorded m file_hash name in
  record_or_skip url out_path file_hash (Build_state disk m out)
  = (Build_state (<[MANIFEST := File (json_dumps m')]> disk) m'
       (out ++ [MsgFetched name; MsgSaved out_path]), Normal tt).
Proof.
  intros Hshape Hnew Hw name m'.
  destruct (well_shaped_inv _ Hshape) as (d & hs & fl & -> & Hh & Hf).
  unfold m'. rewrite (recorded_shape _ _ _ _ _ Hh Hf).
  unfold hashes_of, PyObj.getitem in Hnew. rewrite Hh in Hnew.
  unfold record_or_skip.
  mstep. rewrite Hh. mstep. rewrite Hnew.
  rewrite bool_decide_eq_false_2 by (by intros [? ?]).
  mstep. mstep. rewrite Hh. mstep. mstep. mstep. mstep.
  rewrite dict_get_set_ne by done. rewrite Hf. mstep. mstep. mstep. mstep.
  erewrite bind_normal by (by apply save_manifest_ok).
  mstep. unfold print, modify, add_console. cbn [manifest fs console].
  by rewrite <- app_assoc.
Qed.

(** The duplicate check on content already on record. *)
Lemma record_duplicate (url out_path file_hash data : string) (v : json)
    (disk : gmap string node) (m : json) (out : list message) :
  well_shaped m = true ->
  PyObj.dict_get file_hash (hashes_of m) = Some v ->
  disk !! out_path = Some (File data) ->
  record_or_skip url out_path file_hash (Build_state disk m out)
  = (Build_state (delete out_path disk) m (out ++ [MsgDuplicate v url]), Returned).
Proof.
  intros Hshape Hold Hp.
  destruct (well_shaped_inv _ Hshape) as (d & hs & fl & -> & Hh & Hf).
  unfold hashes_of, PyObj.getitem in Hold. rewrite Hh in Hold.
  unfold record_or_skip.
  mstep. rewrite Hh. mstep. rewrite Hold.
  rewrite bool_decide_eq_true_2 by (by eexists).
  mstep. erewrite bind_normal by (by eapply remove_file).
  mstep. rewrite Hh. mstep. rewrite Hold. mstep. mstep. done.
Qed.

End Record.

(** ** One attempt, forwards *)

Section Attempt.
Context `{PyLib}.

Lemma manifest_ne_fetch_dir : MANIFEST <> FETCH_DIR.
Proof. by vm_compute. Qed.

Lemma manifest_writable_insert_file (disk : gmap string node) (p data : string) :
  manifest_writable disk = true -> manifest_writable (<[p := File data]> disk) = true.
Proof.
  unfold manifest_writable. destruct (decide (p = MANIFEST)) as [->|Hne].
  - by rewrite lookup_insert_eq.
  - by rewrite lookup_insert_ne.
Qed.

Lemma manifest_writable_makedirs (disk : gmap string node) :
  manifest_writable disk = true -> manifest_writable (<[FETCH_DIR := Dir]> disk) = true.
Proof.
  unfold manifest_writable. rewrite lookup_insert_ne; [done|].
  intros Heq. by apply manifest_ne_fetch_dir.
Qed.

(** An attempt whose probe passes and whose [GET] is a successful image
    response gets to the streaming loop, on a fresh, empty file. *)
Lemma respectful_fetch_body_transfer (url : string) (env : attempt_env)
    (disk : gmap string node) (m : json) (out : list message)
    (r : response) (chunks : list string) (e : stream_end) :
  dir_ready disk = true ->
  probe_passes env = true ->
  get_of env = GetResponse r chunks e ->
  ok r = true ->
  is_image_response r = true ->
  let p := out_path_of disk r url env in
  respectful_fetch_body url env (Build_state disk m out)
  = (streamed <- stream_chunks url p chunks e EmptyString 0 ;;
     record_or_skip url p (sha256_hexdigest (fst streamed)))
      (Build_state (<[p := File EmptyString]> (<[FETCH_DIR := Dir]> disk)) m out).
Proof.
  intros Hdir Hprobe Hget Hok Himg p. unfold respectful_fetch_body.
  erewrite bind_normal by (by apply makedirs_ready).
  erewrite bind_normal by (by apply probe_passes_spec).
  unfold fetch_and_store, requests_get. rewrite Hget. mstep.
  unfold raise_for_status. rewrite Hok, Himg. mstep. cbn [negb]. mstep.
  erewrite bind_normal; [reflexivity|].
  apply open_write_fresh.
  unfold p, out_path_of. by rewrite ensure_unique_path_fresh.
Qed.

Lemma respectful_fetch_normal (url : string) (env : attempt_env) (s s' : state) :
  respectful_fetch_body url env s = (s', Normal tt) ->
  respectful_fetch url env s = (s', Normal tt).
Proof. intros Hb. unfold respectful_fetch, call, try_except. by rewrite Hb. Qed.

Lemma respectful_fetch_returned (url : string) (env : attempt_env) (s s' : state) :
  respectful_fetch_body url env s = (s', Returned) ->
  respectful_fetch url env s = (s', Normal tt).
Proof. intros Hb. unfold respectful_fetch, call, try_except. by rewrite Hb. Qed.

(** A store: the attempt ends with the body in a new file, the manifest
    extended by one record and saved. *)
Lemma respectful_fetch_stores (url : string) (env : attempt_env) (s : state)
    (r : response) (chunks : list string) :
  stores url env s r chunks ->
  let p := out_path_of (fs s) r url env in
  let name := PosixPath.basename p in
  let m' := recorded (manifest s) (sha256_hexdigest (body chunks)) name in
  respectful_fetch url env s
  = (Build_state
       (<[MANIFEST := File (json_dumps m')]>
          (<[p := File (body chunks)]> (<[FETCH_DIR := Dir]> (fs s))))
       m' (console s ++ [MsgFetched name; MsgSaved p]),
     Normal tt).
Proof.
  intros (Hdir & Hprobe & (Hget & Hok & Himg) & Hcap & Hshape & Hnew & Hw) p name m'.
  destruct s as [disk m out]. cbn [fs manifest console] in *.
  apply respectful_fetch_normal.
  rewrite (respectful_fetch_body_transfer _ _ _ _ _ _ _ _ Hdir Hprobe Hget Hok Himg).
  fold p.
  erewrite bind_normal; cycle 1.
  { apply (stream_chunks_accepts _ _ _ _ EmptyString); [by rewrite lookup_insert_eq|].
    lia. }
  rewrite insert_insert_eq. cbn [fst]. 
  change (EmptyString +:+ body chunks) with (body chunks).
  rewrite record_fresh; [done|done|done|].
  by apply manifest_writable_insert_file, manifest_writable_makedirs.
Qed.

(** A duplicate: the attempt ends with the disk and the manifest as they
    were once the directory was there, and names the file on record. *)
Lemma respectful_fetch_duplicate (url : string) (env : attempt_env) (s : state)
    (r : response) (chunks : list string) (v : json) :
  dir_ready (fs s) = true ->
  probe_passes env = true ->
  serves_image env r chunks ->
  PyStr.len (body chunks) <= MAX_BYTES ->
  well_shaped (manifest s) = true ->
  PyObj.dict_get (sha256_hexdigest (body chunks)) (hashes_of (manifest s)) = Some v ->
  respectful_fetch url env s
  = (Build_state (<[FETCH_DIR := Dir]> (fs s)) (manifest s)
       (console s ++ [MsgDuplicate v url]),
     Normal tt).
Proof.
  intros Hdir Hprobe (Hget & Hok & Himg) Hcap Hshape Hold.
  destruct s as [disk m out]. cbn [fs manifest console] in *.
  apply respectful_fetch_returned.
  rewrite (respectful_fetch_body_transfer _ _ _ _ _ _ _ _ Hdir Hprobe Hget Hok Himg).
  set (p := out_path_of disk r url env).
  erewrite bind_normal; cycle 1.
  { apply (stream_chunks_accepts _ _ _ _ EmptyString); [by rewrite lookup_insert_eq|].
    lia. }
  rewrite insert_insert_eq. cbn [fst].
  change (EmptyString +:+ body chunks) with (body chunks).
  erewrite record_duplicate; [|done|done|by rewrite lookup_insert_eq].
  rewrite delete_insert_id; [done|].
  unfold p, out_path_of. apply ensure_unique_path_fresh.
Qed.

(** An abort: the chunk that crosses the cap ends the attempt, the partial
    file is gone, the manifest is as it was. *)
Lemma respectful_fetch_aborts (url : string) (env : attempt_env) (s : state)
    (r : response) (pre : list string) (c : string) (post : list string)
    (e : stream_end) :
  dir_ready (fs s) = true ->
  probe_passes env = true ->
  get_of env = GetResponse r (pre ++ c :: post) e ->
  ok r = true ->
  is_image_response r = true ->
  PyStr.len (body pre) <= MAX_BYTES ->
  MAX_BYTES < PyStr.len (body pre) + PyStr.len c ->
  respectful_fetch url env s
  = (Build_state (<[FETCH_DIR := Dir]> (fs s)) (manifest s)
       (console s ++ [MsgAborted url]),
     Normal tt).
Proof.
  intros Hdir Hprobe Hget Hok Himg Hpre Hover.
  destruct s as [disk m out]. cbn [fs manifest console] in *.
  apply respectful_fetch_returned.
  rewrite (respectful_fetch_body_transfer _ _ _ _ _ _ _ _ Hdir Hprobe Hget Hok Himg).
  set (p := out_path_of disk r url env).
  erewrite bind_returned; cycle 1.
  { apply (stream_chunks_aborts _ _ _ _ _ _ _ EmptyString);
      [by rewrite lookup_insert_eq|lia|lia]. }
  rewrite delete_insert_id; [done|].
  unfold p, out_path_of. apply ensure_unique_path_fresh.
Qed.

End Attempt.

(** ** The manifest store *)

Section ManifestStore.
Context `{PyLib}.

(** What [load_manifest] returns, as a function of the disk. *)
Lemma load_manifest_eq (s : state) :
  load_manifest s
  = (s, Normal match fs s !! MANIFEST with
               | Some (File data) => default default_manifest (json_load data)
               | _ => default_manifest
               end).
Proof.
  unfold load_manifest.
  mstep.
  destruct (fs s !! MANIFEST) as [[data|]|] eqn:Hm.
  - rewrite bool_decide_eq_true_2 by (by eexists).
    unfold try_except, Os.read_file, bind, get_state. rewrite Hm.
    unfold ret at 1. by destruct (json_load data).
  - rewrite bool_decide_eq_true_2 by (by eexists).
    unfold try_except, Os.read_file, bind, get_state. by rewrite Hm.
  - rewrite bool_decide_eq_false_2; [done|]. by intros [? ?].
Qed.

(** C8, as amended.  [load_manifest] returns the empty default manifest
    when the manifest file does not exist, when it cannot be opened and
    read, and when its content does not parse; it never raises: on every
    disk it returns a manifest and leaves the state as it was.  Content
    that parses is returned as it is, whatever its shape: it is not
    checked, and it is not replaced by the default. *)
Theorem load_manifest_degrades_to_default (s : state) :
  (fs s !! MANIFEST = None -> load_manifest s = (s, Normal default_manifest))
  /\ (fs s !! MANIFEST = Some Dir -> load_manifest s = (s, Normal default_manifest))
  /\ (forall data, fs s !! MANIFEST = Some (File data) -> json_load data = None ->
        load_manifest s = (s, Normal default_manifest))
  /\ (forall data j, fs s !! MANIFEST = Some (File data) -> json_load data = Some j ->
        load_manifest s = (s, Normal j))
  /\ (exists m, load_manifest s = (s, Normal m)).
Proof.
  rewrite load_manifest_eq. repeat split.
  - by intros ->.
  - by intros ->.
  - by intros data -> ->.
  - by intros data j -> ->.
  - by eexists.
Qed.

(** C10. Content that parses is returned as parsed, whatever its shape: a
    list, or an object without the two keys, is not reset to the default.
    The default is returned only when the file is absent, cannot be read or
    does not parse, or when the parsed content is that very value. *)
Theorem load_manifest_returns_parsed_content (s : state) :
  (forall data j, fs s !! MANIFEST = Some (File data) -> json_load data = Some j ->
     load_manifest s = (s, Normal j))
  /\ (load_manifest s = (s, Normal default_manifest) ->
      fs s !! MANIFEST = None
      \/ fs s !! MANIFEST = Some Dir
      \/ exists data, fs s !! MANIFEST = Some (File data)
                      /\ (json_load data = None \/ json_load data = Some default_manifest)).
Proof.
  rewrite load_manifest_eq. split.
  - by intros data j -> ->.
  - intros Hdefault. destruct (fs s !! MANIFEST) as [[data|]|]; [|by auto..].
    right. right. exists data. split; [done|].
    destruct (json_load data) as [j|]; [|by left].
    right. simpl in Hdefault. congruence.
Qed.

(** [save_manifest] either writes the whole text or, when the manifest path
    cannot be opened, raises with the disk as it was. *)
Lemma save_manifest_eq (j : json) (s : state) :
  save_manifest j s
  = if manifest_writable (fs s)
    then (set_fs (insert MANIFEST (File (json_dumps j))) s, Normal tt)
    else (s, Raised OSError).
Proof.
  destruct s as [disk m out]. cbn [fs].
  destruct (manifest_writable disk) eqn:Hw.
  - by apply save_manifest_ok.
  - by apply save_manifest_blocked.
Qed.


End ManifestStore.

Section ManifestCounterexamples.
Existing Instance RefLib.lib.

(** C8, as stated, fails.  A manifest file that holds the JSON list [[]] is
    malformed stored state, and [load_manifest] returns that list, not the
    empty default.  The run goes on with it: the attempt for an image that
    is new ends with the error line, and the manifest file is left as it
    was. *)
Lemma malformed_manifest_is_not_reset :
  let disk : gmap string node := {[ FETCH_DIR := Dir; MANIFEST := File "[]" ]} in
  let url := "http://example.org/a.png" in
  let net := fun (_ : nat) (_ : string) => Sample.serving Sample.plain ["AAA"] in
  let last := fst (main url net (initial_state disk)) in
  load_manifest (initial_state disk) = (initial_state disk, Normal (JArr []))
  /\ JArr [] <> default_manifest
  /\ console last = [MsgWelcome; MsgTagline; MsgError TypeError; MsgFarewell]
  /\ manifest last = JArr []
  /\ fs last !! MANIFEST = Some (File "[]").
Proof.
  intros disk url net last.
  split; [by vm_compute|]. split; [done|].
  split; [by vm_compute|]. split; by vm_compute.
Qed.


End ManifestCounterexamples.

(** ** Deduplication, the size cap and unique names *)

Section Pipeline.
Context `{PyLib}.

Lemma fetch_dir_is_dir_after_store (disk : gmap string node) (p data text : string) :
  <[FETCH_DIR := Dir]> disk !! p = None ->
  <[MANIFEST := File text]> (<[p := File data]> (<[FETCH_DIR := Dir]> disk)) !! FETCH_DIR
  = Some Dir.
Proof.
  intros Hfree. rewrite lookup_insert_ne by apply manifest_ne_fetch_dir.
  rewrite lookup_insert_ne; [by rewrite lookup_insert_eq|].
  intros ->. by rewrite lookup_insert_eq in Hfree.
Qed.

(** The state a store leaves, field by field. *)
Lemma store_leaves (url : string) (env : attempt_env) (s : state)
    (r : response) (chunks : list string) :
  stores url env s r chunks ->
  let s1 := fst (respectful_fetch url env s) in
  let p := out_path_of (fs s) r url env in
  let name := PosixPath.basename p in
  let m1 := recorded (manifest s) (sha256_hexdigest (body chunks)) name in
  respectful_fetch url env s = (s1, Normal tt)
  /\ fs s1 = <[MANIFEST := File (json_dumps m1)]>
               (<[p := File (body chunks)]> (<[FETCH_DIR := Dir]> (fs s)))
  /\ manifest s1 = m1
  /\ console s1 = console s ++ [MsgFetched name; MsgSaved p].
Proof.
  intros Hst s1 p name m1. unfold s1.
  by rewrite (respectful_fetch_stores _ _ _ _ _ Hst).
Qed.

Lemma store_keeps_dir_ready (url : string) (env : attempt_env) (s : state)
    (r : response) (chunks : list string) :
  stores url env s r chunks ->
  <[FETCH_DIR := Dir]> (fs (fst (respectful_fetch url env s)))
  = fs (fst (respectful_fetch url env s))
  /\ dir_ready (fs (fst (respectful_fetch url env s))) = true.
Proof.
  intros Hst. destruct (store_leaves _ _ _ _ _ Hst) as (_ & Hfs & _ & _).
  assert (fs (fst (respectful_fetch url env s)) !! FETCH_DIR = Some Dir) as Hdir.
  { rewrite Hfs. apply fetch_dir_is_dir_after_store.
    unfold out_path_of. apply ensure_unique_path_fresh. }
  split; [by apply insert_id|]. unfold dir_ready. by rewrite Hdir.
Qed.



Lemma ensure_unique_path_cases (disk : gmap string node) (path base ext : string) :
  PosixPath.splitext path = (base, ext) ->
  (disk !! path = None /\ ensure_unique_path disk path = path)
  \/ (is_Some (disk !! path)
      /\ exists k, 1 <= k /\ ensure_unique_path disk path = numbered base ext k
                   /\ forall j, 1 <= j < k -> is_Some (disk !! numbered base ext j)).
Proof.
  intros Hsplit.
  destruct (ensure_unique_path_spec disk path base ext Hsplit)
    as [Hfree [Heq|(k & Hk & Heq & Hin & Hbelow)]].
  - left. split; [|done]. by rewrite Heq in Hfree.
  - right. split; [by apply elem_of_dom|]. exists k. repeat split; try done.
    intros j Hj. apply elem_of_dom. by apply Hbelow.
Qed.



(** A body longer than a bound has a first chunk that crosses it. *)
Lemma first_crossing_chunk (cap : Z) (chunks : list string) :
  0 <= cap ->
  cap < PyStr.len (body chunks) ->
  exists pre c post,
    chunks = pre ++ c :: post
    /\ PyStr.len (body pre) <= cap
    /\ cap < PyStr.len (body pre) + PyStr.len c.
Proof.
  revert cap. induction chunks as [|c chunks IH]; intros cap Hcap Hlong.
  - unfold PyStr.len in Hlong. simpl in Hlong. lia.
  - rewrite body_cons, len_app in Hlong.
    destruct (decide (cap < PyStr.len c)) as [Hc|Hc].
    + exists [], c, chunks. split; [done|].
      unfold PyStr.len in *. simpl. lia.
    + destruct (IH (cap - PyStr.len c)) as (pre & c' & post & -> & Hpre & Hover);
        [lia..|].
      exists (c :: pre), c', post. rewrite body_cons, len_app.
      split; [done|]. lia.
Qed.

(** C2.  The loop that streams the body to the file it has opened tests
    the running byte count against [MAX_BYTES] after every chunk that is
    not empty: chunks that keep the count at or below the cap are all
    written, and the first chunk that takes it over the cap ends the loop,
    whatever follows in the stream: the file is removed, the abort is
    printed and the function returns.  So an attempt that writes to a
    plain target stores a body whose size is exactly [MAX_BYTES]: it is
    written whole and recorded.  And an attempt whose body goes over the
    cap reports the abort: the file it was writing is gone, no other entry
    of the disk has changed, and the manifest is the one the attempt
    started with.  Every body longer than the cap, so also one of
    [MAX_BYTES + 1] bytes, has a first chunk that crosses it. *)
Theorem size_cap_boundary :
  (forall (url out_path : string) (chunks : list string) (h old : string)
      (total : Z) (disk : gmap string node) (m : json) (out : list message),
      disk !! out_path = Some (File old) ->
      total + PyStr.len (body chunks) <= MAX_BYTES ->
      stream_chunks url out_path chunks StreamEnds h total (Build_state disk m out)
      = (Build_state (<[out_path := File (old +:+ body chunks)]> disk) m out,
         Normal (h +:+ body chunks, total + PyStr.len (body chunks))))
  /\ (forall (url out_path : string) (pre : list string) (c : string)
        (post : list string) (e : stream_end) (h old : string) (total : Z)
        (disk : gmap string node) (m : json) (out : list message),
        disk !! out_path = Some (File old) ->
        total + PyStr.len (body pre) <= MAX_BYTES ->
        MAX_BYTES < total + PyStr.len (body pre) + PyStr.len c ->
        stream_chunks url out_path (pre ++ c :: post) e h total
          (Build_state disk m out)
        = (Build_state (delete out_path disk) m (out ++ [MsgAborted url]),
           Returned))
  /\ (forall (url : string) (env : attempt_env) (s : state) (r : response)
        (chunks : list string),
        dir_ready (fs s) = true ->
        probe_passes env = true ->
        serves_image env r chunks ->
        PyStr.len (body chunks) = MAX_BYTES ->
        well_shaped (manifest s) = true ->
        PyObj.dict_get (sha256_hexdigest (body chunks)) (hashes_of (manifest s)) = None ->
        manifest_writable (fs s) = true ->
        plain_target (out_path_of (fs s) r url env) = true ->
        let s' := fst (respectful_fetch url env s) in
        let p := out_path_of (fs s) r url env in
        let name := PosixPath.basename p in
        console s' = console s ++ [MsgFetched name; MsgSaved p]
        /\ is_file (fs s') p
        /\ (p <> MANIFEST -> fs s' !! p = Some (File (body chunks)))
        /\ manifest s' = recorded (manifest s) (sha256_hexdigest (body chunks)) name)
  /\ (forall (url : string) (env : attempt_env) (s : state) (r : response)
        (pre : list string) (c : string) (post : list string) (e : stream_end),
        dir_ready (fs s) = true ->
        probe_passes env = true ->
        get_of env = GetResponse r (pre ++ c :: post) e ->
        ok r = true ->
        is_image_response r = true ->
        PyStr.len (body pre) <= MAX_BYTES ->
        MAX_BYTES < PyStr.len (body pre) + PyStr.len c ->
        plain_target (out_path_of (fs s) r url env) = true ->
        let s' := fst (respectful_fetch url env s) in
        let p := out_path_of (fs s) r url env in
        console s' = console s ++ [MsgAborted url]
        /\ fs s' !! p = None
        /\ fs s' = <[FETCH_DIR := Dir]> (fs s)
        /\ manifest s' = manifest s)
  /\ (forall chunks : list string,
        MAX_BYTES < PyStr.len (body chunks) ->
        exists pre c post,
          chunks = pre ++ c :: post
          /\ PyStr.len (body pre) <= MAX_BYTES
          /\ MAX_BYTES < PyStr.len (body pre) + PyStr.len c).
Proof.
  split; [|split; [|split; [|split]]].
  - intros url out_path chunks h old total disk m out Hp Hcap.
    by apply stream_chunks_accepts.
  - intros url out_path pre c post e h old total disk m out Hp Hpre Hover.
    by eapply stream_chunks_aborts.
  - intros url env s r chunks Hdir Hprobe Himg Hlen Hshape Hnew Hw _ s' p name.
    assert (stores url env s r chunks) as Hst.
    { repeat split; try done; try apply Himg. lia. }
    destruct (store_leaves _ _ _ _ _ Hst) as (_ & Hfs & Hm & Hc).
    fold s' in Hfs, Hm, Hc. fold p in Hfs, Hm, Hc. fold name in Hfs, Hm, Hc.
    repeat split; try done.
    + rewrite Hfs. unfold is_file. destruct (decide (p = MANIFEST)) as [->|Hne].
      * rewrite lookup_insert_eq. by eexists.
      * rewrite lookup_insert_ne by done. rewrite lookup_insert_eq. by eexists.
    + intros Hne. rewrite Hfs. rewrite lookup_insert_ne by done.
      by rewrite lookup_insert_eq.
  - intros url env s r pre c post e Hdir Hprobe Hget Hok Himg Hpre Hover _ s' p.
    unfold s'.
    rewrite (respectful_fetch_aborts _ _ _ _ _ _ _ _ Hdir Hprobe Hget Hok Himg Hpre Hover).
    cbn [fst fs manifest console]. repeat split.
    unfold p, out_path_of. apply ensure_unique_path_fresh.
  - intros chunks Hlong. by apply first_crossing_chunk.
Qed.

End Pipeline.

(** ** File names *)

Lemma all_chars_filter (p : ascii -> bool) (s : string) :
  all_chars p (PyStr.filter p s) = true.
Proof.
  induction s as [|c s IH]; [done|]. simpl.
  destruct (p c) eqn:Hp; [|done]. simpl. by rewrite Hp.
Qed.

Lemma all_chars_app (p : ascii -> bool) (a b : string) :
  all_chars p (a +:+ b) = (all_chars p a && all_chars p b)%bool.
Proof.
  induction a as [|c a IH]; [done|].
  unfold String.app in *. simpl. rewrite IH. by rewrite andb_assoc.
Qed.

Lemma keeps_pretty_N_char (x : N) : keeps (pretty_N_char x) = true.
Proof. unfold pretty_N_char. by repeat case_match. Qed.

Lemma all_chars_pretty_N_go (x : N) (s : string) :
  all_chars keeps s = true -> all_chars keeps (pretty_N_go x s) = true.
Proof.
  revert s. induction (N.lt_wf_0 x) as [x _ IH]; intros s Hs.
  destruct (decide (x = 0)%N) as [->|Hx].
  - by rewrite pretty_N_go_0.
  - rewrite pretty_N_go_step by lia. apply IH.
    + apply N.div_lt; lia.
    + simpl. by rewrite keeps_pretty_N_char.
Qed.

Lemma all_chars_pretty_Z (z : Z) : all_chars keeps (pretty z) = true.
Proof.
  unfold pretty, pretty_Z. destruct z as [|x|x]; [done| |].
  - unfold pretty, pretty_positive, pretty, pretty_N. simpl.
    by apply all_chars_pretty_N_go.
  - rewrite all_chars_app. simpl.
    unfold pretty, pretty_positive, pretty, pretty_N. simpl.
    by apply all_chars_pretty_N_go.
Qed.

Section FileNames.
Context `{PyLib}.

(** A name derived from the URL has only characters the filter keeps:
    alphanumerics, hyphen, underscore, period and space; and the name is
    [image_<millis>.jpg] when the filter leaves nothing. *)
Lemma safe_filename_from_url_sanitized (url : string) (env : attempt_env) :
  all_chars keeps (safe_filename_from_url url env) = true.
Proof.
  unfold safe_filename_from_url.
  match goal with |- context [PyStr.filter keeps ?n] => set (name := n) end.
  destruct (PyStr.is_empty (PyStr.filter keeps name)) eqn:Hempty.
  - rewrite !all_chars_app. rewrite all_chars_pretty_Z. done.
  - apply all_chars_filter.
Qed.

Lemma filename_from_headers_traversal :
  filename_from_headers Sample.traversal_response = Some "../evil.png".
Proof. by vm_compute. Qed.

End FileNames.

Section TraversalRun.
Existing Instance RefLib.lib.

(** C4. A response that names its file [../evil.png] in [Content-Disposition]
    gets exactly that name: it has characters the filter of the URL branch
    would drop, and the attempt stores the body under a path that leaves the
    output directory. *)
Theorem header_filename_is_not_sanitized :
  (forall (L : PyLib) (url : string) (env : attempt_env),
     choose_filename (lib := L) Sample.traversal_response url env = "../evil.png")
  /\ all_chars keeps "../evil.png" = false
  /\ PyStr.filter keeps "../evil.png" = "..evil.png"
  /\ let s' := fst (respectful_fetch "http://example.org/cat.png"
                      (Sample.serving Sample.traversal_response ["PNG"])
                      Sample.fresh) in
     fs s' !! "Fetched_Images/../evil.png" = Some (File "PNG")
     /\ console s' = [MsgFetched "evil.png"; MsgSaved "Fetched_Images/../evil.png"].
Proof.
  split; [|split; [|split]].
  - intros L url env. unfold choose_filename.
    by rewrite filename_from_headers_traversal.
  - by vm_compute.
  - by vm_compute.
  - by vm_compute.
Qed.

End TraversalRun.

(** ** The probe *)

Section Probe.
Context {lib : PyLib}.

Lemma probe_head_fails (url : string) (env : attempt_env) (s : state) :
  head_of env = HeadFails -> probe url env s = (s, Normal tt).
Proof. intros Hh. apply probe_passes_spec. unfold probe_passes. by rewrite Hh. Qed.

Lemma probe_error_status (url : string) (env : attempt_env) (s : state)
    (head : response) :
  head_of env = HeadResponse head -> ok head = false ->
  probe url env s = (s, Normal tt).
Proof.
  intros Hh Hok. apply probe_passes_spec. unfold probe_passes. by rewrite Hh, Hok.
Qed.

Lemma probe_not_image (url : string) (env : attempt_env) (s : state)
    (head : response) :
  head_of env = HeadResponse head -> ok head = true ->
  PyStr.startswith "image/" (header head "Content-Type" EmptyString) = false ->
  probe url env s = (add_console (MsgSkippedNotImage url) s, Returned).
Proof.
  intros Hh Hok Himg. unfold probe, try_except, requests_head. rewrite Hh.
  mstep. rewrite Hok, Himg. cbn [negb]. done.
Qed.

Lemma probe_too_large (url : string) (env : attempt_env) (s : state)
    (head : response) (clen : string) (n : Z) :
  head_of env = HeadResponse head -> ok head = true ->
  PyStr.startswith "image/" (header head "Content-Type" EmptyString) = true ->
  headers head !! "Content-Length" = Some clen ->
  PyStr.int clen = Some n -> MAX_BYTES < n ->
  PyStr.true_div_overflows n = false ->
  probe url env s = (add_console (MsgSkippedTooLarge n url) s, Returned).
Proof.
  intros Hh Hok Himg Hclen Hint Hbig Hfits. unfold probe, try_except, requests_head.
  rewrite Hh. mstep. rewrite Hok, Himg. cbn [negb]. mstep. rewrite Hclen.
  assert (PyStr.is_empty clen = false) as ->.
  { destruct clen; [by vm_compute in Hint|done]. }
  unfold py_int. rewrite Hint. mstep.
  assert ((n >? MAX_BYTES) = true) as -> by (apply Z.gtb_lt; lia).
  unfold py_megabytes. rewrite Hfits. by mstep.
Qed.

Lemma probe_malformed_length (url : string) (env : attempt_env) (s : state)
    (head : response) (clen : string) :
  head_of env = HeadResponse head -> ok head = true ->
  PyStr.startswith "image/" (header head "Content-Type" EmptyString) = true ->
  headers head !! "Content-Length" = Some clen ->
  clen <> EmptyString -> PyStr.int clen = None ->
  probe url env s = (s, Raised ValueError).
Proof.
  intros Hh Hok Himg Hclen Hne Hint. unfold probe, try_except, requests_head.
  rewrite Hh. mstep. rewrite Hok, Himg. cbn [negb]. mstep. rewrite Hclen.
  assert (PyStr.is_empty clen = false) as -> by (by destruct clen).
  unfold py_int. by rewrite Hint.
Qed.

(** On a declared length that is absent, empty or numeric, the probe does
    what the specification says: it rejects with one notice and an early
    return, touching neither disk nor manifest, exactly when the specified
    condition holds, and otherwise lets the attempt go on. *)
Lemma probe_follows_spec_on_numeric_lengths (url : string) (env : attempt_env)
    (s : state) :
  match head_of env with
  | HeadFails => True
  | HeadResponse head => length_is_numeric head
  end ->
  if spec_probe_rejects env
  then exists msg, probe url env s = (add_console msg s, Returned)
  else probe url env s = (s, Normal tt).
Proof.
  unfold spec_probe_rejects. destruct (head_of env) as [|head] eqn:Hh.
  { intros _. by apply probe_head_fails. }
  intros Hnum. destruct (ok head) eqn:Hok; cbn [andb].
  2:{ by eapply probe_error_status. }
  destruct (PyStr.startswith "image/" (header head "Content-Type" EmptyString)) eqn:Himg;
    cbn [negb orb].
  2:{ eexists. by eapply probe_not_image. }
  unfold spec_declares_too_large, length_is_numeric in *.
  destruct (headers head !! "Content-Length") as [clen|] eqn:Hclen.
  2:{ apply probe_passes_spec. unfold probe_passes.
      by rewrite Hh, Hok, Himg, Hclen. }
  destruct Hnum as [->|(n & Hint & Hfits)].
  { change (PyStr.int EmptyString) with (@None Z). apply probe_passes_spec.
    unfold probe_passes. by rewrite Hh, Hok, Himg, Hclen. }
  rewrite Hint. destruct (n >? MAX_BYTES) eqn:Hgt.
  - eexists. eapply probe_too_large; try done. by apply Z.gtb_lt in Hgt.
  - apply probe_passes_spec. unfold probe_passes.
    rewrite Hh, Hok, Himg, Hclen, Hint. cbn [andb].
    rewrite Z.gtb_ltb in Hgt. apply Z.ltb_ge in Hgt.
    apply Z.leb_le in Hgt. rewrite Hgt. by rewrite orb_true_r.
Qed.

(** A probe rejection ends the attempt: the [GET] reply is not looked at,
    and but for the output directory nothing on the disk and nothing in the
    manifest has changed. *)
Lemma respectful_fetch_probe_rejects (url : string) (env : attempt_env)
    (s : state) (msg : message) :
  dir_ready (fs s) = true ->
  probe url env (set_fs (insert FETCH_DIR Dir) s)
  = (add_console msg (set_fs (insert FETCH_DIR Dir) s), Returned) ->
  respectful_fetch url env s
  = (add_console msg (set_fs (insert FETCH_DIR Dir) s), Normal tt).
Proof.
  intros Hdir Hprobe. apply respectful_fetch_returned.
  unfold respectful_fetch_body. destruct s as [disk m out].
  erewrite bind_normal by (by apply makedirs_ready).
  erewrite bind_returned; [done|]. apply Hprobe.
Qed.

End Probe.

(** C6. A probe answer with status 200, an image content type and the
    length [1024, 1024]: the specified probe does not reject it, yet the
    attempt ends in [ValueError] from [int(clen)], which only the outer
    handler catches; whatever the [GET] would have answered is never asked
    for, and nothing is stored. *)
Theorem malformed_length_aborts_attempt (L : PyLib) (url : string) (g : get_reply) :
  let env := Sample.doubled_length_env g in
  spec_probe_rejects env = false
  /\ PyStr.int "1024, 1024" = None
  /\ probe url env Sample.fresh = (Sample.fresh, Raised ValueError)
  /\ respectful_fetch url env Sample.fresh
     = ({| fs := {[ FETCH_DIR := Dir ]};
           manifest := default_manifest;
           console := [MsgError ValueError] |}, Normal tt).
Proof.
  repeat split; by vm_compute.
Qed.

(** ** What an attempt prints, and what it raises *)

Section Reports.
Context {lib : PyLib}.

Lemma reports_ret {A} (a : A) : reports 0 (ret a).
Proof. intros s. simpl. exists []. by rewrite app_nil_r. Qed.

Lemma reports_raise {A} (k : nat) (e : exn) :
  is_Exception e = true -> reports k (raise (A := A) e).
Proof. intros He s. by simpl. Qed.

Lemma reports_bind {A B} (k : nat) (m : M A) (f : A -> M B) :
  reports 0 m -> (forall a, reports k (f a)) -> reports k (bind m f).
Proof.
  intros Hm Hf s. unfold bind. specialize (Hm s).
  destruct (m s) as [s' [a| |e]].
  - destruct Hm as (l & Hl & Hc). destruct l; [|done].
    rewrite app_nil_r in Hc. specialize (Hf a s'). rewrite Hc in Hf. done.
  - done.
  - done.
Qed.

Lemma reports_get_state : reports 0 get_state.
Proof. intros s. simpl. exists []. by rewrite app_nil_r. Qed.

Lemma reports_modify (f : state -> state) :
  (forall s, console (f s) = console s) -> reports 0 (modify f).
Proof. intros Hf s. simpl. exists []. by rewrite app_nil_r, Hf. Qed.

Lemma reports_lift {A} (r : res A) :
  (forall e, r = Exc e -> is_Exception e = true) -> reports 0 (lift r).
Proof.
  intros Hr. destruct r as [a|e]; simpl.
  - apply reports_ret.
  - apply reports_raise. by apply Hr.
Qed.

Lemma reports_print_return {A} (k : nat) (msg : message) :
  reports k (print msg ;;; return_ (A := A)).
Proof. intros s. simpl. by exists msg. Qed.

Lemma reports_print_print (a b : message) : reports 2 (print a ;;; print b).
Proof.
  intros s. simpl. exists [a; b]. split; [done|]. by rewrite <- app_assoc.
Qed.

Lemma reports_try_except {A} (k : nat) (m : M A) (h : exn -> M A) :
  reports k m -> (forall e, is_Exception e = true -> reports k (h e)) ->
  reports k (try_except m h).
Proof.
  intros Hm Hh s. unfold try_except. specialize (Hm s).
  destruct (m s) as [s' [a| |e]]; [done..|].
  destruct Hm as [Hc He]. specialize (Hh e He s'). by rewrite Hc in Hh.
Qed.

Lemma reports_for_each {A} (l : list A) (f : A -> M unit) :
  (forall a, reports 0 (f a)) -> reports 0 (for_each l f).
Proof.
  intros Hf. induction l as [|a l IH]; simpl.
  - apply reports_ret.
  - apply reports_bind; [apply Hf|]. by intros _.
Qed.

Lemma getitem_raises (o : json) (k : string) (e : exn) :
  PyObj.getitem o k = Exc e -> is_Exception e = true.
Proof.
  unfold PyObj.getitem. destruct o; try by intros [= <-].
  destruct (PyObj.dict_get k members); by intros [= <-].
Qed.

Lemma contains_raises (k : string) (o : json) (e : exn) :
  PyObj.contains k o = Exc e -> is_Exception e = true.
Proof. unfold PyObj.contains. destruct o; by intros [= <-]. Qed.

Lemma setitem_raises (o : json) (k : string) (v : json) (e : exn) :
  PyObj.setitem o k v = Exc e -> is_Exception e = true.
Proof. unfold PyObj.setitem. destruct o; by intros [= <-]. Qed.

Lemma append_raises (o v : json) (e : exn) :
  PyObj.append o v = Exc e -> is_Exception e = true.
Proof. unfold PyObj.append. destruct o; by intros [= <-]. Qed.

End Reports.

(** Takes a statement apart along [bind] and its branches. *)
Ltac reports_step :=
  first
    [ apply reports_print_return
    | apply reports_print_print
    | apply reports_ret
    | apply reports_get_state
    | apply reports_raise; reflexivity
    | apply reports_modify; reflexivity
    | apply reports_lift; intros ?; first
        [ apply getitem_raises | apply contains_raises
        | apply setitem_raises | apply append_raises ]
    | apply reports_bind; [|intros ?]
    | match goal with
      | |- reports _ (match ?x with _ => _ end) => destruct x
      end ].

Section ReportsProgram.
Context {lib : PyLib}.

Lemma reports_makedirs (p : string) : reports 0 (Os.makedirs p).
Proof. unfold Os.makedirs. repeat reports_step. Qed.

Lemma reports_open_write (p : string) : reports 0 (Os.open_write p).
Proof. unfold Os.open_write. repeat reports_step. Qed.

Lemma reports_write (p data : string) : reports 0 (Os.write p data).
Proof. unfold Os.write. repeat reports_step. Qed.

Lemma reports_remove (p : string) : reports 0 (Os.remove p).
Proof. unfold Os.remove. repeat reports_step. Qed.

Lemma reports_save_manifest (j : json) : reports 0 (save_manifest j).
Proof.
  unfold save_manifest. apply reports_bind; [apply reports_open_write|].
  intros _. apply reports_for_each. intros c. apply reports_write.
Qed.

Lemma reports_probe (url : string) (env : attempt_env) : reports 0 (probe url env).
Proof.
  unfold probe. apply reports_try_except.
  - unfold requests_head, py_int, py_megabytes. repeat reports_step.
  - intros e He. destruct (is_RequestException e).
    + apply reports_ret.
    + by apply reports_raise.
Qed.

Lemma reports_stream_chunks (url out_path : string) (chunks : list string)
    (e : stream_end) (h : string) (total : Z) :
  reports 0 (stream_chunks url out_path chunks e h total).
Proof.
  revert h total. induction chunks as [|c chunks IH]; intros h total; simpl.
  - repeat reports_step.
  - destruct (PyStr.is_empty c); [apply IH|].
    destruct (total + PyStr.len c >? MAX_BYTES).
    + apply reports_bind; [apply reports_remove|]. intros _.
      apply reports_print_return.
    + apply reports_bind; [apply reports_write|]. intros _. apply IH.
Qed.

Lemma reports_record_or_skip (url out_path file_hash : string) :
  reports 2 (record_or_skip url out_path file_hash).
Proof.
  unfold record_or_skip, get_manifest, put_manifest.
  repeat first
    [ apply reports_bind; [apply reports_remove|intros ?]
    | apply reports_bind; [apply reports_save_manifest|intros ?]
    | reports_step ].
Qed.

Lemma reports_fetch_and_store (url : string) (env : attempt_env) :
  reports 2 (fetch_and_store url env).
Proof.
  unfold fetch_and_store, requests_get, raise_for_status.
  apply reports_bind; [repeat reports_step|]. intros [[r chunks] e].
  apply reports_bind; [repeat reports_step|]. intros _.
  destruct (negb (is_image_response r)); [apply reports_print_return|].
  apply reports_bind; [apply reports_get_state|]. intros s.
  apply reports_bind; [apply reports_open_write|]. intros _.
  apply reports_bind; [apply reports_stream_chunks|]. intros streamed.
  apply reports_record_or_skip.
Qed.

Lemma reports_respectful_fetch_body (url : string) (env : attempt_env) :
  reports 2 (respectful_fetch_body url env).
Proof.
  unfold respectful_fetch_body.
  apply reports_bind; [apply reports_makedirs|]. intros _.
  apply reports_bind; [apply reports_probe|]. intros _.
  apply reports_fetch_and_store.
Qed.

(** An attempt always ends normally, and it has printed one line or two. *)
Lemma respectful_fetch_reports (url : string) (env : attempt_env) (s : state) :
  exists s' msgs,
    respectful_fetch url env s = (s', Normal tt)
    /\ console s' = console s ++ msgs
    /\ (length msgs = 1 \/ length msgs = 2)%nat.
Proof.
  pose proof (reports_respectful_fetch_body url env s) as Hb.
  unfold respectful_fetch, call, try_except.
  destruct (respectful_fetch_body url env s) as [s' [[]| |e]].
  - destruct Hb as (l & Hl & Hc). exists s', l. auto.
  - destruct Hb as (msg & Hc). exists s', [msg]. auto.
  - destruct Hb as (Hc & He). destruct (is_RequestException e).
    + eexists _, [_]. repeat split; [|by left]. simpl. by rewrite Hc.
    + rewrite He. eexists _, [_]. repeat split; [|by left]. simpl. by rewrite Hc.
Qed.

Lemma fetch_all_runs_every_attempt (i : nat) (urls : list string)
    (net : nat -> string -> attempt_env) (s : state) :
  fetch_all i urls net s = (after_attempts i urls net s, Normal tt).
Proof.
  revert i s. induction urls as [|url urls IH]; intros i s; simpl; [done|].
  destruct (respectful_fetch_reports url (net i url) s) as (s' & msgs & Hr & _).
  erewrite bind_normal by apply Hr. rewrite Hr. apply IH.
Qed.

Lemma after_attempts_lines (urls : list string) (i : nat)
    (net : nat -> string -> attempt_env) (s : state) :
  exists msgs,
    console (after_attempts i urls net s) = console s ++ msgs
    /\ (length urls <= length msgs <= 2 * length urls)%nat.
Proof.
  revert i s. induction urls as [|url urls IH]; intros i s.
  - exists []. simpl. by rewrite app_nil_r.
  - cbn [after_attempts].
    destruct (respectful_fetch_reports url (net i url) s)
      as (s' & one & Hrun & Hone & Hlen).
    rewrite Hrun. cbn [fst].
    destruct (IH (S i) s') as (rest & Hrest & Hbounds).
    exists (one ++ rest). rewrite Hrest, Hone, (assoc_L (++)).
    split; [done|]. rewrite length_app. simpl. lia.
Qed.

(** The attempts for a list of URLs in two parts: those of the second part
    start from the state those of the first part have left. *)
Lemma after_attempts_app (pre post : list string) (i : nat)
    (net : nat -> string -> attempt_env) (s : state) :
  after_attempts i (pre ++ post) net s
  = after_attempts (i + length pre) post net (after_attempts i pre net s).
Proof.
  revert i s. induction pre as [|url pre IH]; intros i s; simpl.
  - by rewrite Nat.add_0_r.
  - rewrite IH. by rewrite Nat.add_succ_r.
Qed.

(** What [main] does with a line that is not blank: the greeting, the load
    of the manifest, the attempts and the farewell. *)
Lemma main_makes_the_attempts (line : string) (net : nat -> string -> attempt_env)
    (disk : gmap string node) :
  PyStr.strip line <> EmptyString ->
  exists m,
    load_manifest (initial_state disk) = (initial_state disk, Normal m)
    /\ main line net (initial_state disk)
       = (add_console MsgFarewell
            (after_attempts 0 (url_tokens (PyStr.strip line)) net
               (Build_state disk m [MsgWelcome; MsgTagline])),
          Normal tt).
Proof.
  intros Hraw. eexists. split; [apply load_manifest_eq|].
  unfold main. mstep. mstep.
  assert (PyStr.is_empty (PyStr.strip line) = false) as ->
    by (by destruct (PyStr.strip line)).
  mstep. erewrite bind_normal by apply load_manifest_eq. mstep.
  erewrite bind_normal by apply fetch_all_runs_every_attempt.
  done.
Qed.

(** C9. Whatever happens during the attempt for one URL (a transport error,
    a response that is not an image, a size over the cap, a duplicate, or
    any other exception) [respectful_fetch] ends normally and has printed
    one line or two, so nothing propagates to [main].  [main], on a line
    that is not blank, loads the manifest, makes the attempt for every URL
    of the line, in order, and prints the farewell: the loop [fetch_all]
    ends normally in the state the attempts leave, the attempt for a URL
    starts from the state the attempts before it have left, whatever their
    outcomes, and the attempts after it are made from the state it leaves;
    every URL accounts for one line or two of what is printed.  The process
    exits with status 0, on a blank line too. *)
Theorem failures_stay_local_to_one_url :
  (forall (url : string) (env : attempt_env) (s : state),
     exists s' msgs,
       respectful_fetch url env s = (s', Normal tt)
       /\ console s' = console s ++ msgs
       /\ (length msgs = 1 \/ length msgs = 2)%nat)
  /\ (forall (line : string) (net : nat -> string -> attempt_env)
        (disk : gmap string node),
        PyStr.strip line <> EmptyString ->
        exists m,
          load_manifest (initial_state disk) = (initial_state disk, Normal m)
          /\ main line net (initial_state disk)
             = (add_console MsgFarewell
                  (after_attempts 0 (url_tokens (PyStr.strip line)) net
                     (Build_state disk m [MsgWelcome; MsgTagline])),
                Normal tt))
  /\ (forall (i : nat) (urls : list string) (net : nat -> string -> attempt_env)
        (s : state),
        fetch_all i urls net s = (after_attempts i urls net s, Normal tt))
  /\ (forall (i : nat) (pre : list string) (url : string) (post : list string)
        (net : nat -> string -> attempt_env) (s : state),
        after_attempts i (pre ++ url :: post) net s
        = after_attempts (S (i + length pre)) post net
            (fst (respectful_fetch url (net (i + length pre)%nat url)
                    (after_attempts i pre net s))))
  /\ (forall (i : nat) (urls : list string) (net : nat -> string -> attempt_env)
        (s : state),
        exists msgs,
          console (after_attempts i urls net s) = console s ++ msgs
          /\ (length urls <= length msgs <= 2 * length urls)%nat)
  /\ (forall (line : string) (net : nat -> string -> attempt_env)
        (disk : gmap string node),
        exit_status (snd (main line net (initial_state disk))) = 0).
Proof.
  split; [apply respectful_fetch_reports|].
  split; [apply main_makes_the_attempts|].
  split; [apply fetch_all_runs_every_attempt|].
  split; [|split].
  - intros i pre url post net s. by rewrite after_attempts_app.
  - intros i urls net s. apply after_attempts_lines.
  - intros line net disk.
    destruct (PyStr.strip line) as [|c raw] eqn:Hraw.
    + unfold main. mstep. mstep. by rewrite Hraw.
    + destruct (main_makes_the_attempts line net disk) as (m & _ & ->); [|done].
      by rewrite Hraw.
Qed.

End ReportsProgram.

(** ** One attempt, backwards: when has an attempt stored? *)

Section Inversion.
Context {lib : PyLib}.

Lemma bind_normal_inv {A B} (m : M A) (f : A -> M B) (s s' : state) (b : B) :
  bind m f s = (s', Normal b) ->
  exists s1 a, m s = (s1, Normal a) /\ f a s1 = (s', Normal b).
Proof.
  unfold bind. destruct (m s) as [s1 [a| |e]]; [|done..].
  intros Hf. by exists s1, a.
Qed.

Lemma makedirs_normal_inv (disk : gmap string node) (m : json)
    (out : list message) (s' : state) :
  Os.makedirs FETCH_DIR (Build_state disk m out) = (s', Normal tt) ->
  dir_ready disk = true /\ s' = Build_state (<[FETCH_DIR := Dir]> disk) m out.
Proof.
  destruct (dir_ready disk) eqn:Hdir.
  - rewrite makedirs_ready by done. by intros [= <-].
  - by rewrite makedirs_blocked.
Qed.

Lemma probe_normal_inv (url : string) (env : attempt_env) (s s' : state) :
  probe url env s = (s', Normal tt) -> probe_passes env = true /\ s' = s.
Proof.
  intros Hp. assert (probe_passes env = true) as Hpass.
  { revert Hp. unfold probe_passes, probe, try_except, requests_head.
    destruct (head_of env) as [|head]; [done|]. mstep.
    destruct (ok head); [|done].
    destruct (PyStr.startswith "image/" (header head "Content-Type" EmptyString));
      cbn [negb andb]; [|done].
    mstep. destruct (headers head !! "Content-Length") as [clen|]; [|done].
    destruct (PyStr.is_empty clen); [done|]. cbn [orb].
    unfold py_int. destruct (PyStr.int clen) as [n|]; [|done]. mstep.
    destruct (n >? MAX_BYTES) eqn:Hgt.
    { unfold py_megabytes. by destruct (PyStr.true_div_overflows n). }
    intros _.
    rewrite Z.gtb_ltb in Hgt. apply Z.ltb_ge in Hgt. by apply Z.leb_le. }
  split; [done|]. rewrite probe_passes_spec in Hp by done. congruence.
Qed.

Lemma stream_chunks_normal_inv (url out_path : string) (chunks : list string)
    (e : stream_end) (h : string) (total : Z) (s s' : state) (x : string * Z) :
  total <= MAX_BYTES ->
  stream_chunks url out_path chunks e h total s = (s', Normal x) ->
  e = StreamEnds /\ total + PyStr.len (body chunks) <= MAX_BYTES.
Proof.
  revert h total s. induction chunks as [|c chunks IH]; intros h total s Htotal.
  - cbn [stream_chunks]. destruct e; [|done]. intros _. split; [done|].
    unfold PyStr.len. simpl. lia.
  - rewrite body_cons, len_app. cbn [stream_chunks].
    destruct (PyStr.is_empty c) eqn:Hempty.
    + apply is_empty_true in Hempty as ->. intros Hs.
      apply IH in Hs as [-> Hs]; [|done]. split; [done|].
      change (PyStr.len EmptyString) with 0. lia.
    + destruct (total + PyStr.len c >? MAX_BYTES) eqn:Hgt.
      * intros Hs. apply bind_normal_inv in Hs as (s1 & [] & _ & Hs).
        apply bind_normal_inv in Hs as (s2 & [] & _ & Hs). done.
      * intros Hs. apply bind_normal_inv in Hs as (s1 & [] & _ & Hs).
        rewrite Z.gtb_ltb in Hgt. apply Z.ltb_ge in Hgt.
        apply IH in Hs as [-> Hs]; [|done]. split; [done|]. lia.
Qed.

Lemma record_or_skip_normal_inv (url out_path file_hash : string)
    (disk : gmap string node) (m : json) (out : list message) (s' : state) :
  record_or_skip url out_path file_hash (Build_state disk m out) = (s', Normal tt) ->
  well_shaped m = true
  /\ PyObj.dict_get file_hash (hashes_of m) = None
  /\ manifest_writable disk = true.
Proof.
  unfold record_or_skip. mstep.
  unfold well_shaped, hashes_of.
  destruct (PyObj.getitem m "hashes") as [hashes|e] eqn:Hh; [|done].
  mstep. destruct (PyObj.contains file_hash hashes) as [dup|e] eqn:Hc; [|done].
  mstep. destruct dup.
  { intros Hs. apply bind_normal_inv in Hs as (s1 & [] & _ & Hs).
    apply bind_normal_inv in Hs as (s2 & m2 & _ & Hs).
    apply bind_normal_inv in Hs as (s3 & h3 & _ & Hs).
    apply bind_normal_inv in Hs as (s4 & x4 & _ & Hs).
    apply bind_normal_inv in Hs as (s5 & [] & _ & Hs). done. }
  mstep. rewrite Hh. mstep.
  destruct hashes as [| | | | | |hs]; try done.
  cbn [PyObj.setitem]. mstep. mstep. mstep.
  cbn [PyObj.contains] in Hc.
  destruct m as [| | | | | |d]; try done.
  cbn [update_member PyObj.getitem]. cbn [PyObj.getitem] in Hh.
  rewrite dict_get_set_ne by done.
  destruct (PyObj.dict_get "files" d) as [files|] eqn:Hf; [|done].
  mstep. destruct files as [| | | | |fl|]; try done.
  cbn [PyObj.append]. mstep. mstep. mstep.
  intros Hs. apply bind_normal_inv in Hs as (s1 & [] & Hsave & _).
  rewrite save_manifest_eq in Hsave. cbn [fs set_manifest set_fs] in Hsave.
  destruct (manifest_writable disk); [|done].
  split; [done|]. split; [|done].
  injection Hc as Hc. apply bool_decide_eq_false in Hc.
  by apply eq_None_not_Some.
Qed.

(** Nothing but what [stores] says makes an attempt store: an attempt that
    prints the two lines of a store had replies, and started in a state, of
    which [stores] holds. *)
Lemma store_reported_only_when_stores (url : string) (env : attempt_env) (s : state) :
  (exists a b, console (fst (respectful_fetch url env s)) = console s ++ [a; b]) ->
  exists r chunks, stores url env s r chunks.
Proof.
  intros (a & b & Hab).
  pose proof (reports_respectful_fetch_body url env s) as Hrep.
  assert (exists s', respectful_fetch_body url env s = (s', Normal tt)) as [s' Hbody].
  { revert Hab. unfold respectful_fetch, call, try_except.
    destruct (respectful_fetch_body url env s) as [s' [[]| |e]]; [by eauto|..].
    - destruct Hrep as (msg & Hc). simpl. rewrite Hc.
      intros Heq. by apply app_inv_head in Heq.
    - destruct Hrep as (Hc & He). rewrite He.
      destruct (is_RequestException e); simpl; rewrite Hc;
        intros Heq; by apply app_inv_head in Heq. }
  destruct s as [disk m out]. unfold respectful_fetch_body in Hbody.
  apply bind_normal_inv in Hbody as (s1 & [] & Hmk & Hbody).
  apply makedirs_normal_inv in Hmk as [Hdir ->].
  apply bind_normal_inv in Hbody as (s2 & [] & Hprobe & Hbody).
  apply probe_normal_inv in Hprobe as [Hpass ->].
  unfold fetch_and_store, requests_get in Hbody.
  destruct (get_of env) as [|r chunks e] eqn:Hget; [done|].
  revert Hbody. mstep. unfold raise_for_status.
  destruct (ok r) eqn:Hok; [|done]. mstep.
  destruct (is_image_response r) eqn:Himg; [|done]. cbn [negb]. mstep.
  set (p := ensure_unique_path _ _). intros Hbody.
  apply bind_normal_inv in Hbody as (s2 & [] & Hopen & Hbody).
  rewrite open_write_fresh in Hopen
    by (unfold p; by rewrite ensure_unique_path_fresh).
  injection Hopen as <-.
  apply bind_normal_inv in Hbody as (s3 & x & Hstream & Hrec).
  pose proof Hstream as Hs3.
  apply stream_chunks_normal_inv in Hstream as [-> Hcap]; [|done].
  rewrite (stream_chunks_accepts _ _ _ _ EmptyString) in Hs3;
    [|by rewrite lookup_insert_eq|done].
  injection Hs3 as <- <-. cbn [fst] in Hrec.
  change (EmptyString +:+ body chunks) with (body chunks) in Hrec.
  apply record_or_skip_normal_inv in Hrec as (Hshape & Hnew & Hw).
  exists r, chunks. unfold stores, serves_image. cbn [fs manifest].
  split; [done|]. split; [done|]. split; [done|]. split; [lia|].
  split; [done|]. split; [done|].
  revert Hw. unfold manifest_writable.
  rewrite insert_insert_eq.
  destruct (decide (p = MANIFEST)) as [Heq|Hne].
  + intros _. assert (<[FETCH_DIR := Dir]> disk !! MANIFEST = None) as Hfree.
    { rewrite <- Heq. unfold p. apply ensure_unique_path_fresh. }
    rewrite lookup_insert_ne in Hfree by (intros Hx; by apply manifest_ne_fetch_dir).
    by rewrite Hfree.
  + rewrite lookup_insert_ne by done.
    rewrite lookup_insert_ne by (intros Hx; by apply manifest_ne_fetch_dir).
    done.
Qed.

End Inversion.

(** ** The manifest invariant *)

Section KeepsManifest.
Context {lib : PyLib}.

Lemma keeps_ret {A} (a : A) : keeps_manifest (ret a).
Proof. by intros s. Qed.

Lemma keeps_raise {A} (e : exn) : keeps_manifest (raise (A := A) e).
Proof. by intros s. Qed.

Lemma keeps_return {A} : keeps_manifest (return_ (A := A)).
Proof. by intros s. Qed.

Lemma keeps_bind {A B} (m : M A) (f : A -> M B) :
  keeps_manifest m -> (forall a, keeps_manifest (f a)) -> keeps_manifest (bind m f).
Proof.
  intros Hm Hf s. unfold bind. specialize (Hm s).
  destruct (m s) as [s' [a| |e]]; simpl in *; [|done..].
  by rewrite Hf.
Qed.

Lemma keeps_get_state : keeps_manifest get_state.
Proof. by intros s. Qed.

Lemma keeps_modify (f : state -> state) :
  (forall s, manifest (f s) = manifest s) -> keeps_manifest (modify f).
Proof. intros Hf s. apply Hf. Qed.

Lemma keeps_lift {A} (r : res A) : keeps_manifest (lift r).
Proof. destruct r; [apply keeps_ret|apply keeps_raise]. Qed.

Lemma keeps_try_except {A} (m : M A) (h : exn -> M A) :
  keeps_manifest m -> (forall e, keeps_manifest (h e)) ->
  keeps_manifest (try_except m h).
Proof.
  intros Hm Hh s. unfold try_except. specialize (Hm s).
  destruct (m s) as [s' [a| |e]]; simpl in *; [done..|].
  by rewrite Hh.
Qed.

Lemma keeps_for_each {A} (l : list A) (f : A -> M unit) :
  (forall a, keeps_manifest (f a)) -> keeps_manifest (for_each l f).
Proof.
  intros Hf. induction l as [|a l IH]; simpl.
  - apply keeps_ret.
  - apply keeps_bind; [apply Hf|]. by intros _.
Qed.

End KeepsManifest.

Ltac keeps_step :=
  first
    [ apply keeps_ret
    | apply keeps_raise
    | apply keeps_return
    | apply keeps_get_state
    | apply keeps_lift
    | apply keeps_modify; reflexivity
    | apply keeps_bind; [|intros ?]
    | match goal with
      | |- keeps_manifest (match ?x with _ => _ end) => destruct x
      end ].

Section Invariant.
Context {lib : PyLib}.

Lemma keeps_print (msg : message) : keeps_manifest (print msg).
Proof. unfold print. repeat keeps_step. Qed.

Lemma keeps_makedirs (p : string) : keeps_manifest (Os.makedirs p).
Proof. unfold Os.makedirs. repeat keeps_step. Qed.

Lemma keeps_open_write (p : string) : keeps_manifest (Os.open_write p).
Proof. unfold Os.open_write. repeat keeps_step. Qed.

Lemma keeps_write (p data : string) : keeps_manifest (Os.write p data).
Proof. unfold Os.write. repeat keeps_step. Qed.

Lemma keeps_remove (p : string) : keeps_manifest (Os.remove p).
Proof. unfold Os.remove. repeat keeps_step. Qed.

Lemma keeps_save_manifest (j : json) : keeps_manifest (save_manifest j).
Proof.
  unfold save_manifest. apply keeps_bind; [apply keeps_open_write|].
  intros _. apply keeps_for_each. intros c. apply keeps_write.
Qed.

Lemma keeps_probe (url : string) (env : attempt_env) : keeps_manifest (probe url env).
Proof.
  unfold probe. apply keeps_try_except.
  - unfold requests_head, py_int, py_megabytes, print. repeat keeps_step.
  - intros e. destruct (is_RequestException e); [apply keeps_ret|apply keeps_raise].
Qed.

Lemma keeps_stream_chunks (url out_path : string) (chunks : list string)
    (e : stream_end) (h : string) (total : Z) :
  keeps_manifest (stream_chunks url out_path chunks e h total).
Proof.
  revert h total. induction chunks as [|c chunks IH]; intros h total; simpl.
  - repeat keeps_step.
  - destruct (PyStr.is_empty c); [apply IH|].
    destruct (total + PyStr.len c >? MAX_BYTES).
    + apply keeps_bind; [apply keeps_remove|]. intros _.
      apply keeps_bind; [apply keeps_print|]. intros _. apply keeps_return.
    + apply keeps_bind; [apply keeps_write|]. intros _. apply IH.
Qed.

Lemma dict_set_values (k : string) (x v : json) (d : list (string * json)) :
  v ∈ (snd <$> PyObj.dict_set k x d) -> v = x \/ v ∈ (snd <$> d).
Proof.
  induction d as [|[k' v'] d IH]; simpl.
  - intros Hin. apply list_elem_of_singleton in Hin. by left.
  - destruct (String.eqb k k'); simpl.
    + intros [->|Hin]%elem_of_cons; [by left|]. right. by apply elem_of_cons; right.
    + intros [->|Hin]%elem_of_cons.
      * right. by apply elem_of_cons; left.
      * destruct (IH Hin) as [->|Hd]; [by left|]. right. by apply elem_of_cons; right.
Qed.

Lemma sound_recorded (m : json) (file_hash name : string) :
  sound_manifest m -> sound_manifest (recorded m file_hash name).
Proof.
  intros [Hshape Hinv]. split; [by apply recorded_well_shaped|].
  unfold hashes_in_files. rewrite recorded_hashes, recorded_files by done.
  intros v [->|Hv]%dict_set_values.
  - apply elem_of_app. right. by apply list_elem_of_singleton.
  - apply elem_of_app. left. by apply Hinv.
Qed.

Lemma sound_default : sound_manifest default_manifest.
Proof. split; [done|]. intros v Hv. by apply elem_of_nil in Hv. Qed.

Lemma keeps_sound_of_keeps {A} (m : M A) : keeps_manifest m -> keeps_sound m.
Proof. intros Hm s Hs. by rewrite Hm. Qed.

Lemma keeps_sound_bind {A B} (m : M A) (f : A -> M B) :
  keeps_sound m -> (forall a, keeps_sound (f a)) -> keeps_sound (bind m f).
Proof.
  intros Hm Hf s Hs. unfold bind. specialize (Hm s Hs).
  destruct (m s) as [s' [a| |e]]; simpl in *; [|done..].
  by apply Hf.
Qed.

Lemma keeps_sound_record_or_skip (url out_path file_hash : string) :
  keeps_sound (record_or_skip url out_path file_hash).
Proof.
  intros [disk m out] Hsound. cbn [manifest] in Hsound.
  pose proof Hsound as [Hshape _].
  destruct (well_shaped_inv _ Hshape) as (d & hs & fl & -> & Hh & Hf).
  unfold record_or_skip.
  mstep. rewrite Hh. mstep. mstep.
  destruct (bool_decide (is_Some (PyObj.dict_get file_hash hs))).
  - match goal with
    | |- sound_manifest (manifest (fst (?tail ?s))) =>
        assert (keeps_manifest tail) as Hk
    end.
    { unfold get_manifest.
      repeat first [ apply keeps_bind; [apply keeps_remove|intros ?]
                   | apply keeps_bind; [apply keeps_print|intros ?]
                   | keeps_step ]. }
    by rewrite Hk.
  - mstep. rewrite Hh. mstep. mstep. mstep. mstep.
    rewrite dict_get_set_ne by done. rewrite Hf. mstep. mstep. mstep.
    match goal with
    | |- sound_manifest (manifest (fst (?tail ?s))) =>
        assert (keeps_manifest tail) as Hk
    end.
    { unfold get_manifest.
      repeat first [ apply keeps_bind; [apply keeps_save_manifest|intros ?]
                   | apply keeps_bind; [apply keeps_print|intros ?]
                   | apply keeps_print
                   | keeps_step ]. }
    rewrite Hk. cbn [manifest].
    rewrite <- (recorded_shape _ _ _ file_hash (PosixPath.basename out_path) Hh Hf).
    by apply sound_recorded.
Qed.

Lemma keeps_sound_respectful_fetch (url : string) (env : attempt_env) :
  keeps_sound (respectful_fetch url env).
Proof.
  assert (keeps_sound (respectful_fetch_body url env)) as Hbody.
  { unfold respectful_fetch_body.
    apply keeps_sound_bind; [apply keeps_sound_of_keeps, keeps_makedirs|]. intros _.
    apply keeps_sound_bind; [apply keeps_sound_of_keeps, keeps_probe|]. intros _.
    unfold fetch_and_store, requests_get, raise_for_status.
    apply keeps_sound_bind; [apply keeps_sound_of_keeps; repeat keeps_step|].
    intros [[r chunks] e].
    apply keeps_sound_bind; [apply keeps_sound_of_keeps; repeat keeps_step|].
    intros _. destruct (negb (is_image_response r)).
    { apply keeps_sound_of_keeps.
      apply keeps_bind; [apply keeps_print|]. intros _. apply keeps_return. }
    apply keeps_sound_bind; [apply keeps_sound_of_keeps, keeps_get_state|]. intros s.
    apply keeps_sound_bind; [apply keeps_sound_of_keeps, keeps_open_write|]. intros _.
    apply keeps_sound_bind; [apply keeps_sound_of_keeps, keeps_stream_chunks|].
    intros streamed. apply keeps_sound_record_or_skip. }
  intros s Hs. specialize (Hbody s Hs).
  unfold respectful_fetch, call, try_except.
  destruct (respectful_fetch_body url env s) as [s' [[]| |e]]; simpl in *; try done.
  destruct (is_RequestException e); [done|]. by destruct (is_Exception e).
Qed.

(** C7, as amended.  The default manifest is an object with a hashes map and
    a files list and has every hashes value in the files list; and from any
    manifest with these two properties, whatever the attempts of a run do
    (record steps and saves included, failed ones too), the manifest keeps
    them: every name that is a value of the hashes map is in the files
    list.  [load_manifest] takes no part in this: it returns what it parsed. *)
Theorem hashes_stay_in_files_from_a_sound_manifest (s0 s : state) :
  well_shaped (manifest s0) = true ->
  hashes_in_files (manifest s0) ->
  fetched_from s0 s ->
  well_shaped (manifest s) = true /\ hashes_in_files (manifest s).
Proof.
  intros Hshape Hinv Hreach.
  induction Hreach as [|s url env _ IH]; [done|].
  by apply keeps_sound_respectful_fetch.
Qed.

End Invariant.

Section StaleManifest.
Existing Instance RefLib.lib.

(** C7, as stated, fails.  On a disk whose manifest file maps a hash to
    [ghost.jpg] and lists no file, the state right after the load is a
    reachable state, and its hashes map has a value that its files list
    lacks. *)
Lemma loaded_manifest_breaks_invariant :
  let s := set_manifest
             (JObj [("hashes", JObj [("0a1b", JStr "ghost.jpg")]); ("files", JArr [])])
             (initial_state Sample.stale_disk) in
  reachable s /\ ~ hashes_in_files (manifest s).
Proof.
  split.
  - apply (reachable_loaded Sample.stale_disk). by vm_compute.
  - intros Hinv. specialize (Hinv (JStr "ghost.jpg")).
    assert (JStr "ghost.jpg" ∈ @nil json) as Hin.
    { apply Hinv. simpl. by apply list_elem_of_singleton. }
    by apply elem_of_nil in Hin.
Qed.

End StaleManifest.

(** ** The input line of [main]: how it is cut into URLs *)

Lemma rev_app_spec (a t : string) : String.rev_app a t = String.rev a +:+ t.
Proof.
  unfold String.rev. revert t.
  induction a as [|c a IH]; intros t; simpl; [done|].
  rewrite (IH (String c EmptyString)), IH, app_assoc_str. done.
Qed.

Lemma rev_cons (c : ascii) (a : string) :
  String.rev (String c a) = String.rev a +:+ String c EmptyString.
Proof. unfold String.rev at 1. simpl. by rewrite rev_app_spec. Qed.

Lemma app_cons_str (c : ascii) (a b : string) :
  String c a +:+ b = String c (a +:+ b).
Proof. done. Qed.

Lemma app_nil_l_str (b : string) : EmptyString +:+ b = b.
Proof. done. Qed.

Lemma rev_app_str (a b : string) :
  String.rev (a +:+ b) = String.rev b +:+ String.rev a.
Proof.
  induction a as [|c a IH].
  - change (String.rev EmptyString) with EmptyString. by rewrite app_nil_r_str.
  - by rewrite app_cons_str, !rev_cons, IH, app_assoc_str.
Qed.

Lemma all_chars_rev (p : ascii -> bool) (a : string) :
  all_chars p (String.rev a) = all_chars p a.
Proof.
  induction a as [|c a IH]; [done|].
  rewrite rev_cons, all_chars_app, IH. simpl.
  destruct (p c), (all_chars p a); done.
Qed.

Lemma rev_empty (a : string) : String.rev a = EmptyString -> a = EmptyString.
Proof.
  destruct a as [|c a]; [done|]. rewrite rev_cons.
  destruct (String.rev a); discriminate.
Qed.

Lemma split_char_go_app (sep : ascii) (a b cur : string) :
  PyStr.split_char_go sep cur (a +:+ String sep b)
  = PyStr.split_char_go sep cur a ++ PyStr.split_char_go sep EmptyString b.
Proof.
  revert cur. induction a as [|c a IH]; intros cur;
    rewrite ?app_cons_str, ?app_nil_l_str; simpl.
  - by rewrite Ascii.eqb_refl.
  - destruct (Ascii.eqb c sep); [by rewrite IH|apply IH].
Qed.

Lemma split_char_go_whole (sep : ascii) (u cur : string) :
  all_chars (fun c => negb (Ascii.eqb c sep)) u = true ->
  PyStr.split_char_go sep cur u = [String.rev cur +:+ u].
Proof.
  revert cur. induction u as [|c u IH]; intros cur Hu; simpl in *.
  - by rewrite app_nil_r_str.
  - apply andb_prop in Hu as [Hc Hu]. apply negb_true_iff in Hc. rewrite Hc.
    rewrite IH by done. by rewrite rev_cons, app_assoc_str.
Qed.

Lemma split_char_go_fields (s cur : string) :
  all_chars (fun c => negb (is_separator c)) cur = true ->
  all_chars (fun c => negb (PyStr.isspace c)) s = true ->
  Forall (fun u => all_chars (fun c => negb (is_separator c)) u = true)
         (PyStr.split_char_go "," cur s).
Proof.
  revert cur. induction s as [|c s IH]; intros cur Hcur Hs; simpl in *.
  - constructor; [|constructor]. by rewrite all_chars_rev.
  - apply andb_prop in Hs as [Hc Hs].
    destruct (Ascii.eqb c ",") eqn:Hsep.
    + constructor; [by rewrite all_chars_rev|]. by apply IH.
    + apply IH; [|done]. simpl. unfold is_separator at 1.
      rewrite Hsep, orb_false_r, Hc. done.
Qed.

Lemma split_ws_go_fields (s : string) (cur : option string) :
  (forall q, cur = Some q ->
     all_chars (fun c => negb (PyStr.isspace c)) q = true /\ q <> EmptyString) ->
  Forall (fun u => all_chars (fun c => negb (PyStr.isspace c)) u = true
                   /\ u <> EmptyString)
         (PyStr.split_ws_go cur s).
Proof.
  assert (forall cur : option string,
    (forall q, cur = Some q ->
       all_chars (fun c => negb (PyStr.isspace c)) q = true /\ q <> EmptyString) ->
    Forall (fun u => all_chars (fun c => negb (PyStr.isspace c)) u = true
                     /\ u <> EmptyString)
           (option_list (String.rev <$> cur))) as Hend.
  { intros [q|] Hq; simpl; [|constructor].
    destruct (Hq q eq_refl) as [Hws Hne].
    constructor; [|constructor]. split; [by rewrite all_chars_rev|].
    intros Hrev. by apply rev_empty in Hrev. }
  revert cur. induction s as [|c s IH]; intros cur Hcur; simpl.
  - by apply Hend.
  - destruct (PyStr.isspace c) eqn:Hc.
    + apply Forall_app. split; [by apply Hend|]. by apply IH.
    + apply IH. intros q [= <-]. split; [|done]. simpl. rewrite Hc. simpl.
      destruct cur as [q|]; [|done]. by destruct (Hcur q eq_refl).
Qed.

Lemma lstrip_id (p : ascii -> bool) (u : string) :
  all_chars (fun c => negb (p c)) u = true -> PyStr.lstrip p u = u.
Proof.
  destruct u as [|c u]; [done|]. simpl. intros [Hc _]%andb_prop.
  apply negb_true_iff in Hc. by rewrite Hc.
Qed.

Lemma rstrip_id (p : ascii -> bool) (u : string) :
  all_chars (fun c => negb (p c)) u = true -> PyStr.rstrip p u = u.
Proof.
  induction u as [|c u IH]; [done|]. simpl. intros [Hc Hu]%andb_prop.
  apply negb_true_iff in Hc. rewrite IH by done. rewrite Hc. by destruct u.
Qed.

Lemma strip_id (u : string) :
  all_chars (fun c => negb (PyStr.isspace c)) u = true -> PyStr.strip u = u.
Proof.
  intros Hu. unfold PyStr.strip, PyStr.strip_by.
  by rewrite lstrip_id, rstrip_id.
Qed.

Lemma all_chars_weaken (p q : ascii -> bool) (u : string) :
  (forall c, p c = true -> q c = true) ->
  all_chars p u = true -> all_chars q u = true.
Proof.
  intros Hpq. induction u as [|c u IH]; [done|]. simpl.
  intros [Hc Hu]%andb_prop. by rewrite (Hpq c Hc), IH.
Qed.

Lemma separator_free_no_space (u : string) :
  all_chars (fun c => negb (is_separator c)) u = true ->
  all_chars (fun c => negb (PyStr.isspace c)) u = true.
Proof.
  apply all_chars_weaken. intros c. unfold is_separator.
  by destruct (PyStr.isspace c).
Qed.

Lemma separator_free_no_comma (u : string) :
  all_chars (fun c => negb (is_separator c)) u = true ->
  all_chars (fun c => negb (Ascii.eqb c ",")) u = true.
Proof.
  apply all_chars_weaken. intros c. unfold is_separator.
  destruct (PyStr.isspace c), (Ascii.eqb c ","); done.
Qed.

Lemma url_tokens_unfold (raw : string) :
  url_tokens raw = PyStr.split_ws raw ≫= part_tokens.
Proof. done. Qed.

Lemma split_ws_go_app (w : ascii) (a b : string) (cur : option string) :
  PyStr.isspace w = true ->
  PyStr.split_ws_go cur (a +:+ String w b)
  = PyStr.split_ws_go cur a ++ PyStr.split_ws_go None b.
Proof.
  intros Hw. revert cur. induction a as [|c a IH]; intros cur;
    rewrite ?app_cons_str, ?app_nil_l_str; simpl.
  - by rewrite Hw.
  - destruct (PyStr.isspace c); [|apply IH]. by rewrite IH, (assoc_L (++)).
Qed.

Lemma split_ws_go_whole (u : string) (cur : string) :
  all_chars (fun c => negb (PyStr.isspace c)) u = true ->
  PyStr.split_ws_go (Some cur) u = [String.rev cur +:+ u].
Proof.
  revert cur. induction u as [|c u IH]; intros cur Hu; simpl in *.
  - by rewrite app_nil_r_str.
  - apply andb_prop in Hu as [Hc Hu]. apply negb_true_iff in Hc. rewrite Hc.
    rewrite IH by done. by rewrite rev_cons, app_assoc_str.
Qed.

Lemma part_tokens_app (x y : string) :
  part_tokens (x +:+ String "," y) = part_tokens x ++ part_tokens y.
Proof.
  unfold part_tokens, PyStr.split_char.
  by rewrite split_char_go_app, bind_app.
Qed.

Lemma part_tokens_after_none (s : string) :
  PyStr.split_ws_go (Some EmptyString) s ≫= part_tokens
  = PyStr.split_ws_go None s ≫= part_tokens.
Proof. destruct s as [|c s]; [done|]. simpl. by destruct (PyStr.isspace c). Qed.

Lemma part_tokens_comma_inside (b y q : string) :
  PyStr.split_ws_go (Some (y +:+ String "," q)) b ≫= part_tokens
  = part_tokens (String.rev q)
    ++ (PyStr.split_ws_go (Some y) b ≫= part_tokens).
Proof.
  revert y. induction b as [|c b IH]; intros y; simpl.
  - rewrite !app_nil_r, rev_app_str, rev_cons, app_assoc_str. simpl.
    apply part_tokens_app.
  - destruct (PyStr.isspace c).
    + simpl. rewrite rev_app_str, rev_cons, app_assoc_str.
      rewrite app_cons_str, app_nil_l_str.
      by rewrite part_tokens_app, (assoc_L (++)).
    + apply (IH (String c y)).
Qed.

Lemma url_tokens_go_comma (a b : string) (cur : option string) :
  PyStr.split_ws_go cur (a +:+ String "," b) ≫= part_tokens
  = (PyStr.split_ws_go cur a ≫= part_tokens)
    ++ (PyStr.split_ws_go None b ≫= part_tokens).
Proof.
  revert cur. induction a as [|c a IH]; intros cur.
  - rewrite app_nil_l_str. cbn [PyStr.split_ws_go].
    replace (PyStr.isspace ",") with false by done.
    change (String "," (default EmptyString cur))
      with (EmptyString +:+ String "," (default EmptyString cur)).
    rewrite (part_tokens_comma_inside b EmptyString (default EmptyString cur)).
    rewrite part_tokens_after_none. f_equal.
    destruct cur as [q|]; simpl; [by rewrite app_nil_r|done].
  - rewrite app_cons_str. cbn [PyStr.split_ws_go].
    destruct (PyStr.isspace c); [|apply IH].
    by rewrite !bind_app, IH, (assoc_L (++)).
Qed.

(** X1. The URLs [main] takes from the line are never empty and hold no
    whitespace and no comma: an address with a comma in it is cut in two. *)
Theorem url_tokens_are_clean (raw : string) :
  Forall (fun u => clean_token u = true) (url_tokens raw).
Proof.
  apply Forall_forall. intros u Hu. rewrite url_tokens_unfold in Hu.
  apply list_elem_of_bind in Hu as (part & Hu & Hpart).
  apply list_elem_of_bind in Hu as (f & Hu & Hf).
  pose proof (split_ws_go_fields raw None) as Hparts.
  rewrite Forall_forall in Hparts.
  destruct (Hparts ltac:(done) part Hpart) as [Hws _].
  pose proof (split_char_go_fields part EmptyString eq_refl Hws) as Hfields.
  rewrite Forall_forall in Hfields. specialize (Hfields f Hf).
  rewrite (strip_id f) in Hu by by apply separator_free_no_space.
  unfold clean_token. destruct (PyStr.is_empty f) eqn:Hempty.
  - by apply elem_of_nil in Hu.
  - apply list_elem_of_singleton in Hu as ->. by rewrite Hempty, Hfields.
Qed.

(** X2. The line is cut at every whitespace character and at every comma:
    the URLs of a line are those of what stands before such a character,
    followed by those of what stands after it.  And a string without
    whitespace and commas that is not empty is one URL, itself. *)
Theorem url_tokens_cut_at_separators :
  (forall (a b : string) (w : ascii),
     is_separator w = true ->
     url_tokens (a +:+ String w b) = url_tokens a ++ url_tokens b)
  /\ (forall u : string, clean_token u = true -> url_tokens u = [u])
  /\ url_tokens EmptyString = [].
Proof.
  split; [|split; [|done]].
  - intros a b w Hw. rewrite !url_tokens_unfold. unfold PyStr.split_ws.
    destruct (PyStr.isspace w) eqn:Hspace.
    + by rewrite (split_ws_go_app w) by done; rewrite bind_app.
    + unfold is_separator in Hw. rewrite Hspace in Hw.
      apply Ascii.eqb_eq in Hw as ->. apply url_tokens_go_comma.
  - intros u [Hne Hu]%andb_prop. rewrite url_tokens_unfold.
    destruct u as [|c u]; [done|].
    pose proof (separator_free_no_space _ Hu) as Hws.
    pose proof (separator_free_no_comma _ Hu) as Hcomma.
    unfold PyStr.split_ws. cbn [PyStr.split_ws_go].
    simpl in Hws. apply andb_prop in Hws as [Hc Hws'].
    apply negb_true_iff in Hc. rewrite Hc. cbn [default].
    rewrite split_ws_go_whole by done.
    change (String.rev (String c EmptyString) +:+ u) with (String c u).
    cbn [mbind list_bind]. unfold part_tokens, PyStr.split_char.
    rewrite split_char_go_whole by done.
    change (String.rev EmptyString +:+ String c u) with (String c u).
    cbn [mbind list_bind]. rewrite strip_id; [done|].
    simpl. by rewrite Hc.
Qed.

(** ** File names: what the two sources of a name give *)

Lemma filter_id (p : ascii -> bool) (s : string) :
  all_chars p s = true -> PyStr.filter p s = s.
Proof.
  induction s as [|c s IH]; [done|]. simpl. intros [Hc Hs]%andb_prop.
  by rewrite Hc, IH.
Qed.

Lemma prefix_nil (s : string) : String.prefix EmptyString s = true.
Proof. by destruct s. Qed.

Lemma prefix_cons (a b : ascii) (s1 s2 : string) :
  String.prefix (String a s1) (String b s2)
  = if ascii_dec a b then String.prefix s1 s2 else false.
Proof. done. Qed.

Lemma contains_char (c : ascii) (s : string) :
  PyStr.contains (String c EmptyString) s = PyStr.mem c s.
Proof.
  induction s as [|d s IH]; [done|]. simpl.
  destruct (ascii_dec c d) as [->|Hne].
  - by rewrite prefix_nil, Ascii.eqb_refl.
  - rewrite IH. apply Ascii.eqb_neq in Hne. by rewrite Hne.
Qed.

Lemma mem_filter (p : ascii -> bool) (c : ascii) (s : string) :
  p c = true -> PyStr.mem c (PyStr.filter p s) = PyStr.mem c s.
Proof.
  intros Hc. induction s as [|d s IH]; [done|]. simpl.
  destruct (p d) eqn:Hd; simpl; rewrite IH; [done|].
  destruct (Ascii.eqb c d) eqn:Heq; [|done].
  apply Ascii.eqb_eq in Heq as ->. congruence.
Qed.

Lemma mem_app (c : ascii) (a b : string) :
  PyStr.mem c (a +:+ b) = (PyStr.mem c a || PyStr.mem c b)%bool.
Proof.
  induction a as [|d a IH]; [done|].
  rewrite app_cons_str. simpl. rewrite IH. by rewrite orb_assoc.
Qed.

Lemma mem_nonempty (c : ascii) (s : string) :
  PyStr.mem c s = true -> PyStr.is_empty s = false.
Proof. by destruct s. Qed.

Lemma keeps_no_sep (c : ascii) : keeps c = true -> Ascii.eqb c "/" = false.
Proof.
  intros Hc. destruct (Ascii.eqb c "/") eqn:Heq; [|done].
  apply Ascii.eqb_eq in Heq as ->. discriminate.
Qed.

Lemma split_last_sep_name (n : string) :
  all_chars (fun c => negb (Ascii.eqb c "/")) n = true ->
  PosixPath.split_last_sep n = (EmptyString, n).
Proof.
  induction n as [|c n IH]; [done|]. simpl. intros [Hc Hn]%andb_prop.
  rewrite IH by done. simpl. apply negb_true_iff in Hc. by rewrite Hc.
Qed.

Lemma split_last_sep_dir (h n : string) :
  all_chars (fun c => negb (Ascii.eqb c "/")) n = true ->
  PosixPath.split_last_sep (h +:+ String "/" n) = (h +:+ String "/" EmptyString, n).
Proof.
  intros Hn. induction h as [|c h IH].
  - rewrite !app_nil_l_str. simpl. by rewrite split_last_sep_name.
  - rewrite !app_cons_str. simpl. rewrite IH. by destruct h.
Qed.

Section SafeNames.
Context {lib : PyLib}.

(** The name a URL gives is the filtered candidate: the last fallback of
    [safe_filename_from_url] is never needed, since the candidate has a
    period and the filter keeps periods. *)
Lemma safe_filename_from_url_eq (url : string) (env : attempt_env) :
  let name := PyStr.strip (unquote (PosixPath.basename (urlparse_path url))) in
  safe_filename_from_url url env
  = (if (PyStr.is_empty name || negb (PyStr.contains "." name))%bool
     then "downloaded_" +:+ pretty (clock_downloaded env) +:+ ".jpg"
     else PyStr.filter keeps name)
  /\ PyStr.mem "." (safe_filename_from_url url env) = true.
Proof.
  intros name. unfold safe_filename_from_url. fold name.
  destruct (PyStr.is_empty name || negb (PyStr.contains "." name))%bool eqn:Hcase.
  - rewrite filter_id by by rewrite !all_chars_app, all_chars_pretty_Z.
    assert (PyStr.is_empty
              ("downloaded_" +:+ pretty (clock_downloaded env) +:+ ".jpg") = false)
      as -> by done.
    split; [done|]. by rewrite !mem_app, orb_true_r.
  - apply orb_false_iff in Hcase as [_ Hdot]. apply negb_false_iff in Hdot.
    rewrite contains_char in Hdot.
    assert (PyStr.mem "." (PyStr.filter keeps name) = true) as Hmem
      by by rewrite mem_filter.
    by rewrite (mem_nonempty _ _ Hmem).
Qed.

(** X3. A name taken from the URL has only letters, digits, hyphens,
    underscores, periods and spaces, and is not empty; joined to the output
    directory it names an entry of that directory: the path is
    [Fetched_Images/<name>] and its last component is the name. *)
Theorem safe_filename_from_url_stays_in_directory (url : string) (env : attempt_env) :
  let n := safe_filename_from_url url env in
  all_chars keeps n = true
  /\ n <> EmptyString
  /\ PosixPath.join FETCH_DIR n = FETCH_DIR +:+ "/" +:+ n
  /\ PosixPath.basename (PosixPath.join FETCH_DIR n) = n.
Proof.
  intros n.
  assert (all_chars keeps n = true) as Hkeeps
    by apply safe_filename_from_url_sanitized.
  assert (n <> EmptyString) as Hne.
  { destruct (safe_filename_from_url_eq url env) as [_ Hmem].
    fold n in Hmem. intros Hn. by rewrite Hn in Hmem. }
  assert (PosixPath.join FETCH_DIR n = FETCH_DIR +:+ "/" +:+ n) as Hjoin.
  { destruct n as [|c r]; [done|]. simpl in Hkeeps.
    apply andb_prop in Hkeeps as [Hc _]. apply keeps_no_sep in Hc.
    unfold PosixPath.join, PyStr.startswith. rewrite prefix_cons.
    destruct (ascii_dec "/" c) as [<-|_]; [discriminate|done]. }
  split; [done|]. split; [done|]. split; [done|].
  rewrite Hjoin. unfold PosixPath.basename.
  change (FETCH_DIR +:+ "/" +:+ n) with (FETCH_DIR +:+ String "/" n).
  rewrite split_last_sep_dir; [done|].
  apply (all_chars_weaken keeps); [|done].
  intros c Hc. by rewrite keeps_no_sep.
Qed.

(** X4. When the URL path has no last component, or one without a period,
    the name is [downloaded_<milliseconds>.jpg] with the clock reading of
    that moment; otherwise it is the last component, unquoted and stripped,
    without the characters the filter drops.  Either way the name has a
    period, so the second fallback, [image_<milliseconds>.jpg], is never
    used: the name does not depend on the second clock reading. *)
Theorem safe_filename_from_url_fallback :
  (forall (url : string) (env : attempt_env),
     let name := PyStr.strip (unquote (PosixPath.basename (urlparse_path url))) in
     (name = EmptyString \/ PyStr.contains "." name = false ->
      safe_filename_from_url url env
      = "downloaded_" +:+ pretty (clock_downloaded env) +:+ ".jpg")
     /\ (name <> EmptyString -> PyStr.contains "." name = true ->
         safe_filename_from_url url env = PyStr.filter keeps name))
  /\ (forall (url : string) (env : attempt_env),
        PyStr.contains "." (safe_filename_from_url url env) = true)
  /\ (forall (url : string) (env env' : attempt_env),
        clock_downloaded env = clock_downloaded env' ->
        safe_filename_from_url url env = safe_filename_from_url url env').
Proof.
  split; [|split].
  - intros url env name.
    destruct (safe_filename_from_url_eq url env) as [Heq _]. fold name in Heq.
    split.
    + intros [Hname|Hdot]; rewrite Heq.
      * by rewrite Hname.
      * by rewrite Hdot, orb_true_r.
    + intros Hname Hdot. rewrite Heq, Hdot.
      destruct name; [done|done].
  - intros url env. rewrite contains_char.
    by destruct (safe_filename_from_url_eq url env).
  - intros url env env' Hclock.
    destruct (safe_filename_from_url_eq url env) as [-> _].
    destruct (safe_filename_from_url_eq url env') as [-> _].
    by rewrite Hclock.
Qed.

End SafeNames.

(** *** The name in [Content-Disposition] *)

Lemma lstrip_cons (p : ascii -> bool) (c : ascii) (r : string) :
  PyStr.lstrip p (String c r) = if p c then PyStr.lstrip p r else String c r.
Proof. done. Qed.

Lemma rstrip_last (p : ascii -> bool) (c : ascii) (r : string) :
  p (last_char r c) = false -> PyStr.rstrip p (String c r) = String c r.
Proof.
  revert c. induction r as [|d r IH]; intros c Hlast.
  - simpl in *. by rewrite Hlast.
  - change (PyStr.rstrip p (String c (String d r)))
      with (match PyStr.rstrip p (String d r) with
            | EmptyString => if p c then EmptyString else String c EmptyString
            | r' => String c r'
            end).
    by rewrite (IH d Hlast).
Qed.

Lemma strip_by_plain (p : ascii -> bool) (c : ascii) (r : string) :
  p c = false -> p (last_char r c) = false ->
  PyStr.strip_by p (String c r) = String c r.
Proof.
  intros Hc Hlast. unfold PyStr.strip_by. simpl. rewrite Hc.
  by apply rstrip_last.
Qed.

Lemma rstrip_snoc (p : ascii -> bool) (s : string) (d : ascii) :
  p d = true -> PyStr.rstrip p (s +:+ String d EmptyString) = PyStr.rstrip p s.
Proof.
  intros Hd. induction s as [|c s IH].
  - simpl. by rewrite Hd.
  - rewrite app_cons_str. simpl. by rewrite IH.
Qed.

Lemma last_char_snoc (s : string) (d x : ascii) :
  last_char (s +:+ String d EmptyString) x = d.
Proof.
  revert x. induction s as [|c s IH]; intros x; [done|].
  rewrite app_cons_str. simpl. apply IH.
Qed.

Lemma name_end_spec (c : ascii) :
  name_end c = true ->
  PyStr.isspace c = false /\ Ascii.eqb ";" c = false
  /\ Ascii.eqb dquote c = false /\ Ascii.eqb squote c = false.
Proof.
  unfold name_end. rewrite negb_true_iff, !orb_false_iff.
  rewrite !(Ascii.eqb_sym c). tauto.
Qed.

Lemma strips_keep_plain_name (n : string) :
  plain_name n = true ->
  PyStr.strip n = n /\ PyStr.strip_char ";" n = n
  /\ PyStr.strip_char dquote n = n /\ PyStr.strip_char squote n = n.
Proof.
  destruct n as [|c r]; [done|]. simpl. intros [Hc Hlast]%andb_prop.
  apply name_end_spec in Hc as (? & ? & ? & ?).
  apply name_end_spec in Hlast as (? & ? & ? & ?).
  unfold PyStr.strip, PyStr.strip_char. by rewrite !strip_by_plain.
Qed.

Lemma strips_unquote_plain_name (n : string) :
  plain_name n = true ->
  let v := String dquote (n +:+ String dquote EmptyString) in
  PyStr.strip v = v /\ PyStr.strip_char ";" v = v
  /\ PyStr.strip_char dquote v = n.
Proof.
  intros Hn v.
  pose proof (last_char_snoc n dquote dquote) as Hlast.
  destruct n as [|c r]; [done|].
  unfold PyStr.strip, PyStr.strip_char, v.
  rewrite !strip_by_plain by (by rewrite ?Hlast).
  split; [done|]. split; [done|].
  simpl in Hn. apply andb_prop in Hn as [Hc Hend].
  apply name_end_spec in Hc as (_ & _ & Hc & _).
  apply name_end_spec in Hend as (_ & _ & Hend & _).
  unfold PyStr.strip_by.
  rewrite lstrip_cons, Ascii.eqb_refl, app_cons_str, lstrip_cons, Hc.
  rewrite <- app_cons_str, rstrip_snoc by apply Ascii.eqb_refl.
  by apply rstrip_last.
Qed.

Lemma prefix_app_same (sep v : string) : String.prefix sep (sep +:+ v) = true.
Proof.
  induction sep as [|a sep IH]; [apply prefix_nil|].
  rewrite app_cons_str, prefix_cons. by destruct (ascii_dec a a).
Qed.

Lemma drop_app_same (sep v : string) :
  PyStr.drop (String.length sep) (sep +:+ v) = v.
Proof. induction sep as [|a sep IH]; [by destruct v|done]. Qed.

Lemma contains_unfold (sep s : string) :
  PyStr.contains sep s
  = if String.prefix sep s then true
    else match s with
         | EmptyString => false
         | String _ r => PyStr.contains sep r
         end.
Proof. by destruct s. Qed.

Lemma after_first_aux_unfold (sep s whole : string) :
  PyStr.after_first_aux sep s whole
  = if String.prefix sep s then PyStr.drop (String.length sep) s
    else match s with
         | EmptyString => whole
         | String _ r => PyStr.after_first_aux sep r whole
         end.
Proof. by destruct s. Qed.

Lemma contains_after (sep pre v : string) :
  PyStr.contains sep (pre +:+ sep +:+ v) = true.
Proof.
  induction pre as [|c pre IH].
  - by rewrite app_nil_l_str, contains_unfold, prefix_app_same.
  - rewrite app_cons_str, contains_unfold, IH. by case_match.
Qed.

Lemma after_first_aux_filename (pre v whole : string) :
  PyStr.mem "f" pre = false ->
  PyStr.after_first_aux "filename=" (pre +:+ "filename=" +:+ v) whole = v.
Proof.
  induction pre as [|c pre IH]; intros Hmem.
  - by rewrite app_nil_l_str, after_first_aux_unfold, prefix_app_same,
      drop_app_same.
  - simpl in Hmem. apply orb_false_iff in Hmem as [Hc Hmem].
    rewrite app_cons_str, after_first_aux_unfold, prefix_cons.
    destruct (ascii_dec "f" c) as [<-|_]; [done|]. by apply IH.
Qed.

Section HeaderNames.
Context {lib : PyLib}.

(** X5. [filename_from_headers] gives no name when the response has no
    [Content-Disposition] or one without [filename=].  A name that stands
    after the first [filename=], bare or in double quotes, at the end of the
    header, comes back as it is, provided it begins and ends with a
    character that is not whitespace, a semicolon or a quote.  A name that
    is returned is never empty. *)
Theorem filename_from_headers_reads_name (r : response) :
  (headers r !! "Content-Disposition" = None -> filename_from_headers r = None)
  /\ (forall cd,
        headers r !! "Content-Disposition" = Some cd ->
        PyStr.contains "filename=" cd = false ->
        filename_from_headers r = None)
  /\ (forall pre n,
        PyStr.mem "f" pre = false ->
        plain_name n = true ->
        headers r !! "Content-Disposition" = Some (pre +:+ "filename=" +:+ n)
        \/ headers r !! "Content-Disposition"
           = Some (pre +:+ "filename="
                       +:+ String dquote (n +:+ String dquote EmptyString)) ->
        filename_from_headers r = Some n)
  /\ (forall n, filename_from_headers r = Some n -> n <> EmptyString).
Proof.
  unfold filename_from_headers, header. split; [|split; [|split]].
  - by intros ->.
  - intros cd -> Hno. cbn [default from_option id]. by rewrite Hno.
  - intros pre n Hpre Hn Hcd.
    destruct (strips_keep_plain_name n Hn) as (Hs1 & Hs2 & Hs3 & Hs4).
    destruct (strips_unquote_plain_name n Hn) as (Hq1 & Hq2 & Hq3).
    assert (PyStr.is_empty n = false) as Hne by by destruct n.
    destruct Hcd as [-> | ->]; cbn [default from_option id];
      rewrite contains_after; unfold PyStr.after_first;
      rewrite after_first_aux_filename by done.
    + by rewrite Hs1, Hs2, Hs3, Hs4, Hne.
    + by rewrite Hq1, Hq2, Hq3, Hs4, Hne.
  - intros n.
    destruct (PyStr.contains _ _); [|done].
    destruct (PyStr.is_empty _) eqn:Hempty; [done|].
    intros [= <-] Heq. by rewrite Heq in Hempty.
Qed.

End HeaderNames.

(** *** Numbered paths keep their extension *)

Lemma all_chars_pretty_Z_of (p : ascii -> bool) (z : Z) :
  (forall x, p (pretty_N_char x) = true) -> p "-"%char = true ->
  all_chars p (pretty z) = true.
Proof.
  intros Hdigit Hminus.
  assert (forall x s, all_chars p s = true -> all_chars p (pretty_N_go x s) = true)
    as Hgo.
  { intros x. induction (N.lt_wf_0 x) as [x _ IH]; intros s Hs.
    destruct (decide (x = 0)%N) as [->|Hx].
    - by rewrite pretty_N_go_0.
    - rewrite pretty_N_go_step by lia. apply IH.
      + apply N.div_lt; lia.
      + simpl. by rewrite Hdigit. }
  unfold pretty, pretty_Z. destruct z as [|x|x].
  - pose proof (Hdigit 0%N) as H0. change (pretty_N_char 0) with "0"%char in H0.
    change (all_chars p "0" = true). simpl. by rewrite H0.
  - unfold pretty, pretty_positive, pretty, pretty_N. simpl. by apply Hgo.
  - rewrite all_chars_app. simpl. rewrite Hminus.
    unfold pretty, pretty_positive, pretty, pretty_N. simpl. by apply Hgo.
Qed.

(** The text [ensure_unique_path] puts before the extension has neither a
    separator nor a period. *)
Lemma number_tag_plain (i : Z) :
  all_chars (fun c => negb (Ascii.eqb c "/") && negb (Ascii.eqb c "."))
    (" (" +:+ pretty i +:+ ")") = true.
Proof.
  rewrite !all_chars_app, all_chars_pretty_Z_of; [done| |done].
  intros x. unfold pretty_N_char. by repeat case_match.
Qed.

Lemma split_last_sep_tail (p : string) :
  all_chars (fun c => negb (Ascii.eqb c "/")) (snd (PosixPath.split_last_sep p)) = true.
Proof.
  induction p as [|c p IH]; [done|]. simpl.
  pose proof (split_last_sep_app p) as Happ.
  destruct (PosixPath.split_last_sep p) as [h t]. simpl in *.
  destruct (PyStr.is_empty h) eqn:Hh; simpl; [|done].
  apply is_empty_true in Hh as ->. rewrite app_nil_l_str in Happ. subst t.
  destruct (Ascii.eqb c "/") eqn:Hc; simpl; [done|]. by rewrite Hc.
Qed.

Lemma split_last_sep_head (p x : string) :
  all_chars (fun c => negb (Ascii.eqb c "/")) x = true ->
  PosixPath.split_last_sep (fst (PosixPath.split_last_sep p) +:+ x)
  = (fst (PosixPath.split_last_sep p), x).
Proof.
  intros Hx. induction p as [|c p IH].
  - by apply split_last_sep_name.
  - simpl. destruct (PosixPath.split_last_sep p) as [h t]. simpl in *.
    destruct (PyStr.is_empty h) eqn:Hh; simpl.
    + destruct (Ascii.eqb c "/") eqn:Hc; simpl.
      * rewrite !app_nil_l_str, split_last_sep_name by done. simpl.
        by rewrite Hc.
      * by apply split_last_sep_name.
    + rewrite ?app_cons_str. simpl. rewrite IH. simpl. by rewrite Hh.
Qed.

Lemma split_last_sep_snoc (p t : string) :
  all_chars (fun c => negb (Ascii.eqb c "/")) t = true ->
  PosixPath.split_last_sep (p +:+ t)
  = (fst (PosixPath.split_last_sep p), snd (PosixPath.split_last_sep p) +:+ t).
Proof.
  intros Ht. induction p as [|c p IH].
  - by apply split_last_sep_name.
  - rewrite app_cons_str. simpl. rewrite IH.
    pose proof (split_last_sep_app p) as Happ.
    destruct (PosixPath.split_last_sep p) as [h n]. simpl in *.
    destruct (PyStr.is_empty h) eqn:Hh; simpl; [|done].
    destruct (Ascii.eqb c "/"); [|done]. simpl.
    apply is_empty_true in Hh as ->. by rewrite <- Happ.
Qed.

Lemma rsplit_dot_plain (t : string) :
  all_chars (fun c => negb (Ascii.eqb c ".")) t = true ->
  PosixPath.rsplit_dot t = None.
Proof.
  induction t as [|c t IH]; [done|]. simpl. intros [Hc Ht]%andb_prop.
  rewrite IH by done. apply negb_true_iff in Hc. by rewrite Hc.
Qed.

Lemma rsplit_dot_snoc (s t : string) :
  all_chars (fun c => negb (Ascii.eqb c ".")) t = true ->
  PosixPath.rsplit_dot (s +:+ t)
  = match PosixPath.rsplit_dot s with
    | Some (a, b) => Some (a, b +:+ t)
    | None => None
    end.
Proof.
  intros Ht. induction s as [|c s IH].
  - by apply rsplit_dot_plain.
  - rewrite app_cons_str. simpl. rewrite IH.
    destruct (PosixPath.rsplit_dot s) as [[a b]|]; [done|].
    by destruct (Ascii.eqb c ".").
Qed.

Lemma rsplit_dot_ext (s a b x : string) :
  PosixPath.rsplit_dot s = Some (a, b) ->
  PosixPath.rsplit_dot (x +:+ b) = Some (x, b).
Proof.
  intros Hs.
  assert (PosixPath.rsplit_dot b = Some (EmptyString, b)) as Hb.
  { revert a Hs. induction s as [|c s IH]; intros a Hs; [done|].
    simpl in Hs. destruct (PosixPath.rsplit_dot s) as [[a' b']|] eqn:Hs'.
    - injection Hs as <- <-. by eapply IH.
    - destruct (Ascii.eqb c ".") eqn:Hc; [|done]. injection Hs as <- <-.
      simpl. by rewrite Hs', Hc. }
  induction x as [|d x IH]; [done|].
  rewrite app_cons_str. simpl. by rewrite IH.
Qed.

Lemma all_dots_tagged (a r : string) :
  PosixPath.all_dots (a +:+ String " " r) = false.
Proof.
  induction a as [|c a IH]; [done|].
  rewrite app_cons_str. simpl. by rewrite IH, andb_false_r.
Qed.

Lemma splitext_numbered (path base ext : string) (i : Z) :
  PosixPath.splitext path = (base, ext) ->
  PosixPath.splitext (numbered base ext i)
  = (base +:+ " (" +:+ pretty i +:+ ")", ext).
Proof.
  intros Hsplit.
  pose proof (number_tag_plain i) as Htag.
  set (t := " (" +:+ pretty i +:+ ")") in *.
  assert (all_chars (fun c => negb (Ascii.eqb c "/")) t = true) as Hsep.
  { revert Htag. apply all_chars_weaken. by intros c [? _]%andb_prop. }
  assert (all_chars (fun c => negb (Ascii.eqb c ".")) t = true) as Hdot.
  { revert Htag. apply all_chars_weaken. by intros c [_ ?]%andb_prop. }
  assert (numbered base ext i = base +:+ t +:+ ext) as ->.
  { unfold numbered, t. by rewrite !app_assoc_str. }
  unfold PosixPath.splitext in Hsplit |- *.
  pose proof (split_last_sep_tail path) as Hname.
  pose proof (split_last_sep_app path) as Hpath.
  pose proof (split_last_sep_head path) as Hhead.
  pose proof (split_last_sep_snoc path t Hsep) as Hsnoc.
  destruct (PosixPath.split_last_sep path) as [h name]. cbn [fst snd] in *.
  destruct (PosixPath.rsplit_dot name) as [[a b]|] eqn:Hrsplit.
  - destruct (PosixPath.all_dots a) eqn:Hall.
    + injection Hsplit as <- <-. rewrite app_nil_r_str, Hsnoc.
      by rewrite rsplit_dot_snoc, Hrsplit, Hall.
    + injection Hsplit as <- <-.
      pose proof (rsplit_dot_app _ _ _ Hrsplit) as Hab. subst name.
      rewrite all_chars_app in Hname. apply andb_prop in Hname as [Ha Hb].
      rewrite app_assoc_str, Hhead
        by by rewrite !all_chars_app, Ha, Hsep, Hb.
      rewrite <- app_assoc_str, (rsplit_dot_ext _ _ _ _ Hrsplit).
      unfold t at 1. change (" (" +:+ pretty i +:+ ")")
        with (String " " ("(" +:+ pretty i +:+ ")")).
      by rewrite all_dots_tagged, app_assoc_str.
  - injection Hsplit as <- <-. rewrite app_nil_r_str, Hsnoc.
    by rewrite rsplit_dot_snoc, Hrsplit.
Qed.

(** X6. The path [ensure_unique_path] returns has the extension of the path
    it was asked for: the number goes before the extension, so a second
    [photo.png] becomes [photo (1).png]. *)
Theorem ensure_unique_path_keeps_extension (disk : gmap string node)
    (path : string) :
  snd (PosixPath.splitext (ensure_unique_path disk path))
  = snd (PosixPath.splitext path).
Proof.
  destruct (PosixPath.splitext path) as [base ext] eqn:Hsplit.
  destruct (ensure_unique_path_cases disk path base ext Hsplit)
    as [[_ ->] | (_ & k & _ & -> & _)].
  - by rewrite Hsplit.
  - by rewrite (splitext_numbered path).
Qed.

(** ** One attempt, stage by stage: what each way out leaves behind *)

Section AttemptStages.
Context {lib : PyLib}.

(** An exception that leaves the body of [respectful_fetch] is reported on
    one line by one of the two handlers. *)
Lemma respectful_fetch_raised (url : string) (env : attempt_env) (s s' : state)
    (e : exn) :
  respectful_fetch_body url env s = (s', Raised e) ->
  is_Exception e = true ->
  respectful_fetch url env s
  = (add_console (if is_RequestException e then MsgConnectionError e
                  else MsgError e) s', Normal tt).
Proof.
  intros Hb He. unfold respectful_fetch, call, try_except. rewrite Hb.
  by destruct e.
Qed.

(** Two attempts whose probes and whose [GET] stages do the same do the
    same. *)
Lemma respectful_fetch_cong (url : string) (env env' : attempt_env) (s : state) :
  (forall s1, probe url env s1 = probe url env' s1) ->
  (forall s1, fetch_and_store url env s1 = fetch_and_store url env' s1) ->
  respectful_fetch url env s = respectful_fetch url env' s.
Proof.
  intros Hprobe Hget.
  unfold respectful_fetch, respectful_fetch_body, call, try_except, bind.
  destruct (Os.makedirs FETCH_DIR s) as [s1 [[]| |e1]]; [|done|done].
  rewrite Hprobe.
  destruct (probe url env' s1) as [s2 [[]| |e2]]; [|done|done].
  by rewrite Hget.
Qed.

(** The streaming loop on a body within the cap: every chunk is written,
    and the loop ends as the stream does. *)
Lemma stream_chunks_within (url out_path : string) (chunks : list string)
    (e : stream_end) (h old : string) (total : Z) (disk : gmap string node)
    (m : json) (out : list message) :
  disk !! out_path = Some (File old) ->
  total + PyStr.len (body chunks) <= MAX_BYTES ->
  stream_chunks url out_path chunks e h total (Build_state disk m out)
  = (Build_state (<[out_path := File (old +:+ body chunks)]> disk) m out,
     match e with
     | StreamEnds => Normal (h +:+ body chunks, total + PyStr.len (body chunks))
     | StreamFails => Raised RequestException
     end).
Proof.
  revert h old total disk.
  induction chunks as [|c chunks IH]; intros h old total disk Hp Hcap.
  - simpl. rewrite !app_nil_r_str, insert_id by done.
    unfold PyStr.len. simpl. rewrite Z.add_0_r. by destruct e.
  - rewrite body_cons, len_app in *. simpl.
    destruct (PyStr.is_empty c) eqn:Hempty.
    + apply is_empty_true in Hempty as ->.
      rewrite (IH h old total disk Hp); [|unfold PyStr.len in *; simpl in *; lia].
      unfold PyStr.len. simpl. by rewrite Z.add_0_l.
    + pose proof (len_nonneg (body chunks)).
      destruct (total + PyStr.len c >? MAX_BYTES) eqn:Hgt.
      { apply Z.gtb_lt in Hgt. lia. }
      erewrite bind_normal; [|by apply write_file].
      rewrite (IH (h +:+ c) (old +:+ c)); [|by rewrite lookup_insert_eq|lia].
      by rewrite insert_insert_eq, !app_assoc_str, Z.add_assoc.
Qed.

(** The streaming loop, whatever the chunks: its outcome depends on the
    body, not on how the body is cut into chunks. *)
Lemma stream_chunks_eq (url out_path : string) (chunks : list string)
    (e : stream_end) (h old : string) (total : Z) (disk : gmap string node)
    (m : json) (out : list message) :
  disk !! out_path = Some (File old) ->
  total <= MAX_BYTES ->
  stream_chunks url out_path chunks e h total (Build_state disk m out)
  = if total + PyStr.len (body chunks) <=? MAX_BYTES
    then (Build_state (<[out_path := File (old +:+ body chunks)]> disk) m out,
          match e with
          | StreamEnds =>
              Normal (h +:+ body chunks, total + PyStr.len (body chunks))
          | StreamFails => Raised RequestException
          end)
    else (Build_state (delete out_path disk) m (out ++ [MsgAborted url]),
          Returned).
Proof.
  intros Hp Htotal.
  destruct (total + PyStr.len (body chunks) <=? MAX_BYTES) eqn:Hcap.
  - apply Z.leb_le in Hcap. by apply stream_chunks_within.
  - apply Z.leb_gt in Hcap.
    destruct (first_crossing_chunk (MAX_BYTES - total) chunks)
      as (pre & c & post & -> & Hpre & Hover); [lia|lia|].
    eapply stream_chunks_aborts; [done|lia|lia].
Qed.

(** X7. A probe that is answered with an error status is left out of
    account, like one that cannot be made: the attempt does what it does
    when [requests.head] raises, whatever the headers of the answer say. *)
Theorem failed_probe_is_ignored (url : string) (env : attempt_env) (s : state)
    (head : response) :
  head_of env = HeadResponse head ->
  ok head = false ->
  respectful_fetch url env s
  = respectful_fetch url (with_head HeadFails env) s.
Proof.
  intros Hhead Hok. apply respectful_fetch_cong; [|done].
  intros s1. rewrite (probe_error_status url env s1 head) by done.
  by rewrite (probe_head_fails url (with_head HeadFails env) s1).
Qed.

(** The probe raises: the attempt reports the exception, creates the
    output directory and does nothing else. *)
Lemma respectful_fetch_probe_raises (url : string) (env : attempt_env)
    (s : state) (e : exn) :
  dir_ready (fs s) = true ->
  probe url env (set_fs (insert FETCH_DIR Dir) s)
  = (set_fs (insert FETCH_DIR Dir) s, Raised e) ->
  is_Exception e = true ->
  respectful_fetch url env s
  = (add_console (if is_RequestException e then MsgConnectionError e
                  else MsgError e) (set_fs (insert FETCH_DIR Dir) s),
     Normal tt).
Proof.
  intros Hdir Hprobe He. apply respectful_fetch_raised; [|done].
  unfold respectful_fetch_body. destruct s as [disk m out].
  erewrite bind_normal by (by apply makedirs_ready).
  by erewrite bind_raised by exact Hprobe.
Qed.

(** X8. A probe answered with a success status and a content type that
    does not begin with [image/] ends the attempt with one notice.  The
    type is looked at before the length, so this holds whatever
    [Content-Length] says, a value that is no number included; the [GET] is
    never made, and on the disk only the output directory is new. *)
Theorem probe_rejects_other_types (url : string) (env : attempt_env) (s : state)
    (head : response) :
  dir_ready (fs s) = true ->
  head_of env = HeadResponse head ->
  ok head = true ->
  PyStr.startswith "image/" (header head "Content-Type" EmptyString) = false ->
  respectful_fetch url env s
  = (add_console (MsgSkippedNotImage url) (set_fs (insert FETCH_DIR Dir) s),
     Normal tt).
Proof.
  intros Hdir Hhead Hok Htype.
  apply respectful_fetch_probe_rejects; [done|].
  by apply (probe_not_image url env _ head).
Qed.

(** X9. A probe that declares an image and a length [n]: above the cap the
    attempt ends with the notice that gives [n], without a [GET]; at the
    cap or below it the attempt goes on as if there had been no probe.
    When [n] is so large that its size in megabytes is no [float], forming
    the notice raises [OverflowError] and the attempt ends with the error
    line instead. *)
Theorem probe_compares_declared_length (url : string) (env : attempt_env)
    (s : state) (head : response) (clen : string) (n : Z) :
  dir_ready (fs s) = true ->
  head_of env = HeadResponse head ->
  ok head = true ->
  PyStr.startswith "image/" (header head "Content-Type" EmptyString) = true ->
  headers head !! "Content-Length" = Some clen ->
  PyStr.int clen = Some n ->
  (MAX_BYTES < n -> PyStr.true_div_overflows n = false ->
   respectful_fetch url env s
   = (add_console (MsgSkippedTooLarge n url) (set_fs (insert FETCH_DIR Dir) s),
      Normal tt))
  /\ (MAX_BYTES < n -> PyStr.true_div_overflows n = true ->
      respectful_fetch url env s
      = (add_console (MsgError OverflowError) (set_fs (insert FETCH_DIR Dir) s),
         Normal tt))
  /\ (n <= MAX_BYTES ->
      respectful_fetch url env s
      = respectful_fetch url (with_head HeadFails env) s).
Proof.
  intros Hdir Hhead Hok Htype Hlen Hint.
  assert (PyStr.is_empty clen = false) as Hne by (by destruct clen).
  split; [|split].
  - intros Hover Hfloat. apply respectful_fetch_probe_rejects; [done|].
    by apply (probe_too_large url env _ head clen n).
  - intros Hover Hfloat.
    apply (respectful_fetch_probe_raises url env s OverflowError); [done| |done].
    unfold probe, try_except, requests_head. rewrite Hhead.
    mstep. rewrite Hok, Htype. cbn [negb]. mstep. rewrite Hlen, Hne.
    unfold py_int. rewrite Hint. mstep.
    assert ((n >? MAX_BYTES) = true) as -> by (apply Z.gtb_lt; lia).
    unfold py_megabytes. by rewrite Hfloat.
  - intros Hle. apply respectful_fetch_cong; [|done].
    intros s1. rewrite (probe_head_fails url (with_head HeadFails env) s1) by done.
    apply probe_passes_spec. unfold probe_passes.
    rewrite Hhead, Hok, Htype, Hlen, Hne, Hint. cbn [orb andb].
    by apply Z.leb_le.
Qed.

End AttemptStages.

(** ** The [GET] and what follows it *)

Section GetStage.
Context {lib : PyLib}.

Lemma respectful_fetch_body_get (url : string) (env : attempt_env)
    (disk : gmap string node) (m : json) (out : list message) :
  dir_ready disk = true ->
  probe_passes env = true ->
  respectful_fetch_body url env (Build_state disk m out)
  = fetch_and_store url env (Build_state (<[FETCH_DIR := Dir]> disk) m out).
Proof.
  intros Hdir Hprobe. unfold respectful_fetch_body.
  erewrite bind_normal by (by apply makedirs_ready).
  by erewrite bind_normal by (by apply probe_passes_spec).
Qed.

(** The [GET] stage of an attempt whose response is a successful image
    response: the streaming loop on a fresh, empty file, then the record
    step. *)
Lemma fetch_and_store_stream (url : string) (env : attempt_env) (r : response)
    (chunks : list string) (e : stream_end) (disk : gmap string node)
    (m : json) (out : list message) :
  get_of env = GetResponse r chunks e ->
  ok r = true ->
  is_image_response r = true ->
  let p := ensure_unique_path disk
             (PosixPath.join FETCH_DIR (choose_filename r url env)) in
  fetch_and_store url env (Build_state disk m out)
  = (streamed <- stream_chunks url p chunks e EmptyString 0 ;;
     record_or_skip url p (sha256_hexdigest (fst streamed)))
      (Build_state (<[p := File EmptyString]> disk) m out).
Proof.
  intros Hget Hok Himg p.
  unfold fetch_and_store, requests_get. rewrite Hget. mstep.
  unfold raise_for_status. rewrite Hok, Himg. mstep. cbn [negb]. mstep.
  erewrite bind_normal; [reflexivity|].
  apply open_write_fresh. unfold p. by rewrite ensure_unique_path_fresh.
Qed.

(** X10. A [GET] that cannot be made, or that is answered with an error
    status, ends the attempt with the connection-error line: no file is
    opened, and the manifest is as it was. *)
Theorem failed_get_is_reported (url : string) (env : attempt_env) (s : state) :
  dir_ready (fs s) = true ->
  probe_passes env = true ->
  (get_of env = GetFails
   \/ exists r chunks e, get_of env = GetResponse r chunks e /\ ok r = false) ->
  respectful_fetch url env s
  = (add_console (MsgConnectionError RequestException)
       (set_fs (insert FETCH_DIR Dir) s), Normal tt).
Proof.
  intros Hdir Hprobe Hget. destruct s as [disk m out].
  apply (respectful_fetch_raised _ _ _ _ RequestException); [|done].
  rewrite respectful_fetch_body_get by done.
  unfold fetch_and_store, requests_get.
  destruct Hget as [-> | (r & chunks & e & -> & Hok)]; [done|].
  mstep. unfold raise_for_status. by rewrite Hok.
Qed.

(** X11. A [GET] answered with a success status and a content type that
    does not begin with [image/] ends the attempt with a notice that quotes
    the type, or [?] when the response has none; the body is not read and
    no file is opened. *)
Theorem get_of_other_type_is_skipped (url : string) (env : attempt_env)
    (s : state) (r : response) (chunks : list string) (e : stream_end) :
  dir_ready (fs s) = true ->
  probe_passes env = true ->
  get_of env = GetResponse r chunks e ->
  ok r = true ->
  is_image_response r = false ->
  respectful_fetch url env s
  = (add_console (MsgNotImage (default "?" (headers r !! "Content-Type")) url)
       (set_fs (insert FETCH_DIR Dir) s), Normal tt).
Proof.
  intros Hdir Hprobe Hget Hok Himg. destruct s as [disk m out].
  apply respectful_fetch_returned.
  rewrite respectful_fetch_body_get by done.
  unfold fetch_and_store, requests_get. rewrite Hget. mstep.
  unfold raise_for_status. rewrite Hok, Himg. mstep. cbn [negb].
  by mstep.
Qed.

(** X12. How the body is cut into chunks makes no difference: two
    attempts that differ only in the chunks of the [GET] response, with the
    same bytes in all, end in the same state.  Empty chunks count for
    nothing, and so does where the chunk that crosses the cap begins. *)
Theorem chunking_makes_no_difference (url : string) (env : attempt_env)
    (s : state) (r : response) (chunks chunks' : list string) (e : stream_end) :
  get_of env = GetResponse r chunks e ->
  body chunks' = body chunks ->
  respectful_fetch url (with_get (GetResponse r chunks' e) env) s
  = respectful_fetch url env s.
Proof.
  intros Hget Hbody. apply respectful_fetch_cong; [done|].
  intros [disk m out].
  destruct (ok r) eqn:Hok; [destruct (is_image_response r) eqn:Himg|].
  - rewrite (fetch_and_store_stream url env r chunks e) by done.
    rewrite (fetch_and_store_stream url _ r chunks' e) by done.
    change (choose_filename r url (with_get (GetResponse r chunks' e) env))
      with (choose_filename r url env).
    unfold bind.
    rewrite !(stream_chunks_eq _ _ _ _ _ EmptyString)
      by (by rewrite ?lookup_insert_eq).
    by rewrite Hbody.
  - unfold fetch_and_store, requests_get, raise_for_status, bind, ret.
    cbn [get_of with_get]. by rewrite Hget, Hok, Himg.
  - unfold fetch_and_store, requests_get, raise_for_status, bind, ret.
    cbn [get_of with_get]. by rewrite Hget, Hok.
Qed.

(** X13. A download to a plain target that breaks off before the cap is
    reached leaves what had arrived in the file it was being written to:
    the attempt ends with the connection-error line, the partial file
    stays on the disk, and the manifest does not record it.  The name is
    then taken, so a second attempt for the same name is given another
    path. *)
Theorem interrupted_download_leaves_partial_file (url : string)
    (env : attempt_env) (s : state) (r : response) (chunks : list string) :
  dir_ready (fs s) = true ->
  probe_passes env = true ->
  get_of env = GetResponse r chunks StreamFails ->
  ok r = true ->
  is_image_response r = true ->
  PyStr.len (body chunks) <= MAX_BYTES ->
  plain_target (out_path_of (fs s) r url env) = true ->
  let p := out_path_of (fs s) r url env in
  let s' := fst (respectful_fetch url env s) in
  respectful_fetch url env s
  = (Build_state (<[p := File (body chunks)]> (<[FETCH_DIR := Dir]> (fs s)))
       (manifest s) (console s ++ [MsgConnectionError RequestException]),
     Normal tt)
  /\ ensure_unique_path (fs s')
       (PosixPath.join FETCH_DIR (choose_filename r url env)) <> p.
Proof.
  intros Hdir Hprobe Hget Hok Himg Hcap _ p s'.
  assert (respectful_fetch url env s
          = (Build_state (<[p := File (body chunks)]> (<[FETCH_DIR := Dir]> (fs s)))
               (manifest s) (console s ++ [MsgConnectionError RequestException]),
             Normal tt)) as Hrun.
  { destruct s as [disk m out]. cbn [fs manifest console] in *.
    rewrite (respectful_fetch_raised _ _ _
               (Build_state (<[p := File (body chunks)]> (<[FETCH_DIR := Dir]> disk))
                  m out) RequestException); [done| |done].
    rewrite (respectful_fetch_body_transfer _ _ _ _ _ _ _ _ Hdir Hprobe Hget Hok Himg).
    fold p. erewrite bind_raised; [done|].
    rewrite (stream_chunks_within _ _ _ _ _ EmptyString);
      [|by rewrite lookup_insert_eq|lia].
    by rewrite insert_insert_eq. }
  split; [done|].
  intros Hsame.
  pose proof (ensure_unique_path_fresh (fs s')
                (PosixPath.join FETCH_DIR (choose_filename r url env))) as Hfree.
  rewrite Hsame in Hfree. unfold s' in Hfree. rewrite Hrun in Hfree.
  cbn [fst fs] in Hfree. by rewrite lookup_insert_eq in Hfree.
Qed.

(** The record step when the manifest file cannot be opened: the manifest
    object has the new record, the save raises. *)
Lemma record_unsaved (url out_path file_hash : string) (disk : gmap string node)
    (m : json) (out : list message) :
  well_shaped m = true ->
  PyObj.dict_get file_hash (hashes_of m) = None ->
  manifest_writable disk = false ->
  record_or_skip url out_path file_hash (Build_state disk m out)
  = (Build_state disk (recorded m file_hash (PosixPath.basename out_path)) out,
     Raised OSError).
Proof.
  intros Hshape Hnew Hw.
  destruct (well_shaped_inv _ Hshape) as (d & hs & fl & -> & Hh & Hf).
  rewrite (recorded_shape _ _ _ _ _ Hh Hf).
  unfold hashes_of, PyObj.getitem in Hnew. rewrite Hh in Hnew.
  unfold record_or_skip.
  mstep. rewrite Hh. mstep. rewrite Hnew.
  rewrite bool_decide_eq_false_2 by (by intros [? ?]).
  mstep. mstep. rewrite Hh. mstep. mstep. mstep. mstep.
  rewrite dict_get_set_ne by done. rewrite Hf. mstep. mstep. mstep. mstep.
  by erewrite bind_raised by (by apply save_manifest_blocked).
Qed.

(** X14. When the manifest file cannot be written (its path is a
    directory), a download of new content to a plain target still ends
    with the file on the disk and with its record in the manifest object
    of the run; what the attempt prints is the error line, not the two
    lines of a store, and no manifest is saved. *)
Theorem unsaved_record_stays_in_memory (url : string) (env : attempt_env)
    (s : state) (r : response) (chunks : list string) :
  dir_ready (fs s) = true ->
  probe_passes env = true ->
  serves_image env r chunks ->
  PyStr.len (body chunks) <= MAX_BYTES ->
  well_shaped (manifest s) = true ->
  PyObj.dict_get (sha256_hexdigest (body chunks)) (hashes_of (manifest s)) = None ->
  manifest_writable (fs s) = false ->
  plain_target (out_path_of (fs s) r url env) = true ->
  let p := out_path_of (fs s) r url env in
  respectful_fetch url env s
  = (Build_state (<[p := File (body chunks)]> (<[FETCH_DIR := Dir]> (fs s)))
       (recorded (manifest s) (sha256_hexdigest (body chunks))
          (PosixPath.basename p))
       (console s ++ [MsgError OSError]),
     Normal tt).
Proof.
  intros Hdir Hprobe (Hget & Hok & Himg) Hcap Hshape Hnew Hw _ p.
  destruct s as [disk m out]. cbn [fs manifest console] in *.
  rewrite (respectful_fetch_raised _ _ _
             (Build_state (<[p := File (body chunks)]> (<[FETCH_DIR := Dir]> disk))
                (recorded m (sha256_hexdigest (body chunks)) (PosixPath.basename p))
                out) OSError); [done| |done].
  rewrite (respectful_fetch_body_transfer _ _ _ _ _ _ _ _ Hdir Hprobe Hget Hok Himg).
  fold p.
  erewrite bind_normal; cycle 1.
  { apply (stream_chunks_accepts _ _ _ _ EmptyString); [by rewrite lookup_insert_eq|].
    lia. }
  rewrite insert_insert_eq. cbn [fst].
  change (EmptyString +:+ body chunks) with (body chunks).
  apply record_unsaved; [done|done|].
  unfold manifest_writable in *.
  assert (<[FETCH_DIR := Dir]> disk !! MANIFEST = Some Dir) as Hm.
  { rewrite lookup_insert_ne by (intros Heq; by apply manifest_ne_fetch_dir).
    by destruct (disk !! MANIFEST) as [[]|]. }
  rewrite lookup_insert_ne; [by rewrite Hm|].
  intros Heq. unfold p, out_path_of in Heq. rewrite <- Heq in Hm.
  by rewrite ensure_unique_path_fresh in Hm.
Qed.

(** X15. When the manifest of the run is not an object with a [hashes]
    member (the manifest file held a list, say, or an object without that
    key), a download to a plain target runs to its end and then fails at
    the duplicate check: the attempt prints the error line, the file it
    wrote stays on the disk, and the manifest is not touched. *)
Theorem unusable_manifest_strands_download (url : string) (env : attempt_env)
    (s : state) (r : response) (chunks : list string) (e : exn) :
  dir_ready (fs s) = true ->
  probe_passes env = true ->
  serves_image env r chunks ->
  PyStr.len (body chunks) <= MAX_BYTES ->
  PyObj.getitem (manifest s) "hashes" = Exc e ->
  plain_target (out_path_of (fs s) r url env) = true ->
  let p := out_path_of (fs s) r url env in
  respectful_fetch url env s
  = (Build_state (<[p := File (body chunks)]> (<[FETCH_DIR := Dir]> (fs s)))
       (manifest s) (console s ++ [MsgError e]),
     Normal tt).
Proof.
  intros Hdir Hprobe (Hget & Hok & Himg) Hcap Hhashes _ p.
  destruct s as [disk m out]. cbn [fs manifest console] in *.
  assert (is_Exception e = true /\ is_RequestException e = false) as [He Hreq].
  { unfold PyObj.getitem in Hhashes.
    destruct m as [| | | | | |d]; try by injection Hhashes as <-.
    destruct (PyObj.dict_get "hashes" d); [done|]. by injection Hhashes as <-. }
  rewrite (respectful_fetch_raised _ _ _
             (Build_state (<[p := File (body chunks)]> (<[FETCH_DIR := Dir]> disk))
                m out) e); [by rewrite Hreq| |done].
  rewrite (respectful_fetch_body_transfer _ _ _ _ _ _ _ _ Hdir Hprobe Hget Hok Himg).
  fold p.
  erewrite bind_normal; cycle 1.
  { apply (stream_chunks_accepts _ _ _ _ EmptyString); [by rewrite lookup_insert_eq|].
    lia. }
  rewrite insert_insert_eq. cbn [fst].
  change (EmptyString +:+ body chunks) with (body chunks).
  unfold record_or_skip. mstep. by rewrite Hhashes.
Qed.

(** X16. When [Fetched_Images] exists and is not a directory, an attempt
    fails at [os.makedirs]: it prints the error line and does nothing else,
    whatever the network would have answered; and so does every attempt of
    the run. *)
Theorem blocked_directory_fails_every_attempt :
  (forall (url : string) (env : attempt_env) (s : state),
     dir_ready (fs s) = false ->
     respectful_fetch url env s = (add_console (MsgError OSError) s, Normal tt))
  /\ (forall (urls : list string) (i : nat) (net : nat -> string -> attempt_env)
        (s : state),
        dir_ready (fs s) = false ->
        after_attempts i urls net s
        = Build_state (fs s) (manifest s)
            (console s ++ ((fun _ => MsgError OSError) <$> urls))).
Proof.
  assert (forall (url : string) (env : attempt_env) (s : state),
    dir_ready (fs s) = false ->
    respectful_fetch url env s = (add_console (MsgError OSError) s, Normal tt))
    as Hone.
  { intros url env [disk m out] Hdir.
    apply (respectful_fetch_raised _ _ _ _ OSError); [|done].
    unfold respectful_fetch_body.
    by erewrite bind_raised by (by apply makedirs_blocked). }
  split; [done|].
  induction urls as [|url urls IH]; intros i net s Hdir.
  - destruct s. simpl. by rewrite app_nil_r.
  - cbn [after_attempts]. rewrite Hone by done. cbn [fst].
    rewrite IH by done. cbn [fs manifest console add_console fmap list_fmap].
    by rewrite <- (assoc_L (++)).
Qed.

End GetStage.

(** ** What an attempt never does: it touches no file that was there *)

Section Guards.
Context {lib : PyLib}.

Lemma old_entries_kept_refl (d : gmap string node) : old_entries_kept d d.
Proof. by intros q n _ Hq. Qed.

Lemma old_entries_kept_free (old new : gmap string node) (p : string) :
  old_entries_kept old new -> new !! p = None -> free_in old p.
Proof.
  intros Hkept Hp. destruct (decide (p = MANIFEST)) as [->|Hne]; [by left|].
  right. destruct (old !! p) as [n|] eqn:Hold; [|done].
  by rewrite (Hkept p n Hne Hold) in Hp.
Qed.

Lemma guards_ret {A} (old : gmap string node) (a : A) : guards old (ret a).
Proof. by intros s. Qed.

Lemma guards_raise {A} (old : gmap string node) (e : exn) :
  guards old (raise (A := A) e).
Proof. by intros s. Qed.

Lemma guards_return {A} (old : gmap string node) : guards old (return_ (A := A)).
Proof. by intros s. Qed.

Lemma guards_bind {A B} (old : gmap string node) (m : M A) (f : A -> M B) :
  guards old m -> (forall a, guards old (f a)) -> guards old (bind m f).
Proof.
  intros Hm Hf s Hs. unfold bind. specialize (Hm s Hs).
  destruct (m s) as [s' [a| |e]]; simpl in *; [|done..].
  by apply Hf.
Qed.

(** A statement that begins by reading the state may rely on what the
    state it reads has kept. *)
Lemma guards_with_state {A} (old : gmap string node) (k : state -> M A) :
  (forall s, old_entries_kept old (fs s) -> guards old (k s)) ->
  guards old (s <- get_state ;; k s).
Proof. intros Hk s Hs. unfold bind, get_state. by apply Hk. Qed.

Lemma guards_get_state (old : gmap string node) : guards old get_state.
Proof. by intros s. Qed.

Lemma guards_modify (old : gmap string node) (f : state -> state) :
  (forall s, fs (f s) = fs s) -> guards old (modify f).
Proof. intros Hf s Hs. unfold modify. simpl. by rewrite Hf. Qed.

Lemma guards_lift {A} (old : gmap string node) (r : res A) : guards old (lift r).
Proof. destruct r; [apply guards_ret|apply guards_raise]. Qed.

Lemma guards_try_except {A} (old : gmap string node) (m : M A) (h : exn -> M A) :
  guards old m -> (forall e, guards old (h e)) -> guards old (try_except m h).
Proof.
  intros Hm Hh s Hs. unfold try_except. specialize (Hm s Hs).
  destruct (m s) as [s' [a| |e]]; simpl in *; [done..|].
  by apply Hh.
Qed.

Lemma guards_call (old : gmap string node) (m : M unit) :
  guards old m -> guards old (call m).
Proof.
  intros Hm s Hs. unfold call. specialize (Hm s Hs).
  by destruct (m s) as [s' [a| |e]].
Qed.

Lemma guards_for_each {A} (old : gmap string node) (l : list A) (f : A -> M unit) :
  (forall a, guards old (f a)) -> guards old (for_each l f).
Proof.
  intros Hf. induction l as [|a l IH]; simpl.
  - apply guards_ret.
  - apply guards_bind; [apply Hf|]. by intros _.
Qed.

End Guards.

Ltac guards_step :=
  first
    [ apply guards_ret
    | apply guards_raise
    | apply guards_return
    | apply guards_get_state
    | apply guards_lift
    | apply guards_modify; reflexivity
    | apply guards_bind; [|intros ?]
    | match goal with
      | |- guards _ (match ?x with _ => _ end) => destruct x
      end ].

Section GuardsProgram.
Context {lib : PyLib}.

Lemma guards_print (old : gmap string node) (msg : message) :
  guards old (print msg).
Proof. unfold print. repeat guards_step. Qed.

Lemma guards_makedirs (old : gmap string node) (p : string) :
  guards old (Os.makedirs p).
Proof.
  intros s Hs. unfold Os.makedirs, bind, get_state.
  destruct (fs s !! p) as [[]|] eqn:Hp; [done..|].
  intros q n Hq Hold. simpl. rewrite lookup_insert_ne; [by apply Hs|].
  intros <-. by rewrite (Hs p n Hq Hold) in Hp.
Qed.

Lemma guards_set_entry (old : gmap string node) (p : string)
    (f : gmap string node -> gmap string node) :
  free_in old p ->
  (forall d q, q <> p -> f d !! q = d !! q) ->
  guards old (modify (set_fs f)).
Proof.
  intros Hfree Hf s Hs q n Hq Hold. simpl. rewrite Hf; [by apply Hs|].
  intros ->. destruct Hfree as [->|Hnone]; [done|]. by rewrite Hnone in Hold.
Qed.

Lemma guards_open_write (old : gmap string node) (p : string) :
  free_in old p -> guards old (Os.open_write p).
Proof.
  intros Hfree. unfold Os.open_write. apply guards_bind; [apply guards_get_state|].
  intros s.
  assert (guards old (modify (set_fs (insert p (File EmptyString))))) as Hins.
  { apply (guards_set_entry old p); [done|].
    intros d q Hq. by rewrite lookup_insert_ne. }
  destruct (fs s !! p) as [[]|]; [done|apply guards_raise|done].
Qed.

Lemma guards_write (old : gmap string node) (p data : string) :
  free_in old p -> guards old (Os.write p data).
Proof.
  intros Hfree. unfold Os.write. apply (guards_set_entry old p); [done|].
  intros d q Hq. by rewrite lookup_alter_ne.
Qed.

Lemma guards_remove (old : gmap string node) (p : string) :
  free_in old p -> guards old (Os.remove p).
Proof.
  intros Hfree. unfold Os.remove. apply guards_bind; [apply guards_get_state|].
  intros s.
  assert (guards old (modify (set_fs (delete p)))) as Hdel.
  { apply (guards_set_entry old p); [done|].
    intros d q Hq. by rewrite lookup_delete_ne. }
  destruct (fs s !! p) as [[]|]; [done|apply guards_raise..].
Qed.

Lemma guards_save_manifest (old : gmap string node) (j : json) :
  guards old (save_manifest j).
Proof.
  unfold save_manifest.
  apply guards_bind; [apply guards_open_write; by left|]. intros _.
  apply guards_for_each. intros chunk. apply guards_write. by left.
Qed.

Lemma guards_load_manifest (old : gmap string node) : guards old load_manifest.
Proof.
  unfold load_manifest, Os.path_exists, Os.read_file.
  apply guards_bind; [repeat guards_step|]. intros present.
  destruct present; [|apply guards_ret].
  apply guards_try_except; [repeat guards_step|].
  intros e. destruct (is_Exception e); [apply guards_ret|apply guards_raise].
Qed.

Lemma guards_probe (old : gmap string node) (url : string) (env : attempt_env) :
  guards old (probe url env).
Proof.
  unfold probe. apply guards_try_except.
  - unfold requests_head, py_int, py_megabytes, print. repeat guards_step.
  - intros e. destruct (is_RequestException e); [apply guards_ret|apply guards_raise].
Qed.

Lemma guards_stream_chunks (old : gmap string node) (url out_path : string)
    (chunks : list string) (e : stream_end) (h : string) (total : Z) :
  free_in old out_path ->
  guards old (stream_chunks url out_path chunks e h total).
Proof.
  intros Hfree.
  revert h total. induction chunks as [|c chunks IH]; intros h total; simpl.
  - repeat guards_step.
  - destruct (PyStr.is_empty c); [apply IH|].
    destruct (total + PyStr.len c >? MAX_BYTES).
    + apply guards_bind; [by apply guards_remove|]. intros _.
      apply guards_bind; [apply guards_print|]. intros _. apply guards_return.
    + apply guards_bind; [by apply guards_write|]. intros _. apply IH.
Qed.

Lemma guards_put_manifest (old : gmap string node) (m : json) :
  guards old (put_manifest m).
Proof. unfold put_manifest. by apply guards_modify. Qed.

Lemma guards_record_or_skip (old : gmap string node)
    (url out_path file_hash : string) :
  free_in old out_path ->
  guards old (record_or_skip url out_path file_hash).
Proof.
  intros Hfree. unfold record_or_skip, get_manifest.
  repeat first
    [ apply guards_save_manifest
    | apply guards_print
    | apply guards_put_manifest
    | by apply guards_remove
    | guards_step ].
Qed.

Lemma guards_fetch_and_store (old : gmap string node) (url : string)
    (env : attempt_env) :
  guards old (fetch_and_store url env).
Proof.
  unfold fetch_and_store, requests_get, raise_for_status.
  apply guards_bind; [repeat guards_step|]. intros [[r chunks] e].
  apply guards_bind; [repeat guards_step|]. intros _.
  destruct (negb (is_image_response r)).
  { apply guards_bind; [apply guards_print|]. intros _. apply guards_return. }
  apply guards_with_state. intros s Hs.
  assert (free_in old
            (ensure_unique_path (fs s)
               (PosixPath.join FETCH_DIR (choose_filename r url env)))) as Hfree.
  { apply (old_entries_kept_free old (fs s)); [done|].
    apply ensure_unique_path_fresh. }
  apply guards_bind; [by apply guards_open_write|]. intros _.
  apply guards_bind; [by apply guards_stream_chunks|]. intros streamed.
  by apply guards_record_or_skip.
Qed.

Lemma guards_respectful_fetch (old : gmap string node) (url : string)
    (env : attempt_env) :
  guards old (respectful_fetch url env).
Proof.
  unfold respectful_fetch, respectful_fetch_body.
  apply guards_call, guards_try_except.
  - apply guards_bind; [apply guards_makedirs|]. intros _.
    apply guards_bind; [apply guards_probe|]. intros _.
    apply guards_fetch_and_store.
  - intros e. destruct (is_RequestException e); [apply guards_print|].
    destruct (is_Exception e); [apply guards_print|apply guards_raise].
Qed.

Lemma guards_fetch_all (old : gmap string node) (urls : list string) (i : nat)
    (net : nat -> string -> attempt_env) :
  guards old (fetch_all i urls net).
Proof.
  revert i. induction urls as [|url urls IH]; intros i; simpl.
  - apply guards_ret.
  - apply guards_bind; [apply guards_respectful_fetch|]. intros _. apply IH.
Qed.

(** X17. No attempt changes or removes an entry that was on the disk when
    it began, the manifest file apart: the file it writes, and removes
    again when it gives up, is at a path that was free.  So a whole run
    leaves every file it found, but for the manifest, as it found it. *)
Theorem existing_files_are_never_touched :
  (forall (url : string) (env : attempt_env) (s : state),
     old_entries_kept (fs s) (fs (fst (respectful_fetch url env s))))
  /\ (forall (line : string) (net : nat -> string -> attempt_env)
        (disk : gmap string node),
        old_entries_kept disk (fs (fst (main line net (initial_state disk))))).
Proof.
  split.
  - intros url env s. apply guards_respectful_fetch, old_entries_kept_refl.
  - intros line net disk.
    apply (guards_bind disk); [..|apply old_entries_kept_refl].
    { apply guards_print. }
    intros _. apply guards_bind; [apply guards_print|]. intros _.
    apply guards_bind.
    { destruct (PyStr.is_empty (PyStr.strip line)); [|apply guards_ret].
      apply guards_bind; [apply guards_print|]. intros _. apply guards_raise. }
    intros _. apply guards_bind; [apply guards_load_manifest|]. intros m.
    apply guards_bind; [apply guards_put_manifest|]. intros _.
    apply guards_bind; [apply guards_fetch_all|]. intros _.
    apply guards_print.
Qed.

End GuardsProgram.

(** ** Records, runs and the functions around them *)

Lemma dict_set_length (k : string) (v : json) (d : list (string * json)) :
  PyObj.dict_get k d = None ->
  length (PyObj.dict_set k v d) = S (length d).
Proof.
  induction d as [|[k' v'] d IH]; [done|]. simpl.
  destruct (String.eqb k k'); [done|]. intros Hd. simpl. by rewrite IH.
Qed.

Lemma take_drop (n : nat) (s : string) : PyStr.take n s +:+ PyStr.drop n s = s.
Proof.
  revert s. induction n as [|n IH]; intros [|c s]; try done.
  simpl. rewrite app_cons_str. by rewrite IH.
Qed.

Lemma drop_length (n : nat) (s : string) :
  (String.length (PyStr.drop n s) <= String.length s)%nat.
Proof.
  revert s. induction n as [|n IH]; intros [|c s]; simpl; try lia.
  specialize (IH s). lia.
Qed.

(** The loop of [sha256_file] feeds the hash object the whole file: with a
    block size that is not zero, and one round more than the file has
    bytes, what has been fed when the loop ends is the content of the
    file. *)
Lemma read_blocks_whole_file (size fuel : nat) (rest h : string) :
  (0 < size)%nat -> (String.length rest < fuel)%nat ->
  read_blocks size fuel rest h = h +:+ rest.
Proof.
  intros Hsize. revert rest h.
  induction fuel as [|fuel IH]; intros rest h Hfuel; [lia|].
  destruct size as [|size]; [lia|]. simpl.
  destruct rest as [|c rest]; simpl.
  - by rewrite app_nil_r_str.
  - rewrite IH.
    + rewrite app_assoc_str, app_cons_str. by rewrite take_drop.
    + pose proof (drop_length size rest). simpl in Hfuel. lia.
Qed.

Section Runs.
Context {lib : PyLib}.

(** X18. A store to a plain target adds exactly one record to the
    manifest: the name of the new file goes to the end of the files list,
    the hash of the body is mapped to that name, and every other hash
    keeps what it was mapped to; and the manifest file on the disk holds
    the text of that manifest. *)
Theorem store_appends_one_record (url : string) (env : attempt_env) (s : state)
    (r : response) (chunks : list string) :
  stores url env s r chunks ->
  plain_target (out_path_of (fs s) r url env) = true ->
  let s1 := fst (respectful_fetch url env s) in
  let name := PosixPath.basename (out_path_of (fs s) r url env) in
  let h := sha256_hexdigest (body chunks) in
  files_of (manifest s1) = files_of (manifest s) ++ [JStr name]
  /\ PyObj.dict_get h (hashes_of (manifest s1)) = Some (JStr name)
  /\ (forall k, k <> h ->
        PyObj.dict_get k (hashes_of (manifest s1))
        = PyObj.dict_get k (hashes_of (manifest s)))
  /\ length (hashes_of (manifest s1)) = S (length (hashes_of (manifest s)))
  /\ fs s1 !! MANIFEST = Some (File (json_dumps (manifest s1))).
Proof.
  intros Hst _ s1 name h.
  destruct (store_leaves _ _ _ _ _ Hst) as (_ & Hfs & Hm & _).
  destruct Hst as (_ & _ & _ & _ & Hshape & Hnew & _).
  fold s1 in Hfs, Hm. rewrite Hm, Hfs.
  rewrite recorded_files, recorded_hashes by done.
  split; [done|]. split; [apply dict_get_set_eq|].
  split; [intros k Hk; by apply dict_get_set_ne|].
  split; [by apply dict_set_length|]. by rewrite lookup_insert_eq.
Qed.

(** X19. What one run has stored, the next run knows: when the decoder
    reads back what the encoder wrote, the run that starts on the disk a
    store to a plain target has left loads the manifest of that store, and
    an attempt of the new run that downloads the same bytes, to a plain
    target as well, ends as a duplicate of the stored file, leaving the
    disk and the manifest as they are. *)
Theorem duplicate_is_found_by_next_run (url1 url2 : string)
    (env1 env2 : attempt_env) (r1 r2 : response) (chunks1 chunks2 : list string)
    (s0 : state) :
  stores url1 env1 s0 r1 chunks1 ->
  plain_target (out_path_of (fs s0) r1 url1 env1) = true ->
  let s1 := fst (respectful_fetch url1 env1 s0) in
  plain_target (out_path_of (fs s1) r2 url2 env2) = true ->
  json_load (json_dumps (manifest s1)) = Some (manifest s1) ->
  probe_passes env2 = true ->
  serves_image env2 r2 chunks2 ->
  body chunks2 = body chunks1 ->
  let name1 := PosixPath.basename (out_path_of (fs s0) r1 url1 env1) in
  load_manifest (initial_state (fs s1))
  = (initial_state (fs s1), Normal (manifest s1))
  /\ respectful_fetch url2 env2 (run_start (fs s1) (manifest s1))
     = (Build_state (fs s1) (manifest s1) [MsgDuplicate (JStr name1) url2],
        Normal tt).
Proof.
  intros Hst _ s1 _ Hround Hprobe Himage Hbody name1.
  destruct (store_leaves _ _ _ _ _ Hst) as (_ & Hfs & Hm & _).
  destruct (store_keeps_dir_ready _ _ _ _ _ Hst) as [Hins Hdir].
  pose proof Hst as (_ & _ & _ & Hcap & Hshape & Hnew & _).
  fold s1 in Hfs, Hm, Hins, Hdir.
  split.
  - rewrite load_manifest_eq. cbn [fs initial_state].
    rewrite Hfs at 2. rewrite lookup_insert_eq. rewrite <- Hm.
    by rewrite Hround.
  - rewrite (respectful_fetch_duplicate url2 env2 _ r2 chunks2 (JStr name1));
      cbn [run_start set_manifest initial_state fs manifest console]; try done.
    + by rewrite Hins.
    + by rewrite Hbody.
    + rewrite Hm. by apply recorded_well_shaped.
    + rewrite Hbody, Hm, recorded_hashes by done. apply dict_get_set_eq.
Qed.

(** X20. [sha256_file] gives the digest of the whole content of a file,
    block by block, and leaves the state as it is; on a path that is no
    file it raises [OSError].  For the file a store has written to a plain
    target other than the path of the manifest, the digest is the key under
    which the manifest records the name of that file. *)
Theorem sha256_file_hashes_whole_file :
  (forall (path data : string) (s : state),
     fs s !! path = Some (File data) ->
     sha256_file path s = (s, Normal (sha256_hexdigest data)))
  /\ (forall (path : string) (s : state),
        fs s !! path = None \/ fs s !! path = Some Dir ->
        sha256_file path s = (s, Raised OSError))
  /\ (forall (url : string) (env : attempt_env) (s : state) (r : response)
        (chunks : list string),
        stores url env s r chunks ->
        let s1 := fst (respectful_fetch url env s) in
        let p := out_path_of (fs s) r url env in
        plain_target p = true ->
        p <> MANIFEST ->
        exists h,
          sha256_file p s1 = (s1, Normal h)
          /\ PyObj.dict_get h (hashes_of (manifest s1))
             = Some (JStr (PosixPath.basename p))).
Proof.
  assert (forall (path data : string) (s : state),
     fs s !! path = Some (File data) ->
     sha256_file path s = (s, Normal (sha256_hexdigest data))) as Hfile.
  { intros path data s Hp.
    assert (Os.read_file path s = (s, Normal data)) as Hread.
    { unfold Os.read_file. mstep. by rewrite Hp. }
    unfold sha256_file. erewrite bind_normal by exact Hread. unfold ret.
    rewrite read_blocks_whole_file; [done| |lia].
    lia. }
  split; [done|]. split.
  - intros path s Hp.
    assert (Os.read_file path s = (s, Raised OSError)) as Hread.
    { unfold Os.read_file. mstep. by destruct Hp as [-> | ->]. }
    unfold sha256_file. by erewrite bind_raised by exact Hread.
  - intros url env s r chunks Hst s1 p _ Hp.
    exists (sha256_hexdigest (body chunks)).
    destruct (store_leaves _ _ _ _ _ Hst) as (_ & Hfs & Hm & _).
    destruct Hst as (_ & _ & _ & _ & Hshape & Hnew & _).
    fold s1 p in Hfs, Hm. split.
    + apply Hfile. rewrite Hfs, lookup_insert_ne by done.
      by rewrite lookup_insert_eq.
    + rewrite Hm, recorded_hashes by done. apply dict_get_set_eq.
Qed.

(** X21. [main] on a blank line prints the greeting and the notice that
    there is no URL and exits with status 0: the manifest is not loaded and
    the disk is not looked at.  On any other line it loads the manifest and
    makes the attempts for the URLs of the line, in their order, each from
    the state the one before has left, and then prints the farewell; every
    URL accounts for one line or two of what is printed in between. *)
Theorem main_runs_attempts_in_order (line : string)
    (net : nat -> string -> attempt_env) (disk : gmap string node) :
  let raw := PyStr.strip line in
  (raw = EmptyString ->
   main line net (initial_state disk)
   = (Build_state disk JNull [MsgWelcome; MsgTagline; MsgNoUrl],
      Raised (SystemExit 0)))
  /\ (raw <> EmptyString ->
      exists m,
        load_manifest (initial_state disk) = (initial_state disk, Normal m)
        /\ main line net (initial_state disk)
           = (add_console MsgFarewell
                (after_attempts 0 (url_tokens raw) net
                   (Build_state disk m [MsgWelcome; MsgTagline])),
              Normal tt)
        /\ exists msgs,
             console (after_attempts 0 (url_tokens raw) net
                        (Build_state disk m [MsgWelcome; MsgTagline]))
             = [MsgWelcome; MsgTagline] ++ msgs
             /\ (length (url_tokens raw) <= length msgs
                 <= 2 * length (url_tokens raw))%nat).
Proof.
  intros raw. split.
  - intros Hraw. unfold main. fold raw. rewrite Hraw. by vm_compute.
  - intros Hraw.
    eexists. split; [apply load_manifest_eq|].
    split; [|apply after_attempts_lines].
    unfold main. fold raw. mstep. mstep.
    assert (PyStr.is_empty raw = false) as -> by (by destruct raw).
    mstep. erewrite bind_normal by apply load_manifest_eq. mstep.
    erewrite bind_normal by apply fetch_all_runs_every_attempt.
    done.
Qed.

End Runs.

(** ** [main.py] *)

(** X22. [fetch_any] never raises.  It returns the label and the document
    of the first of its three services, in the order of its list, whose
    request succeeds with a status that is no error status and a body that
    is a JSON document; when none does, it returns the offline fallback. *)
Theorem fetch_any_returns_first_answer (net : string -> api_reply) :
  let fails (x : string * string) := exists e, api_attempt (net x.2) = Exc e in
  (Forall fails api_urls /\ fetch_any net = Val offline_fallback)
  \/ (exists pre name url post data,
        api_urls = pre ++ (name, url) :: post
        /\ Forall fails pre
        /\ api_attempt (net url) = Val data
        /\ fetch_any net = Val (name, data)).
Proof.
  intros fails.
  assert (forall urls,
    match fetch_any_loop urls net with
    | Val (Some (name, data)) =>
        exists pre url post,
          urls = pre ++ (name, url) :: post
          /\ Forall fails pre /\ api_attempt (net url) = Val data
    | Val None => Forall fails urls
    | Exc _ => False
    end) as Hloop.
  { induction urls as [|[name url] urls IH]; simpl; [constructor|].
    destruct (api_attempt (net url)) as [data|e] eqn:Htry.
    - by exists [], url, urls.
    - assert (is_Exception e = true) as ->.
      { unfold api_attempt in Htry. destruct (net url) as [|st [j|]];
          repeat case_match; by simplify_eq. }
      assert (fails (name, url)) as Hfail by (by exists e).
      destruct (fetch_any_loop urls net) as [[[name' data']|]|e']; [| |done].
      + destruct IH as (pre & url' & post & -> & Hpre & Hdata).
        exists ((name, url) :: pre), url', post.
        split; [done|]. split; [by constructor|done].
      + by constructor. }
  specialize (Hloop api_urls). unfold fetch_any.
  destruct (fetch_any_loop api_urls net) as [[[name data]|]|e]; [| |done].
  - right. destruct Hloop as (pre & url & post & Heq & Hpre & Hdata).
    by exists pre, name, url, post, data.
  - by left.
Qed.

(** ** A download that takes the name of the manifest *)

Section ManifestName.
Context {lib : PyLib}.

(** X23. On a disk without a manifest file, content whose file name comes
    out as [_manifest.json] is written to the path of the manifest, and
    the save of the record step then puts the manifest there: the attempt
    prints the two lines of a store and the manifest records the name
    under the hash of the body, but what the file holds is the text of the
    manifest, and no other entry of the disk has changed. *)
Theorem download_named_like_manifest_is_overwritten (url : string)
    (env : attempt_env) (s : state) (r : response) (chunks : list string) :
  stores url env s r chunks ->
  choose_filename r url env = "_manifest.json" ->
  fs s !! MANIFEST = None ->
  let s1 := fst (respectful_fetch url env s) in
  out_path_of (fs s) r url env = MANIFEST
  /\ console s1 = console s ++ [MsgFetched "_manifest.json"; MsgSaved MANIFEST]
  /\ PyObj.dict_get (sha256_hexdigest (body chunks)) (hashes_of (manifest s1))
     = Some (JStr "_manifest.json")
  /\ fs s1 !! MANIFEST = Some (File (json_dumps (manifest s1)))
  /\ (forall q, q <> MANIFEST -> q <> FETCH_DIR -> fs s1 !! q = fs s !! q).
Proof.
  intros Hst Hname Hfree s1.
  assert (out_path_of (fs s) r url env = MANIFEST) as Hp.
  { unfold out_path_of. rewrite Hname.
    change (PosixPath.join FETCH_DIR "_manifest.json") with MANIFEST.
    destruct (PosixPath.splitext MANIFEST) as [base ext] eqn:Hsplit.
    destruct (ensure_unique_path_cases (<[FETCH_DIR := Dir]> (fs s))
                MANIFEST base ext Hsplit) as [[_ ->] | [[n Hn] _]]; [done|].
    rewrite lookup_insert_ne in Hn by (intros Heq; by apply manifest_ne_fetch_dir).
    by rewrite Hfree in Hn. }
  destruct (store_leaves _ _ _ _ _ Hst) as (_ & Hfs & Hm & Hc).
  destruct Hst as (_ & _ & _ & _ & Hshape & Hnew & _).
  fold s1 in Hfs, Hm, Hc. rewrite Hp in Hfs, Hm, Hc.
  change (PosixPath.basename MANIFEST) with "_manifest.json" in Hm, Hc.
  split; [done|]. split; [done|]. split; [|split].
  - rewrite Hm, recorded_hashes by done. apply dict_get_set_eq.
  - by rewrite Hfs, Hm, lookup_insert_eq.
  - intros q Hq Hdir. by rewrite Hfs, !lookup_insert_ne.
Qed.

End ManifestName.

(** ** Plain targets *)

Lemma prefix_drop (p s : string) :
  String.prefix p s = true -> s = p +:+ PyStr.drop (String.length p) s.
Proof.
  revert s. induction p as [|a p IH]; intros s Hp; [done|].
  destruct s as [|b s]; [done|]. change (String.prefix (String a p) (String b s))
    with (if ascii_dec a b then String.prefix p s else false) in Hp.
  destruct (ascii_dec a b) as [->|]; [|done].
  cbn [String.length PyStr.drop]. rewrite app_cons_str. f_equal. by apply IH.
Qed.

Lemma all_chars_impl (p q : ascii -> bool) (s : string) :
  (forall c, p c = true -> q c = true) ->
  all_chars p s = true -> all_chars q s = true.
Proof.
  intros Hpq. induction s as [|c s IH]; [done|]. simpl.
  intros [Hc Hs]%andb_prop. by rewrite (Hpq c Hc), IH.
Qed.

(** A plain target is [Fetched_Images/<name>] for a plain [<name>], and
    that name is its last component. *)
Lemma plain_target_spec (p : string) :
  plain_target p = true ->
  exists n, p = FETCH_DIR +:+ String "/" n
            /\ plain_component n = true
            /\ PosixPath.basename p = n.
Proof.
  unfold plain_target. intros [Hpre Hn]%andb_prop.
  apply prefix_drop in Hpre.
  set (n := PyStr.drop (String.length (FETCH_DIR +:+ "/")) p) in *.
  exists n.
  assert (p = FETCH_DIR +:+ String "/" n) as Hp.
  { rewrite Hpre at 1. by rewrite app_assoc_str. }
  split; [done|]. split; [done|].
  rewrite Hp. unfold PosixPath.basename. rewrite split_last_sep_dir; [done|].
  unfold plain_component in Hn.
  apply andb_prop in Hn as [Hn _]. apply andb_prop in Hn as [Hn _].
  apply andb_prop in Hn as [Hn _]. apply andb_prop in Hn as [_ Hn].
  revert Hn. apply all_chars_impl. by intros c [Hc _]%andb_prop.
Qed.

Example plain_target_examples :
  plain_target "Fetched_Images/cat.png" = true
  /\ plain_target "Fetched_Images/cat (1).png" = true
  /\ plain_target MANIFEST = true
  /\ plain_target "Fetched_Images/../evil.png" = false
  /\ plain_target "Fetched_Images/sub/pic.png" = false
  /\ plain_target "Fetched_Images/./_manifest.json" = false
  /\ plain_target "Fetched_Images/.." = false
  /\ plain_target "Fetched_Images/." = false
  /\ plain_target "Fetched_Images/" = false
  /\ plain_target "/tmp/pic.png" = false.
Proof. repeat split; reflexivity. Qed.

(** ** The further theorems at sample inputs *)

Section MoreWitnesses.
Existing Instance RefLib.lib.

(** Two addresses with a comma between them. *)
Lemma url_tokens_cut_at_separators_witness :
  let a := "http://a.example/x.png" in
  let b := "http://b.example/y.png" in
  is_separator "," = true
  /\ clean_token a = true
  /\ clean_token b = true
  /\ url_tokens (a +:+ String "," b) = [a; b].
Proof.
  intros a b. destruct url_tokens_cut_at_separators as (Hcut & Hone & _).
  split; [reflexivity|]. split; [reflexivity|]. split; [reflexivity|].
  rewrite (Hcut a b ","%char eq_refl), (Hone a eq_refl), (Hone b eq_refl).
  reflexivity.
Defined.

(** A URL whose last component has no period. *)
Lemma safe_filename_from_url_fallback_witness :
  let url := "http://example.org/gallery/photo" in
  let env := Sample.serving Sample.plain [] in
  PyStr.contains "."
    (PyStr.strip (unquote (PosixPath.basename (urlparse_path url)))) = false
  /\ safe_filename_from_url url env = "downloaded_1700000000000.jpg".
Proof.
  intros url env. destruct safe_filename_from_url_fallback as (Hfb & _ & _).
  destruct (Hfb url env) as [Hdown _].
  assert (PyStr.contains "."
            (PyStr.strip (unquote (PosixPath.basename (urlparse_path url)))) = false)
    as Hdot by (by vm_compute).
  split; [exact Hdot|]. rewrite (Hdown (or_intror Hdot)). by vm_compute.
Defined.

(** A quoted name after [attachment; ]. *)
Lemma filename_from_headers_reads_name_witness :
  let r := Sample.image_response
             [("Content-Disposition", RefLib.q "attachment; filename='cat.png'")] in
  PyStr.mem "f" "attachment; " = false
  /\ plain_name "cat.png" = true
  /\ filename_from_headers r = Some "cat.png".
Proof.
  intros r. destruct (filename_from_headers_reads_name r) as (_ & _ & Hname & _).
  split; [reflexivity|]. split; [reflexivity|].
  apply (Hname "attachment; " "cat.png"); [reflexivity|reflexivity|].
  right. by vm_compute.
Defined.

(** A probe answered with 404. *)
Lemma failed_probe_is_ignored_witness :
  let url := "http://example.org/a.png" in
  let head := {| status := 404; headers := ∅ |} in
  let env := {| head_of := HeadResponse head;
                get_of := GetResponse Sample.plain ["PNG"] StreamEnds;
                clock_downloaded := 0; clock_image := 0 |} in
  ok head = false
  /\ respectful_fetch url env Sample.fresh
     = respectful_fetch url (with_head HeadFails env) Sample.fresh.
Proof.
  intros url head env. split; [reflexivity|].
  apply (failed_probe_is_ignored url env Sample.fresh head); reflexivity.
Defined.

(** A probe that declares a page, with a length that is no number. *)
Lemma probe_rejects_other_types_witness :
  let url := "http://example.org/index.html" in
  let head := {| status := 200;
                 headers := {[ "Content-Type" := "text/html";
                               "Content-Length" := "abc" ]} |} in
  let env := {| head_of := HeadResponse head; get_of := GetFails;
                clock_downloaded := 0; clock_image := 0 |} in
  dir_ready (fs Sample.fresh) = true
  /\ ok head = true
  /\ PyStr.startswith "image/" (header head "Content-Type" EmptyString) = false
  /\ console (fst (respectful_fetch url env Sample.fresh))
     = [MsgSkippedNotImage url].
Proof.
  intros url head env.
  assert (dir_ready (fs Sample.fresh) = true) as Hdir by reflexivity.
  assert (ok head = true) as Hok by reflexivity.
  assert (PyStr.startswith "image/" (header head "Content-Type" EmptyString)
          = false) as Htype by (by vm_compute).
  split; [exact Hdir|]. split; [exact Hok|]. split; [exact Htype|].
  rewrite (probe_rejects_other_types url env Sample.fresh head Hdir eq_refl Hok Htype).
  reflexivity.
Defined.

(** A probe that declares one byte more than the cap. *)
Lemma probe_compares_declared_length_witness :
  let url := "http://example.org/big.png" in
  let head := Sample.image_response [("Content-Length", "15728641")] in
  let env := {| head_of := HeadResponse head; get_of := GetFails;
                clock_downloaded := 0; clock_image := 0 |} in
  dir_ready (fs Sample.fresh) = true
  /\ ok head = true
  /\ PyStr.startswith "image/" (header head "Content-Type" EmptyString) = true
  /\ headers head !! "Content-Length" = Some "15728641"
  /\ PyStr.int "15728641" = Some 15728641
  /\ MAX_BYTES < 15728641
  /\ PyStr.true_div_overflows 15728641 = false
  /\ console (fst (respectful_fetch url env Sample.fresh))
     = [MsgSkippedTooLarge 15728641 url].
Proof.
  intros url head env.
  assert (dir_ready (fs Sample.fresh) = true) as Hdir by reflexivity.
  assert (ok head = true) as Hok by reflexivity.
  assert (PyStr.startswith "image/" (header head "Content-Type" EmptyString)
          = true) as Htype by (by vm_compute).
  assert (headers head !! "Content-Length" = Some "15728641") as Hlen
    by (by vm_compute).
  assert (PyStr.int "15728641" = Some 15728641) as Hint by (by vm_compute).
  assert (MAX_BYTES < 15728641) as Hover by reflexivity.
  assert (PyStr.true_div_overflows 15728641 = false) as Hfloat by (by vm_compute).
  destruct (probe_compares_declared_length url env Sample.fresh head
              "15728641" 15728641 Hdir eq_refl Hok Htype Hlen Hint)
    as (Hlarge & _ & _).
  split; [exact Hdir|]. split; [exact Hok|]. split; [exact Htype|].
  split; [exact Hlen|]. split; [exact Hint|]. split; [exact Hover|].
  split; [exact Hfloat|]. rewrite (Hlarge Hover Hfloat). reflexivity.
Defined.

(** A server that cannot be reached. *)
Lemma failed_get_is_reported_witness :
  let url := "http://unreachable.example/a.png" in
  let env := {| head_of := HeadFails; get_of := GetFails;
                clock_downloaded := 0; clock_image := 0 |} in
  dir_ready (fs Sample.fresh) = true
  /\ probe_passes env = true
  /\ respectful_fetch url env Sample.fresh
     = (Build_state {[ FETCH_DIR := Dir ]} default_manifest
          [MsgConnectionError RequestException], Normal tt).
Proof.
  intros url env. split; [reflexivity|]. split; [reflexivity|].
  apply (failed_get_is_reported url env Sample.fresh); [reflexivity..|].
  left. reflexivity.
Defined.

(** A page served where an image was asked for, without a content type. *)
Lemma get_of_other_type_is_skipped_witness :
  let url := "http://example.org/a.png" in
  let r := {| status := 200; headers := ∅ |} in
  let env := {| head_of := HeadFails; get_of := GetResponse r ["<html>"] StreamEnds;
                clock_downloaded := 0; clock_image := 0 |} in
  dir_ready (fs Sample.fresh) = true
  /\ probe_passes env = true
  /\ ok r = true
  /\ is_image_response r = false
  /\ console (fst (respectful_fetch url env Sample.fresh)) = [MsgNotImage "?" url].
Proof.
  intros url r env.
  split; [reflexivity|]. split; [reflexivity|]. split; [reflexivity|].
  split; [reflexivity|].
  rewrite (get_of_other_type_is_skipped url env Sample.fresh r ["<html>"] StreamEnds
             eq_refl eq_refl eq_refl eq_refl eq_refl).
  reflexivity.
Defined.

(** Three bytes in two chunks, and in three with an empty one. *)
Lemma chunking_makes_no_difference_witness :
  let url := "http://example.org/a.png" in
  let env := Sample.serving Sample.plain ["AB"; EmptyString; "C"] in
  body ["A"; "BC"] = body ["AB"; EmptyString; "C"]
  /\ respectful_fetch url
       (with_get (GetResponse Sample.plain ["A"; "BC"] StreamEnds) env) Sample.fresh
     = respectful_fetch url env Sample.fresh.
Proof.
  intros url env. split; [reflexivity|].
  apply (chunking_makes_no_difference url env Sample.fresh Sample.plain
           ["AB"; EmptyString; "C"] ["A"; "BC"] StreamEnds); reflexivity.
Defined.

(** A connection that breaks after two bytes. *)
Lemma interrupted_download_leaves_partial_file_witness :
  let url := "http://example.org/a.png" in
  let env := {| head_of := HeadFails;
                get_of := GetResponse Sample.plain ["AB"] StreamFails;
                clock_downloaded := 0; clock_image := 0 |} in
  let s' := fst (respectful_fetch url env Sample.fresh) in
  dir_ready (fs Sample.fresh) = true
  /\ probe_passes env = true
  /\ PyStr.len (body ["AB"]) <= MAX_BYTES
  /\ out_path_of (fs Sample.fresh) Sample.plain url env = "Fetched_Images/a.png"
  /\ plain_target "Fetched_Images/a.png" = true
  /\ fs s' !! "Fetched_Images/a.png" = Some (File "AB")
  /\ manifest s' = default_manifest
  /\ console s' = [MsgConnectionError RequestException]
  /\ ensure_unique_path (fs s') "Fetched_Images/a.png" <> "Fetched_Images/a.png".
Proof.
  intros url env s'.
  assert (PyStr.len (body ["AB"]) <= MAX_BYTES) as Hcap by (by vm_compute).
  assert (out_path_of (fs Sample.fresh) Sample.plain url env
          = "Fetched_Images/a.png") as Hp by (by vm_compute).
  assert (plain_target "Fetched_Images/a.png" = true) as Hplain by reflexivity.
  destruct (interrupted_download_leaves_partial_file url env Sample.fresh
              Sample.plain ["AB"] eq_refl eq_refl eq_refl eq_refl eq_refl Hcap)
    as [Hrun Hname]; [by rewrite Hp|].
  split; [reflexivity|]. split; [reflexivity|]. split; [exact Hcap|].
  split; [exact Hp|]. split; [exact Hplain|].
  unfold s'. rewrite Hrun.
  split; [by vm_compute|]. split; [reflexivity|]. split; [reflexivity|].
  rewrite Hrun in Hname. exact Hname.
Defined.

(** New content on a disk where the manifest path is a directory. *)
Lemma unsaved_record_stays_in_memory_witness :
  let url := "http://example.org/a.png" in
  let env := Sample.serving Sample.plain ["AAA"] in
  let s := {| fs := {[ MANIFEST := Dir ]}; manifest := default_manifest;
              console := [] |} in
  let s' := fst (respectful_fetch url env s) in
  manifest_writable (fs s) = false
  /\ out_path_of (fs s) Sample.plain url env = "Fetched_Images/a.png"
  /\ plain_target "Fetched_Images/a.png" = true
  /\ fs s' !! "Fetched_Images/a.png" = Some (File "AAA")
  /\ files_of (manifest s') = [JStr "a.png"]
  /\ fs s' !! MANIFEST = Some Dir
  /\ console s' = [MsgError OSError].
Proof.
  intros url env s s'.
  assert (PyStr.len (body ["AAA"]) <= MAX_BYTES) as Hcap by (by vm_compute).
  assert (serves_image env Sample.plain ["AAA"]) as Himg.
  { split; [reflexivity|]. split; reflexivity. }
  assert (out_path_of (fs s) Sample.plain url env = "Fetched_Images/a.png") as Hp
    by (by vm_compute).
  assert (plain_target "Fetched_Images/a.png" = true) as Hplain by reflexivity.
  assert (plain_target (out_path_of (fs s) Sample.plain url env) = true) as Hplain'
    by (by rewrite Hp).
  pose proof (unsaved_record_stays_in_memory url env s Sample.plain ["AAA"]
                eq_refl eq_refl Himg Hcap eq_refl eq_refl eq_refl Hplain') as Hrun.
  split; [reflexivity|]. split; [exact Hp|]. split; [exact Hplain|].
  unfold s'. rewrite Hrun.
  split; [by vm_compute|]. split; [by vm_compute|]. split; [by vm_compute|].
  reflexivity.
Defined.

(** A run whose manifest file held an empty list. *)
Lemma unusable_manifest_strands_download_witness :
  let url := "http://example.org/a.png" in
  let env := Sample.serving Sample.plain ["AAA"] in
  let s := {| fs := ∅; manifest := JArr []; console := [] |} in
  let s' := fst (respectful_fetch url env s) in
  PyObj.getitem (manifest s) "hashes" = Exc TypeError
  /\ out_path_of (fs s) Sample.plain url env = "Fetched_Images/a.png"
  /\ plain_target "Fetched_Images/a.png" = true
  /\ fs s' !! "Fetched_Images/a.png" = Some (File "AAA")
  /\ manifest s' = JArr []
  /\ console s' = [MsgError TypeError].
Proof.
  intros url env s s'.
  assert (PyStr.len (body ["AAA"]) <= MAX_BYTES) as Hcap by (by vm_compute).
  assert (serves_image env Sample.plain ["AAA"]) as Himg.
  { split; [reflexivity|]. split; reflexivity. }
  assert (out_path_of (fs s) Sample.plain url env = "Fetched_Images/a.png") as Hp
    by (by vm_compute).
  assert (plain_target "Fetched_Images/a.png" = true) as Hplain by reflexivity.
  assert (plain_target (out_path_of (fs s) Sample.plain url env) = true) as Hplain'
    by (by rewrite Hp).
  pose proof (unusable_manifest_strands_download url env s Sample.plain ["AAA"]
                TypeError eq_refl eq_refl Himg Hcap eq_refl Hplain') as Hrun.
  split; [reflexivity|]. split; [exact Hp|]. split; [exact Hplain|].
  unfold s'. rewrite Hrun.
  split; [by vm_compute|]. split; reflexivity.
Defined.

(** A regular file where the output directory should be. *)
Lemma blocked_directory_fails_every_attempt_witness :
  let s := {| fs := {[ FETCH_DIR := File "not a directory" ]};
              manifest := default_manifest; console := [] |} in
  let net := fun (_ : nat) (_ : string) => Sample.serving Sample.plain ["AAA"] in
  dir_ready (fs s) = false
  /\ after_attempts 0 ["http://a.example/x.png"; "http://b.example/y.png"] net s
     = Build_state (fs s) default_manifest [MsgError OSError; MsgError OSError].
Proof.
  intros s net. destruct blocked_directory_fails_every_attempt as [_ Hall].
  split; [reflexivity|].
  rewrite (Hall ["http://a.example/x.png"; "http://b.example/y.png"] 0%nat net s
             eq_refl).
  reflexivity.
Defined.

(** The first store of a run. *)
Lemma store_appends_one_record_witness :
  let url := "http://example.org/a.png" in
  let env := Sample.serving Sample.plain ["AAA"] in
  let s1 := fst (respectful_fetch url env Sample.fresh) in
  stores url env Sample.fresh Sample.plain ["AAA"]
  /\ out_path_of (fs Sample.fresh) Sample.plain url env = "Fetched_Images/a.png"
  /\ plain_target "Fetched_Images/a.png" = true
  /\ files_of (manifest s1) = [JStr "a.png"]
  /\ PyObj.dict_get "414141" (hashes_of (manifest s1)) = Some (JStr "a.png")
  /\ length (hashes_of (manifest s1)) = 1%nat.
Proof.
  intros url env s1.
  assert (stores url env Sample.fresh Sample.plain ["AAA"]) as Hst.
  { repeat split; by vm_compute. }
  assert (out_path_of (fs Sample.fresh) Sample.plain url env
          = "Fetched_Images/a.png") as Hp by (by vm_compute).
  assert (plain_target "Fetched_Images/a.png" = true) as Hplain by reflexivity.
  assert (plain_target (out_path_of (fs Sample.fresh) Sample.plain url env) = true)
    as Hplain' by (by rewrite Hp).
  destruct (store_appends_one_record url env Sample.fresh Sample.plain ["AAA"] Hst
              Hplain')
    as (Hfiles & Hhash & _ & Hlen & _).
  split; [exact Hst|]. split; [exact Hp|]. split; [exact Hplain|].
  split; [exact Hfiles|]. split; [exact Hhash|exact Hlen].
Defined.

(** The same bytes fetched again by a second run. *)
Lemma duplicate_is_found_by_next_run_witness :
  let url1 := "http://example.org/a/cat.png" in
  let url2 := "http://mirror.example.net/kitten.png" in
  let env1 := Sample.serving Sample.plain ["AB"; "C"] in
  let env2 := Sample.serving Sample.plain ["ABC"] in
  let s1 := fst (respectful_fetch url1 env1 Sample.fresh) in
  stores url1 env1 Sample.fresh Sample.plain ["AB"; "C"]
  /\ out_path_of (fs Sample.fresh) Sample.plain url1 env1 = "Fetched_Images/cat.png"
  /\ out_path_of (fs s1) Sample.plain url2 env2 = "Fetched_Images/kitten.png"
  /\ plain_target "Fetched_Images/cat.png" = true
  /\ plain_target "Fetched_Images/kitten.png" = true
  /\ json_load (json_dumps (manifest s1)) = Some (manifest s1)
  /\ probe_passes env2 = true
  /\ serves_image env2 Sample.plain ["ABC"]
  /\ body ["ABC"] = body ["AB"; "C"]
  /\ load_manifest (initial_state (fs s1))
     = (initial_state (fs s1), Normal (manifest s1))
  /\ respectful_fetch url2 env2 (run_start (fs s1) (manifest s1))
     = (Build_state (fs s1) (manifest s1) [MsgDuplicate (JStr "cat.png") url2],
        Normal tt).
Proof.
  intros url1 url2 env1 env2 s1.
  assert (stores url1 env1 Sample.fresh Sample.plain ["AB"; "C"]) as Hst.
  { repeat split; by vm_compute. }
  assert (out_path_of (fs Sample.fresh) Sample.plain url1 env1
          = "Fetched_Images/cat.png") as Hp1 by (by vm_compute).
  assert (out_path_of (fs s1) Sample.plain url2 env2
          = "Fetched_Images/kitten.png") as Hp2 by (by vm_compute).
  assert (plain_target "Fetched_Images/cat.png" = true) as Hplain1 by reflexivity.
  assert (plain_target "Fetched_Images/kitten.png" = true) as Hplain2 by reflexivity.
  assert (plain_target (out_path_of (fs Sample.fresh) Sample.plain url1 env1) = true)
    as Hplain1' by (by rewrite Hp1).
  assert (plain_target (out_path_of (fs s1) Sample.plain url2 env2) = true)
    as Hplain2' by (by rewrite Hp2).
  assert (json_load (json_dumps (manifest s1)) = Some (manifest s1)) as Hround
    by (by vm_compute).
  assert (probe_passes env2 = true) as Hprobe by (by vm_compute).
  assert (serves_image env2 Sample.plain ["ABC"]) as Himg.
  { split; [reflexivity|]. split; by vm_compute. }
  assert (body ["ABC"] = body ["AB"; "C"]) as Hsame by reflexivity.
  destruct (duplicate_is_found_by_next_run url1 url2 env1 env2 Sample.plain
              Sample.plain ["AB"; "C"] ["ABC"] Sample.fresh Hst Hplain1' Hplain2'
              Hround Hprobe Himg Hsame) as [Hload Hdup].
  split; [exact Hst|]. split; [exact Hp1|]. split; [exact Hp2|].
  split; [exact Hplain1|]. split; [exact Hplain2|].
  split; [exact Hround|]. split; [exact Hprobe|].
  split; [exact Himg|]. split; [exact Hsame|]. split; [exact Hload|exact Hdup].
Defined.

(** A file of two bytes, and the file of a first store. *)
Lemma sha256_file_hashes_whole_file_witness :
  let s := {| fs := {[ "Fetched_Images/a.png" := File "AB" ]};
              manifest := default_manifest; console := [] |} in
  let url := "http://example.org/a.png" in
  let env := Sample.serving Sample.plain ["AAA"] in
  let s1 := fst (respectful_fetch url env Sample.fresh) in
  fs s !! "Fetched_Images/a.png" = Some (File "AB")
  /\ sha256_file "Fetched_Images/a.png" s = (s, Normal "4142")
  /\ stores url env Sample.fresh Sample.plain ["AAA"]
  /\ out_path_of (fs Sample.fresh) Sample.plain url env = "Fetched_Images/a.png"
  /\ plain_target "Fetched_Images/a.png" = true
  /\ "Fetched_Images/a.png" <> MANIFEST
  /\ exists h,
       sha256_file "Fetched_Images/a.png" s1 = (s1, Normal h)
       /\ PyObj.dict_get h (hashes_of (manifest s1)) = Some (JStr "a.png").
Proof.
  intros s url env s1. destruct sha256_file_hashes_whole_file as (Hfile & _ & Hstored).
  assert (fs s !! "Fetched_Images/a.png" = Some (File "AB")) as Hp
    by (by vm_compute).
  assert (stores url env Sample.fresh Sample.plain ["AAA"]) as Hst.
  { repeat split; by vm_compute. }
  assert (out_path_of (fs Sample.fresh) Sample.plain url env
          = "Fetched_Images/a.png") as Hout by (by vm_compute).
  assert (plain_target "Fetched_Images/a.png" = true) as Hplain by reflexivity.
  assert ("Fetched_Images/a.png" <> MANIFEST) as Hne by (by vm_compute).
  pose proof (Hstored url env Sample.fresh Sample.plain ["AAA"] Hst) as Hrun.
  cbv zeta in Hrun. fold s1 in Hrun. rewrite Hout in Hrun.
  split; [exact Hp|]. split; [exact (Hfile "Fetched_Images/a.png" "AB" s Hp)|].
  split; [exact Hst|]. split; [exact Hout|]. split; [exact Hplain|].
  split; [exact Hne|]. exact (Hrun Hplain Hne).
Defined.

(** A line of blanks. *)
Lemma main_runs_attempts_in_order_witness :
  let net := fun (_ : nat) (_ : string) => Sample.serving Sample.plain ["AAA"] in
  PyStr.strip "   " = EmptyString
  /\ main "   " net (initial_state ∅)
     = (Build_state ∅ JNull [MsgWelcome; MsgTagline; MsgNoUrl],
        Raised (SystemExit 0)).
Proof.
  intros net. destruct (main_runs_attempts_in_order "   " net ∅) as [Hblank _].
  split; [reflexivity|]. exact (Hblank eq_refl).
Defined.

(** An image that its server calls [_manifest.json], on an empty disk. *)
Lemma download_named_like_manifest_is_overwritten_witness :
  let url := "http://example.org/x" in
  let r := Sample.image_response
             [("Content-Disposition", "attachment; filename=_manifest.json")] in
  let env := Sample.serving r ["PNG"] in
  let s1 := fst (respectful_fetch url env Sample.fresh) in
  stores url env Sample.fresh r ["PNG"]
  /\ choose_filename r url env = "_manifest.json"
  /\ fs Sample.fresh !! MANIFEST = None
  /\ console s1 = [MsgFetched "_manifest.json"; MsgSaved MANIFEST]
  /\ fs s1 !! MANIFEST = Some (File (json_dumps (manifest s1))).
Proof.
  intros url r env s1.
  assert (stores url env Sample.fresh r ["PNG"]) as Hst.
  { repeat split; by vm_compute. }
  assert (choose_filename r url env = "_manifest.json") as Hname by (by vm_compute).
  assert (fs Sample.fresh !! MANIFEST = None) as Hfree by reflexivity.
  destruct (download_named_like_manifest_is_overwritten url env Sample.fresh r
              ["PNG"] Hst Hname Hfree) as (_ & Hc & _ & Hfile & _).
  split; [exact Hst|]. split; [exact Hname|]. split; [exact Hfree|].
  split; [exact Hc|exact Hfile].
Defined.

End MoreWitnesses.

(** ** The theorems at sample inputs *)

Section Witnesses.
Existing Instance RefLib.lib.

Lemma len_body_repeat (c : string) (n : nat) :
  PyStr.len (body (repeat c n)) = Z.of_nat n * PyStr.len c.
Proof.
  induction n as [|n IH]; [done|].
  cbn [repeat]. rewrite body_cons, len_app, IH. lia.
Qed.



(** A body of exactly 15 MiB in 1920 chunks of 8192 bytes, and the same body
    followed by one more byte and by a chunk that is never read. *)
Lemma size_cap_boundary_witness :
  let url := "http://example.org/big.png" in
  let full := repeat (Sample.zeros (N.to_nat 8192)) (N.to_nat 1920) in
  let env := Sample.serving Sample.plain full in
  let over := {| head_of := HeadFails;
                 get_of := GetResponse Sample.plain (full ++ "x" :: ["unread"]) StreamFails;
                 clock_downloaded := 0; clock_image := 0 |} in
  PyStr.len (body full) = MAX_BYTES
  /\ MAX_BYTES < PyStr.len (body full) + PyStr.len "x"
  /\ out_path_of (fs Sample.fresh) Sample.plain url env = "Fetched_Images/big.png"
  /\ out_path_of (fs Sample.fresh) Sample.plain url over = "Fetched_Images/big.png"
  /\ plain_target "Fetched_Images/big.png" = true
  /\ (let s' := fst (respectful_fetch url env Sample.fresh) in
      console s' = [MsgFetched "big.png"; MsgSaved "Fetched_Images/big.png"]
      /\ fs s' !! "Fetched_Images/big.png" = Some (File (body full)))
  /\ (let s' := fst (respectful_fetch url over Sample.fresh) in
      console s' = console Sample.fresh ++ [MsgAborted url]
      /\ fs s' = <[FETCH_DIR := Dir]> (fs Sample.fresh)
      /\ manifest s' = manifest Sample.fresh).
Proof.
  intros url full env over.
  assert (PyStr.len (body full) = MAX_BYTES) as Hlen.
  { unfold full. rewrite len_body_repeat. by vm_compute. }
  assert (MAX_BYTES < PyStr.len (body full) + PyStr.len "x") as Hover.
  { rewrite Hlen. by vm_compute. }
  assert (out_path_of (fs Sample.fresh) Sample.plain url env
          = "Fetched_Images/big.png") as Hp by (by vm_compute).
  assert (out_path_of (fs Sample.fresh) Sample.plain url over
          = "Fetched_Images/big.png") as Hp' by (by vm_compute).
  assert (plain_target "Fetched_Images/big.png" = true) as Hplain by reflexivity.
  destruct size_cap_boundary as (_ & _ & Hat & Habove & _).
  split; [done|]. split; [done|]. split; [exact Hp|]. split; [exact Hp'|].
  split; [exact Hplain|]. split.
  - pose proof (Hat url env Sample.fresh Sample.plain full) as Hrun.
    cbv zeta in Hrun. rewrite Hp in Hrun.
    destruct Hrun as (Hc & _ & Hbody & _).
    + by vm_compute.
    + by vm_compute.
    + split; [reflexivity|]. split; by vm_compute.
    + exact Hlen.
    + by vm_compute.
    + reflexivity.
    + by vm_compute.
    + exact Hplain.
    + split; [exact Hc|]. apply Hbody. by vm_compute.
  - destruct (Habove url over Sample.fresh Sample.plain full "x" ["unread"] StreamFails)
      as (Hc & _ & Hf & Hm).
    + by vm_compute.
    + by vm_compute.
    + reflexivity.
    + by vm_compute.
    + by vm_compute.
    + rewrite Hlen. by vm_compute.
    + exact Hover.
    + by rewrite Hp'.
    + split; [exact Hc|split; [exact Hf|exact Hm]].
Defined.




(** A manifest file that is not JSON, and no manifest file at all. *)
Lemma load_manifest_degrades_to_default_witness :
  let s := initial_state {[ MANIFEST := File (RefLib.q "{'hashes': {") ]} in
  json_load (RefLib.q "{'hashes': {") = None
  /\ load_manifest s = (s, Normal default_manifest)
  /\ load_manifest (initial_state ∅) = (initial_state ∅, Normal default_manifest).
Proof.
  intros s.
  assert (json_load (RefLib.q "{'hashes': {") = None) as Hbad by (by vm_compute).
  destruct (load_manifest_degrades_to_default s) as (_ & _ & Hcorrupt & _).
  destruct (load_manifest_degrades_to_default (initial_state ∅)) as (Habsent & _).
  split; [exact Hbad|]. split.
  - apply (Hcorrupt (RefLib.q "{'hashes': {")); [by vm_compute|exact Hbad].
  - apply Habsent. by vm_compute.
Defined.

(** A manifest file that holds a JSON list, and one that holds an object
    without the two keys. *)
Lemma load_manifest_returns_parsed_content_witness :
  let s1 := initial_state {[ MANIFEST := File "[]" ]} in
  let s2 := initial_state {[ MANIFEST := File (RefLib.q "{'version': 2}") ]} in
  load_manifest s1 = (s1, Normal (JArr []))
  /\ load_manifest s2 = (s2, Normal (JObj [("version", JNum 2)])).
Proof.
  intros s1 s2.
  destruct (load_manifest_returns_parsed_content s1) as (Hkeep1 & _).
  destruct (load_manifest_returns_parsed_content s2) as (Hkeep2 & _).
  split.
  - apply (Hkeep1 "[]"); by vm_compute.
  - apply (Hkeep2 (RefLib.q "{'version': 2}")); by vm_compute.
Defined.

(** A line of three URLs: a server that is down, a page, and an image. *)
Lemma failures_stay_local_to_one_url_witness :
  let line := "http://down.example/a.png, http://example.org/page.html http://example.org/c.png" in
  let page := {| status := 200; headers := {[ "Content-Type" := "text/html" ]} |} in
  let net := fun (i : nat) (_ : string) =>
               match i with
               | O => {| head_of := HeadFails; get_of := GetFails;
                         clock_downloaded := 0; clock_image := 0 |}
               | S O => {| head_of := HeadFails;
                           get_of := GetResponse page ["<html>"] StreamEnds;
                           clock_downloaded := 0; clock_image := 0 |}
               | _ => Sample.serving Sample.plain ["PNG"]
               end in
  let last := main line net (initial_state ∅) in
  PyStr.strip line <> EmptyString
  /\ console (fst last)
     = [MsgWelcome; MsgTagline;
        MsgConnectionError RequestException;
        MsgNotImage "text/html" "http://example.org/page.html";
        MsgFetched "c.png"; MsgSaved "Fetched_Images/c.png";
        MsgFarewell]
  /\ fs (fst last) !! "Fetched_Images/c.png" = Some (File "PNG")
  /\ exit_status (snd last) = 0.
Proof.
  intros line page net last.
  assert (PyStr.strip line <> EmptyString) as Hraw by (by vm_compute).
  destruct failures_stay_local_to_one_url as (_ & Hmain & _ & _ & _ & Hexit).
  destruct (Hmain line net ∅ Hraw) as (m & Hload & Hrun).
  assert (m = default_manifest) as ->.
  { vm_compute in Hload. by injection Hload as <-. }
  split; [exact Hraw|]. unfold last. rewrite Hrun.
  split; [by vm_compute|]. split; [by vm_compute|].
  rewrite <- Hrun. apply Hexit.
Defined.

(** The manifest after the run [A, A, B] of the end-to-end example. *)
Lemma hashes_stay_in_files_from_a_sound_manifest_witness :
  let a := Sample.serving Sample.plain ["AAA"] in
  let b := Sample.serving Sample.plain ["BBB"] in
  let s1 := fst (respectful_fetch "http://example.org/a.png" a Sample.fresh) in
  let s2 := fst (respectful_fetch "http://example.org/a.png" a s1) in
  let s3 := fst (respectful_fetch "http://example.org/b.png" b s2) in
  well_shaped (manifest Sample.fresh) = true
  /\ hashes_in_files (manifest Sample.fresh)
  /\ fetched_from Sample.fresh s3
  /\ well_shaped (manifest s3) = true
  /\ hashes_in_files (manifest s3).
Proof.
  intros a b s1 s2 s3.
  assert (well_shaped (manifest Sample.fresh) = true) as Hshape by (by vm_compute).
  assert (hashes_in_files (manifest Sample.fresh)) as Hinv by apply sound_default.
  assert (fetched_from Sample.fresh s3) as Hrun.
  { repeat apply fetched_step. apply fetched_start. }
  split; [exact Hshape|]. split; [exact Hinv|]. split; [exact Hrun|].
  exact (hashes_stay_in_files_from_a_sound_manifest Sample.fresh s3 Hshape Hinv Hrun).
Defined.

(** The run of the end-to-end example: [A, A, B] with two different bodies
    leaves two files and two hash entries, and marks the second [A] as a
    duplicate of the file stored for the first. *)
Example run_A_A_B :
  let a := "http://example.org/a.png" in
  let b := "http://example.org/b.png" in
  let net := fun (_ : nat) (url : string) =>
               Sample.serving Sample.plain
                 (if String.eqb url a then ["AAA"] else ["BBB"]) in
  let end_ := main (a +:+ ", " +:+ a +:+ " " +:+ b) net (initial_state ∅) in
  exit_status (snd end_) = 0
  /\ console (fst end_)
     = [MsgWelcome; MsgTagline;
        MsgFetched "a.png"; MsgSaved "Fetched_Images/a.png";
        MsgDuplicate (JStr "a.png") a;
        MsgFetched "b.png"; MsgSaved "Fetched_Images/b.png";
        MsgFarewell]
  /\ fs (fst end_) !! "Fetched_Images/a.png" = Some (File "AAA")
  /\ fs (fst end_) !! "Fetched_Images/b.png" = Some (File "BBB")
  /\ fs (fst end_) !! FETCH_DIR = Some Dir
  /\ is_file (fs (fst end_)) MANIFEST
  /\ size (fs (fst end_)) = 4%nat
  /\ length (hashes_of (manifest (fst end_))) = 2%nat
  /\ load_manifest (fst end_) = (fst end_, Normal (manifest (fst end_))).
Proof.
  intros a b net end_.
  split; [|split; [|split; [|split; [|split; [|split; [|split; [|split]]]]]]];
    vm_compute; first [reflexivity | eexists; reflexivity].
Qed.

(** Why the stored file is said to hold the body only when its path is not
    the manifest path: a body served under the name [_manifest.json] into a
    directory that has no manifest yet is written to the manifest path, and
    the save that follows replaces it. *)
Remark manifest_name_is_overwritten :
  let r := Sample.image_response
             [("Content-Disposition", "attachment; filename=_manifest.json")] in
  let s' := fst (respectful_fetch "http://example.org/x" (Sample.serving r ["PNG"])
                   Sample.fresh) in
  out_path_of (fs Sample.fresh) r "http://example.org/x" (Sample.serving r ["PNG"])
  = MANIFEST
  /\ console s' = [MsgFetched "_manifest.json"; MsgSaved MANIFEST]
  /\ fs s' !! MANIFEST = Some (File (json_dumps (manifest s'))).
Proof.
  intros r s'.
  split; [|split]; vm_compute; reflexivity.
Qed.

End Witnesses.
